(** * robothub: frame buffer, live-view registry and camera manager

    A shallow embedding of
      - [src/robothub/frame_buffer.py]   (class [FrameBuffer]),
      - [src/robothub/live_view.py]      (class [LiveView], dict [LIVE_VIEWS]),
      - [src/robothub_depthai/manager.py] (class [HubCameraManager]),
    together with the properties of the design document that concern them.

    Conventions.  Python integers are [Z]; a [deque] and a [queue.Queue] are
    lists in arrival order; the dict [temporary_queues] is a [gmap]; the dict
    [LIVE_VIEWS], whose iteration order matters, is an association list in
    insertion order.  A Python call either returns or raises: [result].  A
    call that may also wait for ever on another thread has an [outcome]. *)

From Stdlib Require Import ZArith Lia.
From stdpp Require Import base option list functions gmap strings.

Set Default Proof Using "Type".

(** ** Exceptions and results *)

Inductive exn : Type :=
| ImportError (msg : string)
| ValueError (msg : string)
| IndexError (msg : string)
| TypeError (msg : string)
| KeyError (msg : string)
| RuntimeError (msg : string)
| Exception (msg : string).

Inductive result (A : Type) : Type :=
| Ok (a : A)
| Raise (e : exn).
Arguments Ok {A} a.
Arguments Raise {A} e.

Inductive outcome (A : Type) : Type :=
| Returned (a : A)
| Raised (e : exn)
| Blocked.
Arguments Returned {A} a.
Arguments Raised {A} e.
Arguments Blocked {A}.

Definition exn_message (e : exn) : string :=
  match e with
  | ImportError m | ValueError m | IndexError m | TypeError m
  | KeyError m | RuntimeError m | Exception m => m
  end.

(** ** frame_buffer.py *)

Module FrameBuffer.

(** A packet as the buffer sees it: [p.msg.getTimestamp()] is a
    [datetime.timedelta], an integer number of microseconds. *)
Record Packet : Type := mkPacket {
  getTimestamp : Z;
  msg : string
}.

#[global] Instance Packet_eq_dec : EqDecision Packet.
Proof. solve_decision. Defined.

(** [datetime.timedelta(seconds=s)] for an integer [s]. *)
Definition timedelta_seconds (s : Z) : Z := (s * 1000000)%Z.

(** The largest number of whole seconds a [datetime.timedelta] holds:
    999999999 days, 23 hours, 59 minutes and 59 seconds; above it
    [datetime.timedelta(seconds=s)] is an [OverflowError]. *)
Definition timedelta_max_seconds : Z := (999999999 * 86400 + 86399)%Z.

(** [sys.maxsize] of a 64-bit CPython: the largest index [itertools.islice]
    takes. *)
Definition sys_maxsize : Z := (2 ^ 63 - 1)%Z.

Definition uuid : Type := N.

(** [self.buffer] is a [deque(maxlen=maxlen)], [self.temporary_queues] a dict
    from the uuid of a request to its [Queue]. *)
Record t : Type := mk {
  buffer : list Packet;
  maxlen : option nat;
  temporary_queues : gmap uuid (list Packet)
}.

Definition set_buffer (b : list Packet) (fb : t) : t :=
  mk b (maxlen fb) (temporary_queues fb).
Definition set_temporary_queues (q : gmap uuid (list Packet)) (fb : t) : t :=
  mk (buffer fb) (maxlen fb) q.

(** [FrameBuffer.__init__]: [deque(maxlen=...)] refuses a negative bound. *)
Definition init (maxlen : option Z) : result t :=
  match maxlen with
  | None => Ok (mk [] None ∅)
  | Some n =>
      if (n <? 0)%Z then Raise (ValueError "maxlen must be non-negative")
      else Ok (mk [] (Some (Z.to_nat n)) ∅)
  end.

(** [deque.append]: the item is added on the right and, when the deque is
    bounded and now longer than its bound, one item is dropped on the left. *)
Definition deque_append (maxlen : option nat) (d : list Packet) (p : Packet)
  : list Packet :=
  match maxlen with
  | None => d ++ [p]
  | Some n => if n <? length (d ++ [p]) then drop 1 (d ++ [p]) else d ++ [p]
  end.

Definition islice_stop_msg : string :=
  "Stop argument for islice() must be None or an integer: 0 <= x <= sys.maxsize.".
Definition islice_indices_msg : string :=
  "Indices for islice() must be None or an integer: 0 <= x <= sys.maxsize.".

(** [itertools.islice(iterable, start, stop)] with an integer [start]. *)
Definition islice {A : Type} (l : list A) (start : Z) (stop : option Z)
  : result (list A) :=
  match stop with
  | Some e =>
      if (e =? -1)%Z then Raise (ValueError islice_stop_msg)
      else if ((start <? 0) || (e <? -1))%Z
      then Raise (ValueError islice_indices_msg)
      else Ok (take (Z.to_nat e - Z.to_nat start) (drop (Z.to_nat start) l))
  | None =>
      if (start <? 0)%Z then Raise (ValueError islice_indices_msg)
      else Ok (drop (Z.to_nat start) l)
  end.

Definition get_slice (self : t) (start : Z) (end_ : option Z)
  : result (list Packet) :=
  islice (buffer self) start end_.

(** [default_callback]: append to the deque, then [put] into every queue of
    [temporary_queues]. *)
Definition default_callback (self : t) (packet : Packet) : t :=
  mk (deque_append (maxlen self) (buffer self) packet)
     (maxlen self)
     ((λ q, q ++ [packet]) <$> temporary_queues self).

Definition push_all (self : t) (packets : list Packet) : t :=
  foldl default_callback self packets.

(** What [_mux_video] returns: [str(video_path)] or the bytes of the file. *)
Inductive video : Type :=
| VideoPath (path : string)
| VideoBytes (data : list Byte.byte).

Definition av_missing_msg : string :=
  "av library is not installed. Cannot save video. Please make sure PyAV is installed (`pip install pyav`).".
Definition negative_seconds_msg : string :=
  "`before_seconds` and `after_seconds` must be positive.".
Definition none_minus_int_msg : string :=
  "unsupported operand type(s) for -: 'NoneType' and 'int'".
Definition list_index_msg : string := "list index out of range".

Section SaveVideo.

(** The muxing collaborator ([AvWriter] and the temporary directory): the
    path of the file it writes and the bytes of that file. *)
Variable av_writer_path :
  list Packet → Z → Z → Z → string.
Variable av_writer_bytes :
  list Packet → Z → Z → Z → list Byte.byte.

(** Whether [import av] succeeded ([av] is [None] otherwise). *)
Variable av : bool.

Definition _mux_video (packets : list Packet)
    (fps frame_width frame_height : Z) (return_bytes : bool) : video :=
  if negb return_bytes
  then VideoPath (av_writer_path packets fps frame_width frame_height)
  else VideoBytes (av_writer_bytes packets fps frame_width frame_height).

(** The state of the inner loop [wait_until_complete]. *)
Inductive waited : Type :=
| Broke
| StillWaiting
| WaitRaised (e : exn).

(** [wait_until_complete], run against the packets [incoming] that the
    ingestion thread pushes (through [default_callback]) while the request
    waits.  Each turn of [while True] takes one item from the request's own
    queue, [get(block=True)]; with nothing more pushed the [get] never
    returns.  The result carries the packets not yet pushed when the loop
    broke. *)
Fixpoint wait_until_complete (queue_uuid : uuid)
    (latest_t_before after_seconds : Z)
    (self : t) (video_frames_after : list Packet) (incoming : list Packet)
  : t * list Packet * waited * list Packet :=
  match incoming with
  | [] => (self, video_frames_after, StillWaiting, [])
  | pushed :: rest =>
      let self := default_callback self pushed in
      match temporary_queues self !! queue_uuid with
      | None => (self, video_frames_after, WaitRaised (KeyError "queue_uuid"), rest)
      | Some [] =>
          wait_until_complete queue_uuid latest_t_before after_seconds
            self video_frames_after rest
      | Some (p :: q) =>
          let self := set_temporary_queues
                        (<[queue_uuid := q]> (temporary_queues self)) self in
          let timestamp := getTimestamp p in
          let video_frames_after :=
            if (latest_t_before <? timestamp)%Z
            then video_frames_after ++ [p] else video_frames_after in
          if (timedelta_seconds after_seconds <? timestamp - latest_t_before)%Z
          then (self, video_frames_after, Broke, rest)
          else wait_until_complete queue_uuid latest_t_before after_seconds
                 self video_frames_after rest
      end
  end.

(** [save_video].  [queue_uuid] is the value of [uuid.uuid4()]; the result is
    the buffer afterwards, what the call did, and the packets of [incoming]
    not pushed before it ended. *)
Definition save_video (queue_uuid : uuid) (self : t)
    (before_seconds after_seconds fps frame_width frame_height : Z)
    (return_bytes : bool) (incoming : list Packet)
  : t * outcome video * list Packet :=
  if negb av then (self, Raised (ImportError av_missing_msg), incoming)
  else if ((before_seconds <? 0) || (after_seconds <? 0))%Z
  then (self, Raised (ValueError negative_seconds_msg), incoming)
  else
    match maxlen self with
    | None => (self, Raised (TypeError none_minus_int_msg), incoming)
    | Some n =>
        match get_slice self (Z.of_nat n - before_seconds * fps) None with
        | Raise e => (self, Raised e, incoming)
        | Ok video_frames_before =>
            let self := set_temporary_queues
                          (<[queue_uuid := []]> (temporary_queues self)) self in
            match last video_frames_before with
            | None => (self, Raised (IndexError list_index_msg), incoming)
            | Some p =>
                let latest_t_before := getTimestamp p in
                match wait_until_complete queue_uuid latest_t_before
                        after_seconds self [] incoming with
                | (self, _, StillWaiting, rest) => (self, Blocked, rest)
                | (self, _, WaitRaised e, rest) => (self, Raised e, rest)
                | (self, video_frames_after, Broke, rest) =>
                    let self := set_temporary_queues
                                  (delete queue_uuid (temporary_queues self))
                                  self in
                    (self,
                     Returned (_mux_video
                                 (video_frames_before ++ video_frames_after)
                                 fps frame_width frame_height return_bytes),
                     rest)
                end
            end
        end
    end.

End SaveVideo.

End FrameBuffer.

(** ** live_view.py *)

Module LiveView.

(** The classes [create] dispatches on with [isinstance]. *)
Inductive ComponentClass : Type :=
| CameraComponent
| StereoComponent
| NNComponent.

Inductive Profile : Type :=
| H264_MAIN
| H265_MAIN
| MJPEG.

#[global] Instance Profile_eq_dec : EqDecision Profile.
Proof. solve_decision. Defined.

(** What [create] reads of a component: its class, the profile of its
    encoder if it has one, its frame rate ([_fps], [get_fps()]) and its
    stream size ([stream_size], [left.stream_size], [_input.stream_size]). *)
Record Component : Type := mkComponent {
  cls : ComponentClass;
  encoder : option Profile;
  component_fps : Z;
  stream_size : Z * Z
}.

Definition class_name (c : ComponentClass) : string :=
  match c with
  | CameraComponent => "CameraComponent"
  | StereoComponent => "StereoComponent"
  | NNComponent => "NNComponent"
  end.

(** [component.__class__.__name__.lower()] *)
Definition class_name_lower (c : ComponentClass) : string :=
  match c with
  | CameraComponent => "cameracomponent"
  | StereoComponent => "stereocomponent"
  | NNComponent => "nncomponent"
  end.

Record t : Type := mk {
  name : string;
  unique_key : string;
  device_mxid : string;
  frame_width : Z;
  frame_height : Z;
  fps : Z;
  frame_buffer : FrameBuffer.t
}.

(** [LiveView.__init__]; the stream handle comes from the streaming
    collaborator and is not kept here. *)
Definition init (name unique_key device_mxid : string)
    (frame_width frame_height fps max_buffer_size : Z) : result t :=
  match FrameBuffer.init (Some (max_buffer_size * fps)%Z) with
  | Raise e => Raise e
  | Ok fb => Ok (mk name unique_key device_mxid frame_width frame_height fps fb)
  end.

Definition _get_component_fps (component : Component) : Z :=
  match cls component with
  | StereoComponent => component_fps component
  | CameraComponent => component_fps component
  | NNComponent => 30%Z
  end.

Definition _is_encoder_enabled (component : Component) : result bool :=
  match cls component with
  | NNComponent =>
      Raise (ValueError ("Component " +:+ class_name (cls component)
                         +:+ " must be a CameraComponent or StereoComponent."))
  | _ =>
      match encoder component with
      | Some p => if decide (p = H264_MAIN) then Ok true else Ok false
      | None => Ok true
      end
  end.

Definition _get_stream_size (component : Component) : Z * Z :=
  stream_size component.

(** ** The registry [LIVE_VIEWS]

    A Python dict read in insertion order: assigning to a key that is
    present replaces the value where it stands, assigning to a new key puts
    the entry last. *)
Definition registry : Type := list (string * t).

Fixpoint dict_setitem (d : registry) (k : string) (v : t) : registry :=
  match d with
  | [] => [(k, v)]
  | (k', v') :: rest =>
      if decide (k' = k) then (k', v) :: rest
      else (k', v') :: dict_setitem rest k v
  end.

Fixpoint dict_getitem (d : registry) (k : string) : option t :=
  match d with
  | [] => None
  | (k', v') :: rest => if decide (k' = k) then Some v' else dict_getitem rest k
  end.

(** [LIVE_VIEWS.values()] *)
Definition values (d : registry) : list t := snd <$> d.
Definition keys (d : registry) : list string := fst <$> d.

(** [LiveView.create].  [device_mxid] is [device.device.getMxId()]; the
    encoder set up by [_h264_output] and the callback registered on the
    device belong to the SDK and leave the registry alone.  The result is the
    new Live View and the registry after [LIVE_VIEWS[unique_key] = live_view]. *)
Definition create (LIVE_VIEWS : registry) (device_mxid : string)
    (component : Component) (name : string) (unique_key : option string)
    (manual_publish : bool) (max_buffer_size : Z) : result (t * registry) :=
  match _is_encoder_enabled component with
  | Raise e => Raise e
  | Ok is_h264 =>
      let '(w, h) := _get_stream_size component in
      let fps := _get_component_fps component in
      let derived := device_mxid +:+ "_" +:+ class_name_lower (cls component)
                     +:+ "_encoded" in
      let unique_key :=
        match unique_key with
        | Some k => if decide (k = "") then derived else k
        | None => derived
        end in
      match init name unique_key device_mxid w h fps max_buffer_size with
      | Raise e => Raise e
      | Ok live_view => Ok (live_view, dict_setitem LIVE_VIEWS unique_key live_view)
      end
  end.

(** [get_by_name]: the first value, in dict order, that carries the name. *)
Fixpoint get_by_name_values (vs : list t) (n : string) : option t :=
  match vs with
  | [] => None
  | live_view :: rest =>
      if decide (name live_view = n) then Some live_view
      else get_by_name_values rest n
  end.

Definition get_by_name (LIVE_VIEWS : registry) (n : string) : option t :=
  get_by_name_values (values LIVE_VIEWS) n.

Definition get_by_unique_key (LIVE_VIEWS : registry) (k : string) : result t :=
  match dict_getitem LIVE_VIEWS k with
  | None => Raise (ValueError ("Live View with unique_key " +:+ k
                               +:+ " does not exist."))
  | Some live_view => Ok live_view
  end.

Definition get (LIVE_VIEWS : registry) (unique_key name : option string)
  : result (option t) :=
  match name, unique_key with
  | Some n, _ => Ok (get_by_name LIVE_VIEWS n)
  | None, Some k =>
      match get_by_unique_key LIVE_VIEWS k with
      | Ok v => Ok (Some v)
      | Raise e => Raise e
      end
  | None, None => Raise (ValueError "Either name or unique_key must be specified.")
  end.

(** ** [save_video_event] and the thread it starts *)

(** The values [save_video_event] puts in [kwargs]: integers, a boolean, and
    the closure [on_complete], which holds [title]. *)
Inductive pyval : Type :=
| PInt (z : Z)
| PBool (b : bool)
| POnComplete (title : string).

(** A [threading.Thread] whose target is [self.frame_buffer.save_video]. *)
Record Thread : Type := mkThread {
  kwargs : list (string * pyval);
  daemon : bool
}.

Definition buffer_disabled_msg : string :=
  "You have set `max_buffer_size` to zero, therefore you cannot use frame buffer.".

(** [save_video_event]: the thread it has started, or the exception. *)
Definition save_video_event (self : t) (before_seconds after_seconds : Z)
    (title : string) : result Thread :=
  if decide (FrameBuffer.maxlen (frame_buffer self) = Some 0)
  then Raise (Exception buffer_disabled_msg)
  else
    Ok (mkThread
          [("before_seconds", PInt before_seconds);
           ("after_seconds", PInt after_seconds);
           ("fps", PInt (fps self));
           ("frame_width", PInt (frame_width self));
           ("frame_height", PInt (frame_height self));
           ("on_complete", POnComplete title);
           ("delete_after_complete", PBool true)]
          true).

(** The parameters of [FrameBuffer.save_video] after [self]; only
    [return_bytes] has a default. *)
Definition save_video_params : list string :=
  ["before_seconds"; "after_seconds"; "fps"; "frame_width"; "frame_height";
   "return_bytes"].

(** Binding keyword arguments: the first keyword, in the order of the dict,
    that names no parameter is refused. *)
Fixpoint unexpected_keyword (params : list string)
    (kw : list (string * pyval)) : option string :=
  match kw with
  | [] => None
  | (k, _) :: rest =>
      if decide (k ∈ params) then unexpected_keyword params rest else Some k
  end.

Fixpoint kw_lookup (kw : list (string * pyval)) (k : string) : option pyval :=
  match kw with
  | [] => None
  | (k', v) :: rest => if decide (k' = k) then Some v else kw_lookup rest k
  end.

Definition kw_int (kw : list (string * pyval)) (k : string) : result Z :=
  match kw_lookup kw k with
  | Some (PInt z) => Ok z
  | Some _ => Raise (TypeError ("bad operand type for argument '" +:+ k +:+ "'"))
  | None =>
      Raise (TypeError ("FrameBuffer.save_video() missing 1 required positional argument: '"
                        +:+ k +:+ "'"))
  end.

Definition unexpected_keyword_msg (k : string) : string :=
  "FrameBuffer.save_video() got an unexpected keyword argument '" +:+ k +:+ "'".

(** One call of [send_video_event(video_path, title)]. *)
Record VideoEvent : Type := mkVideoEvent {
  event_video : FrameBuffer.video;
  event_title : string
}.

Section ThreadRun.

Variable av_writer_path : list FrameBuffer.Packet → Z → Z → Z → string.
Variable av_writer_bytes : list FrameBuffer.Packet → Z → Z → Z → list Byte.byte.
Variable av : bool.

(** [Thread.run] calls the target, the bound method
    [frame_buffer.save_video], with the keyword arguments [kwargs].  The result is the buffer afterwards,
    what the call did, and the video events sent by [on_complete]; no
    statement of [save_video] calls [on_complete]. *)
Definition thread_run (queue_uuid : FrameBuffer.uuid) (self : t) (th : Thread)
    (incoming : list FrameBuffer.Packet)
  : FrameBuffer.t * outcome FrameBuffer.video * list VideoEvent :=
  let fb := frame_buffer self in
  let kw := kwargs th in
  match unexpected_keyword save_video_params kw with
  | Some k => (fb, Raised (TypeError (unexpected_keyword_msg k)), [])
  | None =>
      match kw_int kw "before_seconds", kw_int kw "after_seconds",
            kw_int kw "fps", kw_int kw "frame_width", kw_int kw "frame_height" with
      | Ok b, Ok a, Ok f, Ok w, Ok h =>
          let return_bytes :=
            match kw_lookup kw "return_bytes" with
            | Some (PBool r) => r
            | _ => false
            end in
          let '(fb', out, _) :=
            FrameBuffer.save_video av_writer_path av_writer_bytes av
              queue_uuid fb b a f w h return_bytes incoming in
          (fb', out, [])
      | Raise e, _, _, _, _ | _, Raise e, _, _, _ | _, _, Raise e, _, _
      | _, _, _, Raise e, _ | _, _, _, _, Raise e => (fb, Raised e, [])
      end
  end.

End ThreadRun.

End LiveView.

(** ** robothub_depthai/manager.py *)

Module Manager.

(** Python objects are shared: the lists of the manager hold references
    ([loc]) to [Device] objects, which live in one store ([heap]). *)
Definition loc : Type := nat.

Inductive DeviceState : Type :=
| DISCONNECTED
| CONNECTING
| CONNECTED.

#[global] Instance DeviceState_eq_dec : EqDecision DeviceState.
Proof. solve_decision. Defined.

(** What the manager reads and writes of a device: [device_mxid], [state]
    and [hub_camera], the open session or [None]. *)
Record Device : Type := mkDevice {
  device_mxid : string;
  state : DeviceState;
  hub_camera : option nat
}.

Definition set_hub_camera (h : option nat) (d : Device) : Device :=
  mkDevice (device_mxid d) (state d) h.

Record t : Type := mk {
  _devices : list loc;
  _connected_devices : list loc;
  running : bool;
  stop_event : bool;
  heap : loc → Device
}.

Definition set_devices (l : list loc) (m : t) : t :=
  mk l (_connected_devices m) (running m) (stop_event m) (heap m).
Definition set_connected_devices (l : list loc) (m : t) : t :=
  mk (_devices m) l (running m) (stop_event m) (heap m).
Definition set_running (b : bool) (m : t) : t :=
  mk (_devices m) (_connected_devices m) b (stop_event m) (heap m).
Definition set_stop_event (b : bool) (m : t) : t :=
  mk (_devices m) (_connected_devices m) (running m) b (heap m).
Definition set_heap (h : loc → Device) (m : t) : t :=
  mk (_devices m) (_connected_devices m) (running m) (stop_event m) h.

(** [HubCameraManager.__init__] *)
Definition init (h : loc → Device) : t := mk [] [] false false h.

Definition add_device (self : t) (device : loc) : t :=
  set_devices (_devices self ++ [device]) self.

(** [list.remove]: the first occurrence goes; an absent item is an error. *)
Fixpoint list_remove (l : list loc) (x : loc) : option (list loc) :=
  match l with
  | [] => None
  | y :: rest =>
      if decide (y = x) then Some rest
      else match list_remove rest x with
           | Some rest' => Some (y :: rest')
           | None => None
           end
  end.

Definition remove_device (self : t) (device : loc) : result t :=
  match list_remove (_devices self) device with
  | Some l => Ok (set_devices l self)
  | None => Raise (ValueError "list.remove(x): x not in list")
  end.

(** The identities held by the device list. *)
Definition mxids (self : t) : list string :=
  (λ d, device_mxid (heap self d)) <$> _devices self.

(** The test of [_connect]: with as many connected devices as devices the
    loop sleeps, otherwise it goes round again (the reconnection itself is
    a TODO in the source). *)
Definition connect_idles (self : t) : bool :=
  bool_decide (length (_connected_devices self) = length (_devices self)).

Inductive AgentMsg : Type :=
| DeviceInfo (info : string)
| DeviceStats (stats : string).

Definition none_exit_msg : string :=
  "'NoneType' object has no attribute '__exit__'".
Definition destroy_msg (e : string) : string :=
  "Destroy all streams excepted with: " +:+ e +:+ ".".
Definition exit_msg (mxid e : string) : string :=
  "Device " +:+ mxid +:+ ": could not exit with exception: " +:+ e +:+ ".".

(** A thread of the manager: not started, about to test [self.running],
    inside [stop_event.wait], or returned from its target. *)
Inductive ThreadPc : Type :=
| NotStarted
| AtGuard
| InWait
| Finished.

Definition is_alive (th : ThreadPc) : bool :=
  match th with
  | AtGuard | InWait => true
  | NotStarted | Finished => false
  end.

(** [Thread.start] *)
Definition thread_start (th : ThreadPc) : result ThreadPc :=
  match th with
  | NotStarted => Ok AtGuard
  | _ => Raise (RuntimeError "threads can only be started once")
  end.

(** Where the control thread stands: between calls (with the exception of
    the last call, if it raised), in the waiting loop of [start], or in
    [stop] at one of the joins or at the release of streams and sessions. *)
Inductive MainPc : Type :=
| Ready (raised : option exn)
| InStart
| JoinConnection
| JoinReporting
| JoinPolling
| Release.

Record System : Type := mkSystem {
  mgr : t;
  connection_thread : ThreadPc;
  reporting_thread : ThreadPc;
  polling_thread : ThreadPc;
  main : MainPc;
  now : nat;
  agent : list AgentMsg;
  exited : list loc
}.

Definition with_mgr (m : t) (s : System) : System :=
  mkSystem m (connection_thread s) (reporting_thread s) (polling_thread s)
    (main s) (now s) (agent s) (exited s).
Definition with_connection (th : ThreadPc) (s : System) : System :=
  mkSystem (mgr s) th (reporting_thread s) (polling_thread s)
    (main s) (now s) (agent s) (exited s).
Definition with_reporting (th : ThreadPc) (s : System) : System :=
  mkSystem (mgr s) (connection_thread s) th (polling_thread s)
    (main s) (now s) (agent s) (exited s).
Definition with_polling (th : ThreadPc) (s : System) : System :=
  mkSystem (mgr s) (connection_thread s) (reporting_thread s) th
    (main s) (now s) (agent s) (exited s).
Definition with_main (pc : MainPc) (s : System) : System :=
  mkSystem (mgr s) (connection_thread s) (reporting_thread s)
    (polling_thread s) pc (now s) (agent s) (exited s).
Definition with_agent (a : list AgentMsg) (s : System) : System :=
  mkSystem (mgr s) (connection_thread s) (reporting_thread s)
    (polling_thread s) (main s) (now s) a (exited s).
Definition with_exited (l : list loc) (s : System) : System :=
  mkSystem (mgr s) (connection_thread s) (reporting_thread s)
    (polling_thread s) (main s) (now s) (agent s) l.
Definition tick (s : System) : System :=
  mkSystem (mgr s) (connection_thread s) (reporting_thread s)
    (polling_thread s) (main s) (S (now s)) (agent s) (exited s).

(** A manager just constructed, over a store of devices. *)
Definition boot (h : loc → Device) : System :=
  mkSystem (init h) NotStarted NotStarted NotStarted (Ready None) 0 [] [].

(** What can happen next: the discovery mechanism calls [add_device] or
    [remove_device], the control thread calls [start] or [stop] or goes on
    with the call it is in, or one of the three loops takes a step. *)
Inductive Event : Type :=
| CallAddDevice (d : loc)
| CallRemoveDevice (d : loc)
| CallStart
| CallStop
| MainStep
| ConnectionStep
| ReportingStep
| PollingStep.

Section Collaborators.

(** The attribute [self.booted_cameras], read by [_report], [_poll] and
    [stop]: manager.py does not define it, so it is any reading of the
    manager that yields a list of devices. *)
Variable booted_cameras : t → list loc.

(** [Device.poll()] at a given time: [True], or [False] on disconnection. *)
Variable poll : nat → Device → bool.

(** The driver opening a session for an identity, or failing. *)
Variable open_session : string → option nat.

(** [hub_camera.__exit__(...)] on a session: [None], or the text of the
    exception it raises. *)
Variable hub_camera_exit : nat → option string.

(** [robothub.STREAMS.destroy_all_streams()]: [None], or the text of the
    exception it raises. *)
Variable destroy_all_streams : option string.

(** The reports of a device and the agent that publishes them. *)
Variable info_report : Device → result string.
Variable stats_report : Device → result string.
Variable publish_device_info : string → bool.
Variable publish_device_stats : string → bool.

(** Modelled from the spec: [Device.start], whose class is not in
    manager.py.  "start() opens a session (fails fast if the underlying
    device cannot be opened -- propagated, not retried)"; the session is
    "opened on start". *)
Definition device_start (d : Device) : result Device :=
  match open_session (device_mxid d) with
  | Some session => Ok (mkDevice (device_mxid d) CONNECTED (Some session))
  | None => Raise (RuntimeError ("Device " +:+ device_mxid d +:+ ": could not be opened."))
  end.

(** The [for] loop of [start]: start each device, then append it to
    [_connected_devices]; an exception of [device.start()] ends the call. *)
Fixpoint start_devices (self : t) (devices : list loc) : t * option exn :=
  match devices with
  | [] => (self, None)
  | device :: rest =>
      match device_start (heap self device) with
      | Raise e => (self, Some e)
      | Ok d' =>
          start_devices
            (set_connected_devices (_connected_devices self ++ [device])
               (set_heap (<[device := d']> (heap self)) self))
            rest
      end
  end.

(** One camera of [_report]: the four calls stand in one [try]; the first
    that raises ends the turn for this camera. *)
Definition report_camera (d : Device) : list AgentMsg :=
  match info_report d with
  | Raise _ => []
  | Ok device_info =>
      match stats_report d with
      | Raise _ => []
      | Ok device_stats =>
          if publish_device_info device_info
          then DeviceInfo device_info ::
               (if publish_device_stats device_stats
                then [DeviceStats device_stats] else [])
          else []
      end
  end.

(** The body of the [while] of [_report], up to the wait. *)
Definition _report_pass (self : t) : list AgentMsg :=
  flat_map (λ camera, report_camera (heap self camera)) (booted_cameras self).

(** One camera of [_poll]: a failed [poll()] clears [hub_camera]. *)
Definition poll_camera (time : nat) (h : loc → Device) (camera : loc)
  : loc → Device :=
  if poll time (h camera) then h
  else <[camera := set_hub_camera None (h camera)]> h.

(** The body of the [while] of [_poll], up to the wait. *)
Definition _poll_pass (time : nat) (self : t) : t :=
  set_heap (foldl (poll_camera time) (heap self) (booted_cameras self)) self.

(** The [for] loop of [stop]: the sessions whose [__exit__] was called, in
    order, and the exception raised, if any. *)
Fixpoint exit_cameras (h : loc → Device) (cameras : list loc)
    (attempted : list loc) : list loc * option exn :=
  match cameras with
  | [] => (attempted, None)
  | camera :: rest =>
      if decide (state (h camera) = DISCONNECTED)
      then exit_cameras h rest attempted
      else
        match hub_camera (h camera) with
        | None =>
            (attempted,
             Some (Exception (exit_msg (device_mxid (h camera)) none_exit_msg)))
        | Some session =>
            match hub_camera_exit session with
            | None => exit_cameras h rest (attempted ++ [camera])
            | Some e =>
                (attempted ++ [camera],
                 Some (Exception (exit_msg (device_mxid (h camera)) e)))
            end
        end
  end.

(** [stop] after the joins: destroy the streams, then close the sessions. *)
Definition stop_release (self : t) : list loc * option exn :=
  match destroy_all_streams with
  | Some e => ([], Some (Exception (destroy_msg e)))
  | None => exit_cameras (heap self) (booted_cameras self) []
  end.

(** [start] from the call to the waiting loop: set [running], start the
    connection thread. *)
Definition call_start (s : System) : System :=
  let s := with_mgr (set_running true (mgr s)) s in
  match thread_start (connection_thread s) with
  | Raise e => with_main (Ready (Some e)) s
  | Ok th => with_main InStart (with_connection th s)
  end.

(** [start] from the waiting loop on: stay while no device is there;
    otherwise start the devices, then the reporting and polling threads. *)
Definition start_step (s : System) : System :=
  if running (mgr s) && bool_decide (_devices (mgr s) = [])
  then s
  else
    match start_devices (mgr s) (_devices (mgr s)) with
    | (m, Some e) => with_main (Ready (Some e)) (with_mgr m s)
    | (m, None) =>
        let s := with_mgr m s in
        match thread_start (reporting_thread s) with
        | Raise e => with_main (Ready (Some e)) s
        | Ok th =>
            let s := with_reporting th s in
            match thread_start (polling_thread s) with
            | Raise e => with_main (Ready (Some e)) s
            | Ok th => with_main (Ready None) (with_polling th s)
            end
        end
    end.

(** [stop] up to the first join: [self.stop_event.set()]. *)
Definition call_stop (s : System) : System :=
  with_main JoinConnection (with_mgr (set_stop_event true (mgr s)) s).

(** [__graceful_thread_join]: [join] returns once the thread is not alive. *)
Definition join_step (th : ThreadPc) (next : MainPc) (s : System) : System :=
  if is_alive th then s else with_main next s.

Definition release_step (s : System) : System :=
  let '(attempted, raised) := stop_release (mgr s) in
  with_main (Ready raised) (with_exited (exited s ++ attempted) s).

Definition main_step (s : System) : System :=
  match main s with
  | Ready _ => s
  | InStart => start_step s
  | JoinConnection => join_step (connection_thread s) JoinReporting s
  | JoinReporting => join_step (reporting_thread s) JoinPolling s
  | JoinPolling => join_step (polling_thread s) Release s
  | Release => release_step s
  end.

(** [_connect]: [while self.running]; equal lengths, wait and go round. *)
Definition connection_step (s : System) : System :=
  match connection_thread s with
  | AtGuard =>
      if running (mgr s)
      then if connect_idles (mgr s) then with_connection InWait s else s
      else with_connection Finished s
  | InWait => with_connection AtGuard s
  | _ => s
  end.

(** [_report]: [while self.running]; one pass, then the wait. *)
Definition reporting_step (s : System) : System :=
  match reporting_thread s with
  | AtGuard =>
      if running (mgr s)
      then with_reporting InWait
             (with_agent (agent s ++ _report_pass (mgr s)) s)
      else with_reporting Finished s
  | InWait => with_reporting AtGuard s
  | _ => s
  end.

(** [_poll]: [while self.running]; one pass, then the wait. *)
Definition polling_step (s : System) : System :=
  match polling_thread s with
  | AtGuard =>
      if running (mgr s)
      then with_polling InWait (with_mgr (_poll_pass (now s) (mgr s)) s)
      else with_polling Finished s
  | InWait => with_polling AtGuard s
  | _ => s
  end.

Definition is_ready (pc : MainPc) : bool :=
  match pc with Ready _ => true | _ => false end.

(** One event.  A call of [start] or [stop] needs the control thread to be
    between calls; [remove_device] of an absent device raises to its caller
    and changes nothing.  The body of a loop, from the test of
    [self.running] to the wait, is one step, and so is the [for] loop of
    [start]: each walks the list it found when it began. *)
Definition step (s : System) (ev : Event) : System :=
  tick
    match ev with
    | CallAddDevice d => with_mgr (add_device (mgr s) d) s
    | CallRemoveDevice d =>
        match remove_device (mgr s) d with
        | Ok m => with_mgr m s
        | Raise _ => s
        end
    | CallStart => if is_ready (main s) then call_start s else s
    | CallStop => if is_ready (main s) then call_stop s else s
    | MainStep => main_step s
    | ConnectionStep => connection_step s
    | ReportingStep => reporting_step s
    | PollingStep => polling_step s
    end.

Definition run (s : System) (evs : list Event) : System := foldl step s evs.

(** The cameras of a list whose state is not [DISCONNECTED]: the ones
    [stop] tries to close. *)
Definition open_cameras (h : loc → Device) (cameras : list loc) : list loc :=
  filter (λ c, state (h c) ≠ DISCONNECTED) cameras.

(** What closing the session of a camera raises, if anything: without a
    session the call of [__exit__] on [None] is itself the error. *)
Definition exit_error (h : loc → Device) (camera : loc) : option string :=
  match hub_camera (h camera) with
  | None => Some none_exit_msg
  | Some session => hub_camera_exit session
  end.

(** The close of a camera is attempted when there is a session to close. *)
Definition attempted_at (h : loc → Device) (camera : loc) : list loc :=
  match hub_camera (h camera) with
  | Some _ => [camera]
  | None => []
  end.

(** A camera the loop of [stop] gets past: disconnected, or closed without
    an exception. *)
Definition passes (h : loc → Device) (camera : loc) : Prop :=
  state (h camera) = DISCONNECTED ∨ exit_error h camera = None.

(** [stop] has set the event and waits in its first join, with the three
    loops alive and [running] still set. *)
Definition stop_blocked (s : System) : Prop :=
  running (mgr s) = true
  ∧ stop_event (mgr s) = true
  ∧ main s = JoinConnection
  ∧ is_alive (connection_thread s) = true
  ∧ is_alive (reporting_thread s) = true
  ∧ is_alive (polling_thread s) = true.

(** A sequence of events in which every [add_device] brings an identity
    that the device list does not hold at that moment. *)
Fixpoint adds_fresh (s : System) (evs : list Event) : Prop :=
  match evs with
  | [] => True
  | ev :: rest =>
      match ev with
      | CallAddDevice d => device_mxid (heap (mgr s) d) ∉ mxids (mgr s)
      | _ => True
      end
      ∧ adds_fresh (step s ev) rest
  end.

End Collaborators.

End Manager.

(** ** robohub_depthai/manager.py, the earlier manager *)

Module OldManager.
Import Manager.

(** What the manager reads of a [HubCamera]: the serial number it was made
    from and [camera.device.state]. *)
Record HubCamera : Type := mkHubCamera {
  serial : string;
  device_state : DeviceState
}.

Definition destroy_msg (e : string) : string :=
  "Destroy all streams excepted with: " +:+ e.
Definition exit_msg (e : string) : string :=
  "Could not exit device with error: " +:+ e.

(** Where the control thread stands: between calls, or in [stop], waiting
    for the reporting thread, waiting for the polling thread, or at the
    shutdown of the agent, the streams and the cameras. *)
Inductive MainPc : Type :=
| Ready (raised : option exn)
| WaitReporting
| WaitPolling
| Release.

(** The manager with its threads, and what it has done to the world: the
    messages the agent published, the cameras polled, the cameras whose
    [__exit__] was called, the calls of [destroy_all_streams], and whether
    [AGENT.shutdown()] was called. *)
Record System : Type := mkSystem {
  hub_cameras : list HubCamera;
  stop_event : bool;
  reporting_thread : ThreadPc;
  polling_thread : ThreadPc;
  main : MainPc;
  now : nat;
  agent : list AgentMsg;
  polled : list string;
  exited : list string;
  destroyed : nat;
  agent_shutdown : bool
}.

(** [HubCameraManager.__init__] over the cameras made from [devices]. *)
Definition boot (cameras : list HubCamera) : System :=
  mkSystem cameras false NotStarted NotStarted (Ready None) 0 [] [] [] 0 false.

Inductive Event : Type :=
| CallStart
| CallStop
| MainStep
| ReportingStep
| PollingStep.

Section Collaborators.

(** [camera.start()] and [camera.poll()]: [None], or the text of the
    exception. *)
Variable camera_start : HubCamera → option string.
Variable camera_poll : nat → HubCamera → option string.

(** [camera.oak_camera.get_info_report()], [get_stats_report()] and the
    two publications of the agent ([false]: the call raises). *)
Variable get_info_report : HubCamera → result string.
Variable get_stats_report : HubCamera → result string.
Variable publish_device_info : string → bool.
Variable publish_device_stats : string → bool.

(** [camera.oak_camera.__exit__(...)] and the calls of
    [robothub.STREAMS.destroy_all_streams()], numbered from 0. *)
Variable oak_camera_exit : HubCamera → option string.
Variable destroy_all_streams : nat → option string.

(** The [for] loop of [start]: the first camera that does not start ends
    the call. *)
Fixpoint start_cameras (cameras : list HubCamera) : option string :=
  match cameras with
  | [] => None
  | camera :: rest =>
      match camera_start camera with
      | Some e => Some e
      | None => start_cameras rest
      end
  end.

(** [start]: the cameras, then the two threads. *)
Definition call_start (s : System) : System :=
  match start_cameras (hub_cameras s) with
  | Some e =>
      mkSystem (hub_cameras s) (stop_event s) (reporting_thread s)
        (polling_thread s) (Ready (Some (Exception e))) (now s) (agent s)
        (polled s) (exited s) (destroyed s) (agent_shutdown s)
  | None =>
      match thread_start (reporting_thread s) with
      | Raise e =>
          mkSystem (hub_cameras s) (stop_event s) (reporting_thread s)
            (polling_thread s) (Ready (Some e)) (now s) (agent s)
            (polled s) (exited s) (destroyed s) (agent_shutdown s)
      | Ok rt =>
          match thread_start (polling_thread s) with
          | Raise e =>
              mkSystem (hub_cameras s) (stop_event s) rt
                (polling_thread s) (Ready (Some e)) (now s) (agent s)
                (polled s) (exited s) (destroyed s) (agent_shutdown s)
          | Ok pt =>
              mkSystem (hub_cameras s) (stop_event s) rt pt (Ready None)
                (now s) (agent s) (polled s) (exited s) (destroyed s)
                (agent_shutdown s)
          end
      end
  end.

(** The body of [_report], which has no [try]: what is published, and
    whether the pass got to its end. *)
Fixpoint report_cameras (cameras : list HubCamera) (log : list AgentMsg)
  : list AgentMsg * bool :=
  match cameras with
  | [] => (log, true)
  | camera :: rest =>
      match get_info_report camera with
      | Raise _ => (log, false)
      | Ok device_info =>
          match get_stats_report camera with
          | Raise _ => (log, false)
          | Ok device_stats =>
              if publish_device_info device_info
              then
                if publish_device_stats device_stats
                then report_cameras rest
                       (log ++ [DeviceInfo device_info; DeviceStats device_stats])
                else (log ++ [DeviceInfo device_info], false)
              else (log, false)
          end
      end
  end.

(** The body of [_poll]: the cameras polled, and whether the pass got to
    its end. *)
Fixpoint poll_cameras (time : nat) (cameras : list HubCamera)
    (log : list string) : list string * bool :=
  match cameras with
  | [] => (log, true)
  | camera :: rest =>
      match camera_poll time camera with
      | Some _ => (log ++ [serial camera], false)
      | None => poll_cameras time rest (log ++ [serial camera])
      end
  end.

(** [_report]: [while not self.app.stop_event.is_set()]. *)
Definition reporting_step (s : System) : System :=
  match reporting_thread s with
  | AtGuard =>
      if negb (stop_event s)
      then
        let '(log, finished) := report_cameras (hub_cameras s) (agent s) in
        mkSystem (hub_cameras s) (stop_event s)
          (if finished then InWait else Finished) (polling_thread s) (main s)
          (now s) log (polled s) (exited s) (destroyed s) (agent_shutdown s)
      else
        mkSystem (hub_cameras s) (stop_event s) Finished (polling_thread s)
          (main s) (now s) (agent s) (polled s) (exited s) (destroyed s)
          (agent_shutdown s)
  | InWait =>
      mkSystem (hub_cameras s) (stop_event s) AtGuard (polling_thread s)
        (main s) (now s) (agent s) (polled s) (exited s) (destroyed s)
        (agent_shutdown s)
  | _ => s
  end.

(** [_poll]: [while self.app.stop_event.is_set()]. *)
Definition polling_step (s : System) : System :=
  match polling_thread s with
  | AtGuard =>
      if stop_event s
      then
        let '(log, finished) :=
          poll_cameras (now s) (hub_cameras s) (polled s) in
        mkSystem (hub_cameras s) (stop_event s) (reporting_thread s)
          (if finished then InWait else Finished) (main s) (now s) (agent s)
          log (exited s) (destroyed s) (agent_shutdown s)
      else
        mkSystem (hub_cameras s) (stop_event s) (reporting_thread s) Finished
          (main s) (now s) (agent s) (polled s) (exited s) (destroyed s)
          (agent_shutdown s)
  | InWait =>
      mkSystem (hub_cameras s) (stop_event s) (reporting_thread s) AtGuard
        (main s) (now s) (agent s) (polled s) (exited s) (destroyed s)
        (agent_shutdown s)
  | _ => s
  end.

(** The [for] loop of [stop]: close each camera that is not
    [DISCONNECTED], then destroy the streams again; [k] counts the calls of
    [destroy_all_streams] so far.  An exception of the close is wrapped; one
    of [destroy_all_streams] in the loop goes to the caller as it is (here
    an [Exception] with its text). *)
Fixpoint exit_cameras (cameras : list HubCamera) (k : nat)
    (closed : list string) : list string * nat * option exn :=
  match cameras with
  | [] => (closed, k, None)
  | camera :: rest =>
      let attempt :=
        if decide (device_state camera = DISCONNECTED) then (closed, None)
        else (closed ++ [serial camera], oak_camera_exit camera) in
      match attempt with
      | (closed, Some e) => (closed, k, Some (Exception (exit_msg e)))
      | (closed, None) =>
          match destroy_all_streams k with
          | Some e => (closed, S k, Some (Exception e))
          | None => exit_cameras rest (S k) closed
          end
      end
  end.

(** [stop] after the two waits: [AGENT.shutdown()], an exception of which
    is only logged, then the streams, then the cameras. *)
Definition release_step (s : System) : System :=
  let '(closed, k, raised) :=
    match destroy_all_streams (destroyed s) with
    | Some e => (exited s, S (destroyed s), Some (Exception (destroy_msg e)))
    | None => exit_cameras (hub_cameras s) (S (destroyed s)) (exited s)
    end in
  mkSystem (hub_cameras s) (stop_event s) (reporting_thread s)
    (polling_thread s) (Ready raised) (now s) (agent s) (polled s) closed k
    true.

Definition with_main (pc : MainPc) (s : System) : System :=
  mkSystem (hub_cameras s) (stop_event s) (reporting_thread s)
    (polling_thread s) pc (now s) (agent s) (polled s) (exited s)
    (destroyed s) (agent_shutdown s).

(** [stop] up to its first wait: [self.app.stop_event.set()]. *)
Definition call_stop (s : System) : System :=
  mkSystem (hub_cameras s) true (reporting_thread s) (polling_thread s)
    WaitReporting (now s) (agent s) (polled s) (exited s) (destroyed s)
    (agent_shutdown s).

(** [while thread.is_alive(): time.sleep(1)] *)
Definition main_step (s : System) : System :=
  match main s with
  | Ready _ => s
  | WaitReporting =>
      if is_alive (reporting_thread s) then s else with_main WaitPolling s
  | WaitPolling =>
      if is_alive (polling_thread s) then s else with_main Release s
  | Release => release_step s
  end.

Definition is_ready (pc : MainPc) : bool :=
  match pc with Ready _ => true | _ => false end.

Definition tick (s : System) : System :=
  mkSystem (hub_cameras s) (stop_event s) (reporting_thread s)
    (polling_thread s) (main s) (S (now s)) (agent s) (polled s) (exited s)
    (destroyed s) (agent_shutdown s).

Definition step (s : System) (ev : Event) : System :=
  tick
    match ev with
    | CallStart => if is_ready (main s) then call_start s else s
    | CallStop => if is_ready (main s) then call_stop s else s
    | MainStep => main_step s
    | ReportingStep => reporting_step s
    | PollingStep => polling_step s
    end.

Definition run (s : System) (evs : list Event) : System := foldl step s evs.

End Collaborators.

End OldManager.

(** ** manager.py: what the proofs about whole runs speak of *)

Module ManagerAux.
Import Manager.

Definition is_call_start (ev : Event) : bool :=
  match ev with CallStart => true | _ => false end.
Definition is_call_stop (ev : Event) : bool :=
  match ev with CallStop => true | _ => false end.
Definition is_add_device (ev : Event) : bool :=
  match ev with CallAddDevice _ => true | _ => false end.

(** A thread that was started has [running] set, as has a [start] in its
    waiting loop, and no thread has returned from its loop. *)
Definition loops_alive (s : System) : Prop :=
  (main s = InStart → running (mgr s) = true)
  ∧ (connection_thread s = NotStarted ∨ running (mgr s) = true)
  ∧ (reporting_thread s = NotStarted ∨ running (mgr s) = true)
  ∧ (polling_thread s = NotStarted ∨ running (mgr s) = true)
  ∧ connection_thread s ≠ Finished
  ∧ reporting_thread s ≠ Finished
  ∧ polling_thread s ≠ Finished.

(** [start] has been called and is over. *)
Definition started (s : System) : Prop :=
  connection_thread s ≠ NotStarted ∧ main s ≠ InStart.

End ManagerAux.

(** ** manager.py as shipped: [booted_cameras] as an attribute that may be
    missing, and the writes of the manager one statement at a time *)

Module Shipped.
Import Manager.

(** What reaches the caller of [stop] or ends a loop thread: an exception
    the code builds itself, or the [AttributeError] of reading an attribute
    the object does not have, which no handler of manager.py catches. *)
Inductive Raised : Type :=
| Built (e : exn)
| AttributeError (msg : string).

Definition no_booted_cameras_msg : string :=
  "'HubCameraManager' object has no attribute 'booted_cameras'".

(** Where a call of [stop] stands when nothing else runs: in a join on a
    thread that is alive, where it stays as long as the thread is, or over,
    with the sessions whose [__exit__] it called and what it raised. *)
Inductive StopOutcome : Type :=
| Joining (pc : MainPc) (self : t)
| Ended (self : t) (attempted : list loc) (raised : option Raised).

Section Attribute.

(** The attribute [self.booted_cameras]: [None] when the object has no such
    attribute, as with the class of manager.py, which assigns it nowhere;
    [Some] of the list when something outside the file has set it. *)
Variable booted_cameras : t → option (list loc).

Variable hub_camera_exit : nat → option string.
Variable destroy_all_streams : option string.
Variable info_report : Device → result string.
Variable stats_report : Device → result string.
Variable publish_device_info : string → bool.
Variable publish_device_stats : string → bool.

(** [stop] after the joins (lines 79-93): destroy the streams, wrapping a
    failure; then read [self.booted_cameras], outside any [try]; then the
    loop over the cameras, each close in its own [try]. *)
Definition stop_release (self : t) : list loc * option Raised :=
  match destroy_all_streams with
  | Some e => ([], Some (Built (Exception (destroy_msg e))))
  | None =>
      match booted_cameras self with
      | None => ([], Some (AttributeError no_booted_cameras_msg))
      | Some cameras =>
          let '(attempted, raised) :=
            exit_cameras hub_camera_exit (heap self) cameras [] in
          (attempted, Built <$> raised)
      end
  end.

(** [stop] (lines 68-93): set the event, join the three threads in order
    (a thread that is not alive is not joined), then release. *)
Definition stop (s : System) : StopOutcome :=
  let self := set_stop_event true (mgr s) in
  if is_alive (connection_thread s) then Joining JoinConnection self
  else if is_alive (reporting_thread s) then Joining JoinReporting self
  else if is_alive (polling_thread s) then Joining JoinPolling self
  else let '(attempted, raised) := stop_release self in
       Ended self attempted raised.

(** The body of the [while] of [_report] (lines 113-121): the read of
    [self.booted_cameras] stands outside the [try], so without the
    attribute the pass publishes nothing and its exception ends the
    thread; with it, each camera reports inside its own [try]. *)
Definition _report_pass (self : t) : list AgentMsg * option Raised :=
  match booted_cameras self with
  | None => ([], Some (AttributeError no_booted_cameras_msg))
  | Some cameras =>
      (flat_map
         (λ camera,
            report_camera info_report stats_report publish_device_info
              publish_device_stats (heap self camera))
         cameras,
       None)
  end.

End Attribute.

(** The statements of manager.py that write the manager, each one step:
    any interleaving of [add_device], [remove_device], [start], [stop] and
    the loops is a sequence of them. *)
Inductive Op : Type :=
| AddDevice (device : loc)
| RemoveDevice (device : loc)
| SetRunning
| SetStopEvent
| DeviceStart (device : loc)
| AppendConnected (device : loc)
| ClearSession (camera : loc).

Section Ops.

Variable open_session : string → option nat.

(** [AddDevice]: line 99.  [RemoveDevice]: line 105, which raises and
    changes nothing for an absent device.  [SetRunning]: line 40.
    [SetStopEvent]: line 70.  [DeviceStart] and [AppendConnected]: lines 55
    and 56, for whatever device the iterator of the [for] loop yields; a
    [device.start()] that raises changes nothing.  [ClearSession]:
    line 134. *)
Definition apply_op (self : t) (op : Op) : t :=
  match op with
  | AddDevice device => add_device self device
  | RemoveDevice device =>
      match remove_device self device with
      | Ok self' => self'
      | Raise _ => self
      end
  | SetRunning => set_running true self
  | SetStopEvent => set_stop_event true self
  | DeviceStart device =>
      match device_start open_session (heap self device) with
      | Ok d' => set_heap (<[device := d']> (heap self)) self
      | Raise _ => self
      end
  | AppendConnected device =>
      set_connected_devices (_connected_devices self ++ [device]) self
  | ClearSession camera =>
      set_heap (<[camera := set_hub_camera None (heap self camera)]> (heap self))
        self
  end.

Definition apply_ops (self : t) (ops : list Op) : t := foldl apply_op self ops.

(** A sequence of steps in which every [add_device] brings an identity
    that the device list does not hold at that moment. *)
Fixpoint fresh_adds (self : t) (ops : list Op) : Prop :=
  match ops with
  | [] => True
  | op :: rest =>
      match op with
      | AddDevice d => device_mxid (heap self d) ∉ mxids self
      | _ => True
      end
      ∧ fresh_adds (apply_op self op) rest
  end.

End Ops.

End Shipped.

(** ** live_view.py: overlays and publishing *)

Module Overlay.

Definition newline : string := String (Ascii.ascii_of_nat 10) EmptyString.

Definition h264_error_msg : string :=
  "Frame is not H.264 encoded, please make sure the pipeline is configured correctly."
  +:+ newline +:+ "RobotHub supports H.264 encoded frames only.".

Section Publish.

(** What the Live View carries without looking inside: a coordinate of a
    [BoundingBox], a Python float, a frame as the pipeline hands it over,
    and an overlay object as the SDK serializes it. *)
Variable coord : Type.
Variable float : Type.
Variable frame : Type.
Variable serialized : Type.

(** The arguments of [VisText(...)] and [VisLine(...)]. *)
Record VisText : Type := mkVisText {
  vt_text : string;
  vt_coords : Z * Z;
  vt_size : option Z;
  vt_color : option (Z * Z * Z);
  vt_thickness : option Z;
  vt_outline : bool;
  vt_background_color : option (Z * Z * Z);
  vt_background_transparency : float
}.

Record VisLine : Type := mkVisLine {
  vl_pt1 : Z * Z;
  vl_pt2 : Z * Z;
  vl_color : option (Z * Z * Z);
  vl_thickness : option Z
}.

(** [(x1, y1, x2, y2)] *)
Definition BoundingBox : Type := coord * coord * coord * coord.

(** [obj.prepare().serialize()], the H.264 check of live_view_utils,
    [bytes(h264_frame)] and [h264_packet.frame]. *)
Variable text_serialize : VisText → serialized.
Variable line_serialize : VisLine → serialized.
Variable is_h264_frame : frame → bool.
Variable to_bytes : frame → list Byte.byte.
Variable packet_frame : FrameBuffer.Packet → frame.

(** One entry of ["detections"]: [bbox], [label] and the fixed [color]. *)
Record Detection : Type := mkDetection {
  bbox : BoundingBox;
  label : string;
  color : Z * Z * Z
}.

Inductive MetaObject : Type :=
| Detections (detections : list Detection)
| Serialized (object : serialized).

(** The metadata of a frame.  Its ["config"] entry is the same literal in
    every call and is not kept. *)
Record Metadata : Type := mkMetadata {
  platform : string;
  frame_shape : Z * Z;
  objects : list MetaObject
}.

(** One call of [stream_handle.publish_video_data]. *)
Record Published : Type := mkPublished {
  data : list Byte.byte;
  timestamp : Z;
  metadata : Metadata
}.

(** The Live View with the fields [publish] and the [add_*] methods use. *)
Record View : Type := mkView {
  live_view : LiveView.t;
  validated_frame_h264 : bool;
  texts : list VisText;
  rectangles : list BoundingBox;
  labels : list string;
  lines : list VisLine
}.

(** A Live View as [__init__] leaves it. *)
Definition fresh (lv : LiveView.t) : View := mkView lv false [] [] [] [].

Definition set_frame_buffer (fb : FrameBuffer.t) (lv : LiveView.t)
  : LiveView.t :=
  LiveView.mk (LiveView.name lv) (LiveView.unique_key lv)
    (LiveView.device_mxid lv) (LiveView.frame_width lv)
    (LiveView.frame_height lv) (LiveView.fps lv) fb.

Definition add_rectangle (self : View) (rectangle : BoundingBox)
    (label : string) : View :=
  mkView (live_view self) (validated_frame_h264 self) (texts self)
    (rectangles self ++ [rectangle]) (labels self ++ [label]) (lines self).

Definition add_text (self : View) (text : string) (coords : Z * Z)
    (size : option Z) (color : option (Z * Z * Z)) (thickness : option Z)
    (outline : bool) (background_color : option (Z * Z * Z))
    (background_transparency : float) : View :=
  mkView (live_view self) (validated_frame_h264 self)
    (texts self
     ++ [mkVisText text coords size color thickness outline background_color
           background_transparency])
    (rectangles self) (labels self) (lines self).

Definition add_line (self : View) (pt1 pt2 : Z * Z)
    (color : option (Z * Z * Z)) (thickness : option Z) : View :=
  mkView (live_view self) (validated_frame_h264 self) (texts self)
    (rectangles self) (labels self)
    (lines self ++ [mkVisLine pt1 pt2 color thickness]).

Definition _reset_overlays (self : View) : View :=
  mkView (live_view self) (validated_frame_h264 self) [] [] [] [].

(** [_publish_data]: one detection for each pair of [zip(rectangles,
    rectangle_labels)], then the texts, then the lines.  [time] is
    [int(time.perf_counter_ns() / 1e6)]. *)
Definition _publish_data (time : Z) (h264_frame : frame)
    (rectangles : list BoundingBox) (rectangle_labels : list string)
    (texts : list VisText) (lines : list VisLine)
    (frame_width frame_height : Z) : Published :=
  mkPublished (to_bytes h264_frame) time
    (mkMetadata "robothub" (frame_height, frame_width)
       (Detections
          ((λ '(roi, label), mkDetection roi label (0, 255, 255)%Z)
             <$> zip rectangles rectangle_labels)
        :: ((λ text, Serialized (text_serialize text)) <$> texts)
        ++ ((λ line, Serialized (line_serialize line)) <$> lines))).

(** [publish]: the view afterwards, what went to the stream, and what was
    logged as an error. *)
Definition publish (self : View) (time : Z) (h264_frame : frame)
  : View * Published * list string :=
  let logged :=
    if validated_frame_h264 self then []
    else if is_h264_frame h264_frame then [] else [h264_error_msg] in
  let sent :=
    _publish_data time h264_frame (rectangles self) (labels self)
      (texts self) (lines self)
      (LiveView.frame_width (live_view self))
      (LiveView.frame_height (live_view self)) in
  (_reset_overlays
     (mkView (live_view self) true (texts self) (rectangles self)
        (labels self) (lines self)),
   sent, logged).

(** [_publish_callback]: publish the frame of the packet, then hand the
    packet to the frame buffer. *)
Definition _publish_callback (self : View) (time : Z)
    (h264_packet : FrameBuffer.Packet) : View * Published * list string :=
  let '(self, sent, logged) := publish self time (packet_frame h264_packet) in
  (mkView
     (set_frame_buffer
        (FrameBuffer.default_callback
           (LiveView.frame_buffer (live_view self)) h264_packet)
        (live_view self))
     (validated_frame_h264 self) (texts self) (rectangles self)
     (labels self) (lines self),
   sent, logged).

(** What happens to the Live View, in order: calls of its methods by the
    application, and packets arriving from the device. *)
Inductive Action : Type :=
| AddRectangle (rectangle : BoundingBox) (label : string)
| AddText (text : VisText)
| AddLine (line : VisLine)
| Publish (time : Z) (h264_frame : frame)
| Packet (time : Z) (h264_packet : FrameBuffer.Packet).

(** The view with everything sent to the stream and every error logged. *)
Record Session : Type := mkSession {
  view : View;
  sent : list Published;
  logged : list string
}.

(** One action.  A packet goes to the callback [create] registered on the
    device: [_publish_callback], or with [manual_publish] the frame buffer's
    [default_callback] alone. *)
Definition act (manual_publish : bool) (s : Session) (a : Action) : Session :=
  match a with
  | AddRectangle r l => mkSession (add_rectangle (view s) r l) (sent s) (logged s)
  | AddText t =>
      mkSession
        (add_text (view s) (vt_text t) (vt_coords t) (vt_size t) (vt_color t)
           (vt_thickness t) (vt_outline t) (vt_background_color t)
           (vt_background_transparency t))
        (sent s) (logged s)
  | AddLine l =>
      mkSession
        (add_line (view s) (vl_pt1 l) (vl_pt2 l) (vl_color l) (vl_thickness l))
        (sent s) (logged s)
  | Publish time f =>
      let '(v, p, e) := publish (view s) time f in
      mkSession v (sent s ++ [p]) (logged s ++ e)
  | Packet time pkt =>
      if manual_publish
      then
        let v := view s in
        mkSession
          (mkView
             (set_frame_buffer
                (FrameBuffer.default_callback
                   (LiveView.frame_buffer (live_view v)) pkt)
                (live_view v))
             (validated_frame_h264 v) (texts v) (rectangles v) (labels v)
             (lines v))
          (sent s) (logged s)
      else
        let '(v, p, e) := _publish_callback (view s) time pkt in
        mkSession v (sent s ++ [p]) (logged s ++ e)
  end.

Definition acts (manual_publish : bool) (s : Session) (l : list Action)
  : Session :=
  foldl (act manual_publish) s l.

(** The calls of [add_rectangle], [add_text] and [add_line] in a list of
    actions, and whether a list holds nothing else. *)
Definition is_add (a : Action) : bool :=
  match a with
  | AddRectangle _ _ | AddText _ | AddLine _ => true
  | Publish _ _ | Packet _ _ => false
  end.

Definition added_boxes (l : list Action) : list (BoundingBox * string) :=
  omap (λ a, match a with AddRectangle r lab => Some (r, lab) | _ => None end) l.
Definition added_texts (l : list Action) : list VisText :=
  omap (λ a, match a with AddText t => Some t | _ => None end) l.
Definition added_lines (l : list Action) : list VisLine :=
  omap (λ a, match a with AddLine ln => Some ln | _ => None end) l.

(** No overlay is pending. *)
Definition cleared (v : View) : Prop :=
  texts v = [] ∧ rectangles v = [] ∧ labels v = [] ∧ lines v = [].

(** The packets of a stream, each with the time it is handled at. *)
Definition packets (l : list (Z * FrameBuffer.Packet)) : list Action :=
  (λ tp, Packet tp.1 tp.2) <$> l.

End Publish.

End Overlay.

(** ** Sample data *)

Module Samples.

(** A packet with timestamp [n] microseconds. *)
Definition pk (n : Z) : FrameBuffer.Packet := FrameBuffer.mkPacket n "frame".

(** A muxing collaborator for the examples. *)
Definition sample_path (ps : list FrameBuffer.Packet) (fps w h : Z) : string :=
  "/tmp/video.mp4".
Definition sample_bytes (ps : list FrameBuffer.Packet) (fps w h : Z)
  : list Byte.byte := [].

(** A buffer of capacity 4 holding one packet, and a full one of capacity 1. *)
Definition one_of_four : FrameBuffer.t := FrameBuffer.mk [pk 0] (Some 4) ∅.
Definition one_of_one : FrameBuffer.t := FrameBuffer.mk [pk 0] (Some 1) ∅.

(** Two components and a Live View over a buffer of two seconds at 2 fps. *)
Definition color : LiveView.Component :=
  LiveView.mkComponent LiveView.CameraComponent None 30 (1920, 1080)%Z.
Definition stereo : LiveView.Component :=
  LiveView.mkComponent LiveView.StereoComponent (Some LiveView.H264_MAIN) 15
    (640, 400)%Z.
Definition front_view : LiveView.t :=
  LiveView.mk "front" "front_key" "18443010" 640 480 2
    (FrameBuffer.mk [pk 0; pk 10] (Some 4) ∅).
Definition unbuffered_view : LiveView.t :=
  LiveView.mk "side" "side_key" "18443010" 640 480 2
    (FrameBuffer.mk [] (Some 0) ∅).

(** Three devices, none with a session yet, and collaborators: every
    device counts as booted once connected, sessions open and streams are
    destroyed without error, a poll fails from time 8 on, and closing
    session 1 raises. *)
Definition sample_heap (l : Manager.loc) : Manager.Device :=
  match l with
  | 0 => Manager.mkDevice "mxid-A" Manager.DISCONNECTED None
  | 1 => Manager.mkDevice "mxid-B" Manager.DISCONNECTED None
  | _ => Manager.mkDevice "mxid-C" Manager.DISCONNECTED None
  end.
Definition sample_booted (m : Manager.t) : list Manager.loc :=
  Manager._connected_devices m.
Definition sample_poll (time : nat) (d : Manager.Device) : bool :=
  bool_decide (time < 8).
Definition sample_open (mxid : string) : option nat :=
  if decide (mxid = "mxid-A") then Some 1
  else if decide (mxid = "mxid-B") then Some 2 else Some 3.
Definition sample_exit (session : nat) : option string :=
  if decide (session = 1) then Some "X_LINK_ERROR" else None.
Definition sample_report (d : Manager.Device) : result string :=
  Ok (Manager.device_mxid d).
Definition sample_publish (text : string) : bool := true.

Definition sample_step : Manager.System → Manager.Event → Manager.System :=
  Manager.step sample_booted sample_poll sample_open sample_exit None
    sample_report sample_report sample_publish sample_publish.
Definition sample_run : Manager.System → list Manager.Event → Manager.System :=
  Manager.run sample_booted sample_poll sample_open sample_exit None
    sample_report sample_report sample_publish sample_publish.

(** A manager as [start] leaves it with two devices: both in either list,
    both connected, with sessions 1 and 2; and the system with the three
    loops asleep in their wait and the control thread between calls. *)
Definition connected_heap (l : Manager.loc) : Manager.Device :=
  match l with
  | 0 => Manager.mkDevice "mxid-A" Manager.CONNECTED (Some 1)
  | 1 => Manager.mkDevice "mxid-B" Manager.CONNECTED (Some 2)
  | _ => Manager.mkDevice "mxid-C" Manager.DISCONNECTED None
  end.
Definition sample_manager : Manager.t :=
  Manager.mk [0; 1] [0; 1] true false connected_heap.
Definition sample_asleep : Manager.System :=
  Manager.mkSystem sample_manager Manager.InWait Manager.InWait Manager.InWait
    (Manager.Ready None) 7 [] [].

(** The same manager with no thread alive; the class as shipped, without
    the attribute [booted_cameras], and with the attribute set from outside
    to the connected devices. *)
Definition sample_idle : Manager.System :=
  Manager.mkSystem sample_manager Manager.NotStarted Manager.NotStarted
    Manager.NotStarted (Manager.Ready None) 7 [] [].
Definition shipped_booted (m : Manager.t) : option (list Manager.loc) := None.
Definition patched_booted (m : Manager.t) : option (list Manager.loc) :=
  Some (Manager._connected_devices m).

(** [start] called with two devices in the list, still in its loop. *)
Definition sample_starting : Manager.System :=
  sample_run (Manager.boot sample_heap)
    [Manager.CallAddDevice 0; Manager.CallAddDevice 1; Manager.CallStart].

(** The manager after a polling pass at time 8, when every poll fails. *)
Definition sample_after_failed_poll : Manager.t :=
  Manager._poll_pass sample_booted sample_poll 8 sample_manager.

(** Overlays: coordinates and floats as integers, frames and serialized
    objects as strings; the one frame that passes the H.264 check is
    "h264". *)
Definition sample_text_serialize (t : Overlay.VisText Z) : string :=
  "text:" +:+ Overlay.vt_text Z t.
Definition sample_line_serialize (l : Overlay.VisLine) : string := "line".
Definition sample_is_h264 (f : string) : bool := bool_decide (f = "h264").
Definition sample_to_bytes (f : string) : list Byte.byte := [].
Definition sample_packet_frame (p : FrameBuffer.Packet) : string :=
  FrameBuffer.msg p.
Definition sample_acts :=
  Overlay.acts Z Z string string sample_text_serialize sample_line_serialize
    sample_is_h264 sample_to_bytes sample_packet_frame.
Definition sample_session : Overlay.Session Z Z string :=
  Overlay.mkSession Z Z string (Overlay.fresh Z Z front_view) [] [].
Definition hello : Overlay.VisText Z :=
  Overlay.mkVisText Z "hello" (10, 20)%Z None None None true None 5%Z.

(** The earlier manager over two cameras, with collaborators that never
    raise. *)
Definition old_cameras : list OldManager.HubCamera :=
  [OldManager.mkHubCamera "serial-A" Manager.CONNECTED;
   OldManager.mkHubCamera "serial-B" Manager.DISCONNECTED].
Definition old_start (c : OldManager.HubCamera) : option string := None.
Definition old_poll (time : nat) (c : OldManager.HubCamera) : option string :=
  None.
Definition old_report (c : OldManager.HubCamera) : result string :=
  Ok (OldManager.serial c).
Definition old_exit (c : OldManager.HubCamera) : option string := None.
Definition old_destroy (k : nat) : option string := None.
Definition old_run :=
  OldManager.run old_start old_poll old_report old_report sample_publish
    sample_publish old_exit old_destroy.

End Samples.

(** * Properties *)

(** ** The ring buffer *)

Module FrameBufferFacts.
Import FrameBuffer Samples.

Lemma deque_append_bounded (C : nat) (d : list Packet) (p : Packet) :
  length d ≤ C →
  deque_append (Some C) d p = drop (length (d ++ [p]) - C) (d ++ [p]).
Proof.
  intros Hlen. unfold deque_append.
  rewrite length_app. simpl.
  destruct (C <? length d + 1) eqn:E.
  - apply Nat.ltb_lt in E. by replace (length d + 1 - C) with 1 by lia.
  - apply Nat.ltb_ge in E. by replace (length d + 1 - C) with 0 by lia.
Qed.

Lemma deque_append_length (C : nat) (d : list Packet) (p : Packet) :
  length d ≤ C → length (deque_append (Some C) d p) ≤ C.
Proof.
  intros Hlen. rewrite deque_append_bounded by done.
  rewrite length_drop, length_app. simpl. lia.
Qed.

Lemma default_callback_maxlen (fb : t) (p : Packet) :
  maxlen (default_callback fb p) = maxlen fb.
Proof. done. Qed.

Lemma push_all_maxlen (ps : list Packet) (fb : t) :
  maxlen (push_all fb ps) = maxlen fb.
Proof.
  revert fb. induction ps as [|p ps IH]; intros fb; [done|].
  unfold push_all in *. simpl. by rewrite IH.
Qed.

(** Pushing into a bounded buffer that respects its bound keeps the last
    [C] of everything it held and received. *)
Lemma push_all_buffer (C : nat) (ps : list Packet) (fb : t) :
  maxlen fb = Some C →
  length (buffer fb) ≤ C →
  buffer (push_all fb ps)
  = drop (length (buffer fb ++ ps) - C) (buffer fb ++ ps).
Proof.
  revert fb. induction ps as [|p ps IH]; intros fb Hmax Hlen.
  - simpl. rewrite app_nil_r.
    by replace (length (buffer fb) - C) with 0 by lia.
  - change (push_all fb (p :: ps)) with (push_all (default_callback fb p) ps).
    rewrite IH; simpl; rewrite Hmax; [| done | by apply deque_append_length].
    rewrite deque_append_bounded by done.
    set (n := length (buffer fb ++ [p]) - C).
    assert (Hn : n ≤ length (buffer fb ++ [p])) by (unfold n; lia).
    rewrite <- (drop_app_le _ _ _ Hn), <- app_assoc. simpl.
    rewrite drop_drop. f_equal.
    rewrite length_drop. subst n.
    rewrite !length_app in *. simpl in *. lia.
Qed.

(** What the deque holds after pushes depends on the deque and its bound
    alone, not on the taps. *)
Lemma push_all_buffer_ext (ps : list Packet) (fb1 fb2 : t) :
  buffer fb1 = buffer fb2 → maxlen fb1 = maxlen fb2 →
  buffer (push_all fb1 ps) = buffer (push_all fb2 ps).
Proof.
  revert fb1 fb2. induction ps as [|p ps IH]; intros fb1 fb2 Hb Hm; [done|].
  change (push_all fb1 (p :: ps)) with (push_all (default_callback fb1 p) ps).
  change (push_all fb2 (p :: ps)) with (push_all (default_callback fb2 p) ps).
  apply IH; simpl; by rewrite ?Hb, ?Hm.
Qed.

(** The queues of the taps receive every pushed packet, in order. *)
Lemma push_all_queues (ps : list Packet) (fb : t) :
  temporary_queues (push_all fb ps)
  = (λ q, q ++ ps) <$> temporary_queues fb.
Proof.
  revert fb. induction ps as [|p ps IH]; intros fb.
  - simpl. rewrite <- (map_fmap_id (temporary_queues fb)) at 1.
    apply map_fmap_ext. intros ? q _. by rewrite app_nil_r.
  - change (push_all fb (p :: ps)) with (push_all (default_callback fb p) ps).
    rewrite IH. simpl. rewrite <- map_fmap_compose.
    apply map_fmap_ext. intros ? q _. simpl. by rewrite <- app_assoc.
Qed.

(** C8.  A buffer of capacity [C > 0] that starts empty and receives
    [C + k] packets holds exactly the last [C] of them, in the order they
    came: the first [k] are the ones evicted. *)
Theorem ring_buffer_keeps_last_C (C k : nat) (fb : t) (ps : list Packet) :
  0 < C →
  maxlen fb = Some C →
  buffer fb = [] →
  length ps = C + k →
  buffer (push_all fb ps) = drop k ps
  ∧ length (buffer (push_all fb ps)) = C
  ∧ ps = take k ps ++ buffer (push_all fb ps).
Proof.
  intros HC Hmax Hempty Hlen.
  assert (Hbuf : buffer (push_all fb ps) = drop k ps).
  { rewrite (push_all_buffer C) by (rewrite ?Hempty; simpl; done || lia).
    rewrite Hempty. simpl. f_equal. lia. }
  rewrite Hbuf. split_and!; [done | rewrite length_drop; lia |].
  by rewrite take_drop.
Qed.

Lemma ring_buffer_keeps_last_C_witness :
  buffer (push_all (mk [] (Some 2) ∅) [pk 1; pk 2; pk 3; pk 4; pk 5])
  = [pk 4; pk 5].
Proof.
  refine (proj1 (ring_buffer_keeps_last_C 2 3 (mk [] (Some 2) ∅)
                   [pk 1; pk 2; pk 3; pk 4; pk 5] _ _ _ _)).
  - lia.
  - reflexivity.
  - reflexivity.
  - reflexivity.
Defined.

Section SaveVideoFacts.

Variable av_writer_path : list Packet → Z → Z → Z → string.
Variable av_writer_bytes : list Packet → Z → Z → Z → list Byte.byte.

#[local] Abbreviation save_video := (save_video av_writer_path av_writer_bytes).
#[local] Abbreviation _mux_video := (_mux_video av_writer_path av_writer_bytes).

(** While a request waits, its queue stays in the registry and looking it
    up never fails. *)
Lemma wait_keeps_tap (u : uuid) (pivot a : Z) (incoming : list Packet) :
  ∀ (self : t) (after : list Packet),
    is_Some (temporary_queues self !! u) →
    ∃ self' after' w rest,
      wait_until_complete u pivot a self after incoming
      = (self', after', w, rest)
      ∧ is_Some (temporary_queues self' !! u)
      ∧ (w = Broke ∨ w = StillWaiting).
Proof.
  induction incoming as [|x xs IH]; intros self after Htap; simpl.
  - eauto 10.
  - destruct Htap as [q0 Hq0].
    rewrite lookup_fmap, Hq0. simpl.
    destruct (q0 ++ [x]) as [|p q] eqn:Eq.
    + apply IH. simpl. rewrite lookup_fmap, Hq0. by eexists.
    + destruct (_ <? getTimestamp p - pivot)%Z.
      * eexists _, _, _, _. split; [done|]. simpl.
        rewrite lookup_insert_eq. eauto.
      * apply IH. simpl. rewrite lookup_insert_eq. eauto.
Qed.

(** A request that got as far as registering its queue has removed it
    afterwards exactly when it went on to the muxing step. *)
Lemma tap_removed_iff_muxed (u : uuid) (self : t) (C : nat)
    (b a fps w h : Z) (rb : bool) (incoming : list Packet) :
  (0 ≤ b)%Z → (0 ≤ a)%Z → maxlen self = Some C → (b * fps ≤ Z.of_nat C)%Z →
  ∀ self' out rest,
    save_video true u self b a fps w h rb incoming = (self', out, rest) →
    temporary_queues self' !! u = None ↔ ∃ v, out = Returned v.
Proof.
  intros Hb Ha Hmax Hle self' out rest. unfold FrameBuffer.save_video. simpl.
  replace ((b <? 0)%Z || (a <? 0)%Z) with false by lia.
  rewrite Hmax. unfold get_slice, islice.
  replace (Z.of_nat C - b * fps <? 0)%Z with false by lia.
  destruct (last _) as [p|].
  - set (self1 := set_temporary_queues _ self).
    destruct (wait_keeps_tap u (getTimestamp p) a incoming self1 [])
      as (s2 & after & wt & r & -> & Htap & Hw).
    { subst self1. simpl. rewrite lookup_insert_eq. eauto. }
    destruct Hw as [-> | ->]; intros [= <- <- <-]; simpl.
    + rewrite lookup_delete_eq. split; eauto.
    + destruct Htap as [q Hq]. rewrite Hq.
      split; [done | by intros [? ?]].
  - intros [= <- <- <-]. simpl. rewrite lookup_insert_eq.
    split; [done | by intros [? ?]].
Qed.

(** One turn of the waiting loop: the pushed packet comes back out of the
    request's queue, which is empty again. *)
Lemma wait_until_complete_turn (u : uuid) (pivot a : Z) (self : t)
    (Q0 : gmap uuid (list Packet)) (after : list Packet)
    (x : Packet) (xs : list Packet) :
  temporary_queues self = <[u := []]> Q0 →
  wait_until_complete u pivot a self after (x :: xs)
  = let self' := mk (buffer (default_callback self x)) (maxlen self)
                    (<[u := []]> ((λ q, q ++ [x]) <$> Q0)) in
    let after' := if (pivot <? getTimestamp x)%Z then after ++ [x] else after in
    if (timedelta_seconds a <? getTimestamp x - pivot)%Z
    then (self', after', Broke, xs)
    else wait_until_complete u pivot a self' after' xs.
Proof.
  intros HQ. simpl.
  rewrite lookup_fmap, HQ, lookup_insert_eq. simpl.
  unfold set_temporary_queues. simpl.
  by rewrite fmap_insert, insert_insert_eq.
Qed.

Lemma wait_until_complete_breaks (u : uuid) (pivot a : Z) (pre : list Packet) :
  ∀ (self : t) (Q0 : gmap uuid (list Packet)) (after : list Packet)
    (p : Packet) (rest : list Packet),
    temporary_queues self = <[u := []]> Q0 →
    Forall (λ x, (getTimestamp x - pivot ≤ timedelta_seconds a)%Z) pre →
    (timedelta_seconds a < getTimestamp p - pivot)%Z →
    wait_until_complete u pivot a self after (pre ++ p :: rest)
    = (mk (buffer (push_all self (pre ++ [p]))) (maxlen self)
          (<[u := []]> ((λ q, q ++ pre ++ [p]) <$> Q0)),
       after ++ filter (λ x, (pivot < getTimestamp x)%Z) (pre ++ [p]),
       Broke, rest).
Proof.
  induction pre as [|x xs IH]; intros self Q0 after p rest HQ Hpre Hp.
  - simpl app. rewrite (wait_until_complete_turn u pivot a self Q0) by done.
    cbv zeta.
    replace (timedelta_seconds a <? getTimestamp p - pivot)%Z with true by lia.
    rewrite filter_cons, filter_nil.
    destruct (pivot <? getTimestamp p)%Z eqn:E; case_decide; try lia;
      by rewrite ?app_nil_r.
  - apply Forall_cons in Hpre as [Hx Hxs].
    change ((x :: xs) ++ p :: rest) with (x :: (xs ++ p :: rest)).
    rewrite (wait_until_complete_turn u pivot a self Q0) by done.
    cbv zeta.
    replace (timedelta_seconds a <? getTimestamp x - pivot)%Z with false by lia.
    rewrite (IH _ ((λ q, q ++ [x]) <$> Q0)); [| done | done | done].
    assert (Hbuf :
      buffer (push_all
                (mk (buffer (default_callback self x)) (maxlen self)
                    (<[u := []]> ((λ q, q ++ [x]) <$> Q0)))
                (xs ++ [p]))
      = buffer (push_all self ((x :: xs) ++ [p]))).
    { change (push_all self ((x :: xs) ++ [p]))
        with (push_all (default_callback self x) (xs ++ [p])).
      by apply push_all_buffer_ext. }
    assert (Hq :
      (λ q, q ++ xs ++ [p]) <$> ((λ q, q ++ [x]) <$> Q0)
      = (λ q, q ++ (x :: xs) ++ [p]) <$> Q0).
    { rewrite <- map_fmap_compose. apply map_fmap_ext.
      intros ? q _. simpl. by rewrite <- app_assoc. }
    assert (Hafter :
      (if (pivot <? getTimestamp x)%Z then after ++ [x] else after)
      ++ filter (λ y, (pivot < getTimestamp y)%Z) (xs ++ [p])
      = after ++ filter (λ y, (pivot < getTimestamp y)%Z) ((x :: xs) ++ [p])).
    { change ((x :: xs) ++ [p]) with (x :: (xs ++ [p])).
      rewrite filter_cons.
      destruct (pivot <? getTimestamp x)%Z eqn:E; case_decide; try lia;
        by rewrite <- ?app_assoc. }
    rewrite Hbuf, Hq, Hafter. reflexivity.
Qed.

(** C5, as the code has it.  With PyAV present, both durations
    non-negative, a buffer of capacity [C >= b * fps] whose length exceeds
    [C - b * fps]: the before-slice starts at index [C - b * fps]; the
    request registers its queue, takes the timestamp of the last
    before-entry as the pivot, and collects the pushed entries later than
    the pivot up to and including the first entry [p] that is more than
    [a] seconds past the pivot; it then removes its queue and returns what
    [_mux_video] makes of the before-entries followed by the after-entries,
    a path or the bytes. *)
Theorem save_video_exports_before_and_after (u : uuid) (self : t) (C : nat)
    (b a fps w h : Z) (rb : bool) (pre : list Packet) (p : Packet)
    (rest : list Packet) :
  (0 ≤ b)%Z → (0 ≤ a)%Z →
  maxlen self = Some C →
  (b * fps ≤ Z.of_nat C)%Z →
  (Z.of_nat C - b * fps < Z.of_nat (length (buffer self)))%Z →
  ∃ last_before,
    last (buffer self) = Some last_before ∧
    let before := drop (Z.to_nat (Z.of_nat C - b * fps)) (buffer self) in
    let pivot := getTimestamp last_before in
    last before = Some last_before ∧
    (Forall (λ x, (getTimestamp x - pivot ≤ timedelta_seconds a)%Z) pre →
     (timedelta_seconds a < getTimestamp p - pivot)%Z →
     let after := filter (λ x, (pivot < getTimestamp x)%Z) pre ++ [p] in
     save_video true u self b a fps w h rb (pre ++ p :: rest)
     = (mk (buffer (push_all self (pre ++ [p]))) (Some C)
           (delete u ((λ q, q ++ pre ++ [p]) <$> temporary_queues self)),
        Returned (_mux_video (before ++ after) fps w h rb),
        rest)
     ∧ ((∃ path, _mux_video (before ++ after) fps w h rb = VideoPath path)
        ∨ (∃ data, _mux_video (before ++ after) fps w h rb = VideoBytes data))).
Proof.
  intros Hb Ha Hmax Hle Hlen.
  set (n := Z.to_nat (Z.of_nat C - b * fps)).
  assert (Hn : n < length (buffer self)) by lia.
  destruct (last (buffer self)) as [lb|] eqn:Hlast.
  2: { apply last_None in Hlast. rewrite Hlast in Hn. simpl in Hn. lia. }
  exists lb. split; [done|]. cbv zeta.
  assert (Hlastd : last (drop n (buffer self)) = Some lb).
  { rewrite <- Hlast. rewrite !last_lookup, lookup_drop, length_drop.
    f_equal. lia. }
  split; [done|]. intros Hpre Hp.
  split.
  - unfold FrameBuffer.save_video. simpl.
    replace ((b <? 0)%Z || (a <? 0)%Z) with false by lia.
    rewrite Hmax. unfold get_slice, islice.
    replace (Z.of_nat C - b * fps <? 0)%Z with false by lia.
    fold n. rewrite Hlastd.
    rewrite (wait_until_complete_breaks u _ a pre _ (temporary_queues self));
      [| done | done | done].
    assert (Hafter :
      [] ++ filter (λ x, (getTimestamp lb < getTimestamp x)%Z) (pre ++ [p])
      = filter (λ x, (getTimestamp lb < getTimestamp x)%Z) pre ++ [p]).
    { simpl. rewrite filter_app. f_equal.
      rewrite filter_cons, filter_nil. case_decide; [done|].
      unfold timedelta_seconds in *. lia. }
    rewrite Hafter. unfold set_temporary_queues. simpl.
    rewrite delete_insert_eq, Hmax.
    rewrite (push_all_buffer_ext _ _ self) by done.
    reflexivity.
  - unfold FrameBuffer._mux_video. destruct rb; simpl; eauto.
Qed.

(** With PyAV present a negative duration is refused before anything is
    read or registered. *)
Lemma save_video_negative (u : uuid) (self : t) (b a fps w h : Z) (rb : bool)
    (incoming : list Packet) :
  (b < 0 ∨ a < 0)%Z →
  save_video true u self b a fps w h rb incoming
  = (self, Raised (ValueError negative_seconds_msg), incoming).
Proof.
  intros Hneg. unfold FrameBuffer.save_video. simpl.
  by replace ((b <? 0)%Z || (a <? 0)%Z) with true by lia.
Qed.

(** C10.  With PyAV present and both durations non-negative, a bounded
    buffer whose length is at most [capacity - before_seconds * fps] makes
    [save_video] raise [IndexError] after it has put its queue into
    [temporary_queues]; the queue stays there and receives every later
    push.  A request that registered its queue has removed it exactly when
    it reached the muxing step. *)
Theorem save_video_empty_slice_orphans_tap (u : uuid) (self : t) (C : nat)
    (b a fps w h : Z) (rb : bool) (incoming : list Packet) :
  (0 ≤ b)%Z → (0 ≤ a)%Z →
  maxlen self = Some C →
  (Z.of_nat (length (buffer self)) ≤ Z.of_nat C - b * fps)%Z →
  (∃ self',
      save_video true u self b a fps w h rb incoming
      = (self', Raised (IndexError list_index_msg), incoming)
      ∧ buffer self' = buffer self
      ∧ temporary_queues self' = <[u := []]> (temporary_queues self)
      ∧ ∀ later, temporary_queues (push_all self' later) !! u = Some later)
  ∧ (∀ self' out rest,
      save_video true u self b a fps w h rb incoming = (self', out, rest) →
      temporary_queues self' !! u = None ↔ ∃ v, out = Returned v).
Proof.
  intros Hb Ha Hmax Hlen. split.
  - eexists. split_and!.
    + unfold FrameBuffer.save_video. simpl.
      replace ((b <? 0)%Z || (a <? 0)%Z) with false by lia.
      rewrite Hmax. unfold get_slice, islice.
      replace (Z.of_nat C - b * fps <? 0)%Z with false by lia.
      rewrite drop_ge by lia. simpl. reflexivity.
    + done.
    + done.
    + intros later. rewrite push_all_queues. simpl.
      by rewrite lookup_fmap, lookup_insert_eq.
  - apply (tap_removed_iff_muxed u self C); [done | done | done | lia].
Qed.

End SaveVideoFacts.

Lemma save_video_empty_slice_orphans_tap_witness :
  ∃ self',
    save_video sample_path sample_bytes true 7%N (mk [pk 1] (Some 4) ∅) 1 1 2 640 480 false [pk 2]
    = (self', Raised (IndexError list_index_msg), [pk 2])
    ∧ buffer self' = [pk 1]
    ∧ temporary_queues self' = <[7%N := []]> ∅
    ∧ ∀ later, temporary_queues (push_all self' later) !! 7%N = Some later.
Proof.
  refine (proj1 (save_video_empty_slice_orphans_tap sample_path sample_bytes 7%N
                   (mk [pk 1] (Some 4) ∅) 4 1 1 2 640 480 false [pk 2]
                   _ _ _ _)).
  - lia.
  - lia.
  - reflexivity.
  - simpl. lia.
Defined.

Lemma save_video_exports_before_and_after_witness :
  ∃ fb',
    save_video sample_path sample_bytes true 7%N
      (mk [pk 0; pk 10] (Some 2) ∅) 1 1 2 640 480 false
      [pk 500000; pk 1000011; pk 2000000]
    = (fb', Returned (VideoPath "/tmp/video.mp4"), [pk 2000000]).
Proof.
  destruct (save_video_exports_before_and_after sample_path sample_bytes 7%N
              (mk [pk 0; pk 10] (Some 2) ∅) 2 1 1 2 640 480 false
              [pk 500000] (pk 1000011) [pk 2000000])
    as (lb & Hlast & _ & H).
  - lia.
  - lia.
  - reflexivity.
  - simpl. lia.
  - simpl. lia.
  - simpl in Hlast. injection Hlast as <-.
    destruct H as [H _].
    + repeat constructor. unfold timedelta_seconds. simpl. lia.
    + unfold timedelta_seconds. simpl. lia.
    + eexists. exact H.
Defined.

(** C5 as worded fails twice.  A buffer of capacity 4 that holds
    [b * fps = 1] entry has an empty before-slice, and the call raises
    instead of exporting; and an entry exactly [a] seconds after the pivot
    does not end the collection. *)
Lemma save_video_claim_counterexample :
  (1 * 1 ≤ Z.of_nat (length (buffer one_of_four)))%Z
  ∧ (save_video sample_path sample_bytes true 7%N
       one_of_four 1 0 1 640 480 false [pk 5]).1.2
    = Raised (IndexError list_index_msg)
  ∧ (timedelta_seconds 1
     ≤ getTimestamp (pk 1000000) - getTimestamp (pk 0))%Z
  ∧ (save_video sample_path sample_bytes true 7%N
       one_of_one 1 1 1 640 480 false [pk 1000000]).1.2
    = Blocked.
Proof.
  split_and!.
  - simpl. lia.
  - reflexivity.
  - unfold timedelta_seconds. simpl. lia.
  - reflexivity.
Qed.

End FrameBufferFacts.

(** ** Live Views: the registry and the video event *)

Module LiveViewFacts.
Import LiveView Samples.

Lemma dict_getitem_setitem (d : registry) (k : string) (v : t) :
  dict_getitem (dict_setitem d k v) k = Some v.
Proof.
  induction d as [|[k' v'] d IH]; simpl.
  - by rewrite decide_True.
  - destruct (decide (k' = k)) as [->|Hne]; simpl.
    + by rewrite decide_True.
    + by rewrite decide_False.
Qed.

Lemma dict_getitem_setitem_ne (d : registry) (k k0 : string) (v : t) :
  k0 ≠ k → dict_getitem (dict_setitem d k v) k0 = dict_getitem d k0.
Proof.
  intros Hne. induction d as [|[k' v'] d IH]; simpl.
  - by rewrite decide_False.
  - destruct (decide (k' = k)) as [->|Hk]; simpl.
    + by rewrite !decide_False.
    + by rewrite IH.
Qed.

(** Assigning twice to one key is assigning the second value. *)
Lemma dict_setitem_twice (d : registry) (k : string) (v1 v2 : t) :
  dict_setitem (dict_setitem d k v1) k v2 = dict_setitem d k v2.
Proof.
  induction d as [|[k' v'] d IH]; simpl.
  - by rewrite decide_True.
  - destruct (decide (k' = k)) as [->|Hne]; simpl.
    + by rewrite decide_True.
    + by rewrite decide_False, IH.
Qed.

(** Assigning to a key that is present adds no entry and moves none. *)
Lemma dict_setitem_keys_present (d : registry) (k : string) (v : t) :
  k ∈ keys d → keys (dict_setitem d k v) = keys d.
Proof.
  unfold keys. induction d as [|[k' v'] d IH]; simpl; intros Hin.
  - by apply elem_of_nil in Hin.
  - destruct (decide (k' = k)) as [->|Hne]; simpl; [done|].
    f_equal. apply IH. apply elem_of_cons in Hin as [?|?]; [congruence|done].
Qed.

Lemma dict_setitem_key_in (d : registry) (k : string) (v : t) :
  k ∈ keys (dict_setitem d k v).
Proof.
  unfold keys. induction d as [|[k' v'] d IH]; simpl.
  - apply list_elem_of_here.
  - destruct (decide (k' = k)) as [->|Hne]; simpl.
    + apply list_elem_of_here.
    + by apply list_elem_of_further.
Qed.

(** [create] never looks into the registry: what it builds, and whether it
    raises, is decided by its other arguments. *)
Lemma create_any_registry (r r' : registry) (mxid : string) (c : Component)
    (n : string) (key : option string) (manual : bool) (size : Z)
    (lv : t) (r1 : registry) :
  create r mxid c n key manual size = Ok (lv, r1) →
  r1 = dict_setitem r (unique_key lv) lv
  ∧ create r' mxid c n key manual size
    = Ok (lv, dict_setitem r' (unique_key lv) lv).
Proof.
  unfold create.
  destruct (_is_encoder_enabled c); [|done].
  destruct (_get_stream_size c) as [w h].
  unfold init. destruct (FrameBuffer.init _); [|done].
  simpl. by intros [= <- <-].
Qed.

Lemma create_explicit_key (r : registry) (mxid : string) (c : Component)
    (n k : string) (manual : bool) (size : Z) (lv : t) (r1 : registry) :
  k ≠ "" →
  create r mxid c n (Some k) manual size = Ok (lv, r1) →
  unique_key lv = k ∧ name lv = n.
Proof.
  intros Hk. unfold create.
  destruct (_is_encoder_enabled c); [|done].
  destruct (_get_stream_size c) as [w h].
  rewrite decide_False by done.
  unfold init. destruct (FrameBuffer.init _); [|done].
  by intros [= <- <-].
Qed.

Lemma get_by_name_values_head (vs : list t) (n : string) :
  get_by_name_values vs n = head (filter (λ lv, name lv = n) vs).
Proof.
  induction vs as [|lv vs IH]; [done|]. simpl.
  rewrite filter_cons. by destruct (decide (name lv = n)).
Qed.

Lemma get_by_name_values_none (vs : list t) (n : string) :
  get_by_name_values vs n = None ↔ ∀ lv, lv ∈ vs → name lv ≠ n.
Proof.
  induction vs as [|lv vs IH]; simpl.
  - split; [|done]. intros _ lv Hin. by apply elem_of_nil in Hin.
  - destruct (decide (name lv = n)) as [Heq|Hne].
    + split; [done|]. intros H. destruct (H lv); [apply list_elem_of_here|done].
    + rewrite IH. split.
      * intros H lv' Hin. apply elem_of_cons in Hin as [->|?]; auto.
      * intros H lv' Hin. apply H. by apply list_elem_of_further.
Qed.

(** Lookup by name in terms of the entries of the registry: it returns the
    value of the first entry whose value carries the name, and [None]
    exactly when no entry does. *)
Lemma get_by_name_entries (reg : registry) (n : string) :
  (∀ lv, get_by_name reg n = Some lv
         ↔ ∃ pre k post,
             reg = pre ++ (k, lv) :: post
             ∧ name lv = n
             ∧ ∀ k' lv', (k', lv') ∈ pre → name lv' ≠ n)
  ∧ (get_by_name reg n = None ↔ ∀ k lv, (k, lv) ∈ reg → name lv ≠ n).
Proof.
  unfold get_by_name, values.
  induction reg as [|[k0 v0] reg [IHs IHn]]; simpl.
  - split.
    + intros lv. split; [done|]. intros (pre & k & post & H & _).
      by destruct pre.
    + split; [|done]. intros _ k lv Hin. by apply elem_of_nil in Hin.
  - destruct (decide (name v0 = n)) as [Heq|Hne].
    + split.
      * intros lv. split.
        -- intros [= <-]. exists [], k0, reg. split_and!; [done | done |].
           intros k' lv' Hin. by apply elem_of_nil in Hin.
        -- intros (pre & k & post & H & Hn & Hpre).
           destruct pre as [|[k' v'] pre]; simpl in H.
           ++ by injection H as _ <- _.
           ++ injection H as <- <- _. exfalso.
              apply (Hpre k0 v0); [apply list_elem_of_here | done].
      * split; [done|]. intros H. exfalso.
        apply (H k0 v0); [apply list_elem_of_here | done].
    + split.
      * intros lv. rewrite IHs. split.
        -- intros (pre & k & post & -> & Hn & Hpre).
           exists ((k0, v0) :: pre), k, post. split_and!; [done | done |].
           intros k' lv' Hin.
           apply elem_of_cons in Hin as [[= -> ->]|Hin]; [done|].
           by eapply Hpre.
        -- intros (pre & k & post & H & Hn & Hpre).
           destruct pre as [|[k' v'] pre]; simpl in H.
           ++ injection H as _ -> _. done.
           ++ injection H as -> -> ->. exists pre, k, post.
              split_and!; [done | done |].
              intros k'' lv'' Hin. apply (Hpre k'' lv'').
              by apply list_elem_of_further.
      * rewrite IHn. split.
        -- intros H k lv Hin.
           apply elem_of_cons in Hin as [[= -> ->]|Hin]; [done|].
           by eapply H.
        -- intros H k lv Hin. apply (H k lv). by apply list_elem_of_further.
Qed.

(** Lookup by name after an assignment to a key, for a name that no entry
    carried before: the new value is found under its own name, and nothing
    under any other. *)
Lemma get_by_name_setitem_fresh (r : registry) (k : string) (lv : t)
    (n : string) :
  (∀ k' lv', (k', lv') ∈ r → name lv' ≠ n) →
  get_by_name (dict_setitem r k lv) n
  = if decide (name lv = n) then Some lv else None.
Proof.
  unfold get_by_name, values.
  induction r as [|[k0 v0] r IH]; intros Hfresh; simpl; [done|].
  assert (Hv0 : name v0 ≠ n) by (apply (Hfresh k0); apply list_elem_of_here).
  assert (Hr : ∀ k' lv', (k', lv') ∈ r → name lv' ≠ n).
  { intros k' lv' Hin. apply (Hfresh k'). by apply list_elem_of_further. }
  destruct (decide (k0 = k)) as [->|Hk]; simpl.
  - destruct (decide (name lv = n)); [done|].
    by apply (proj2 (get_by_name_entries r n)).
  - rewrite decide_False by done. by apply IH.
Qed.

(** C9.  A second [create] with the explicit key [k] of a first one does
    not raise and leaves the registry as if only the second had been made:
    [k] now leads to the second Live View and no entry was added.  For a
    name that no Live View carried before the two calls, lookup by name
    finds the first Live View after the first call and only under its
    name, and after the second call the second Live View and only under
    its name: the one that was replaced is no longer found.  In any
    registry, lookup by name returns the value of the first entry, in
    registry order, whose value carries the name, and [None] exactly when
    no entry does. *)
Theorem create_same_key_last_wins (r r0 r1 r2 : registry) (k : string)
    (mxid1 mxid2 n1 n2 : string) (c1 c2 : Component) (manual1 manual2 : bool)
    (size1 size2 : Z) (lv1 lv2 : t) :
  k ≠ "" →
  create r mxid1 c1 n1 (Some k) manual1 size1 = Ok (lv1, r1) →
  create r0 mxid2 c2 n2 (Some k) manual2 size2 = Ok (lv2, r2) →
  create r1 mxid2 c2 n2 (Some k) manual2 size2
  = Ok (lv2, dict_setitem r k lv2)
  ∧ get_by_unique_key (dict_setitem r k lv2) k = Ok lv2
  ∧ keys (dict_setitem r k lv2) = keys r1
  ∧ (∀ n,
       (∀ k' lv', (k', lv') ∈ r → name lv' ≠ n) →
       get_by_name r1 n = (if decide (n1 = n) then Some lv1 else None)
       ∧ get_by_name (dict_setitem r k lv2) n
         = (if decide (n2 = n) then Some lv2 else None))
  ∧ (∀ (reg : registry) (n : string),
       get_by_name reg n = head (filter (λ lv, name lv = n) (values reg))
       ∧ (∀ lv, get_by_name reg n = Some lv
                ↔ ∃ pre k0 post,
                    reg = pre ++ (k0, lv) :: post
                    ∧ name lv = n
                    ∧ ∀ k' lv', (k', lv') ∈ pre → name lv' ≠ n)
       ∧ (get_by_name reg n = None ↔ ∀ k0 lv, (k0, lv) ∈ reg → name lv ≠ n)).
Proof.
  intros Hk H1 H2.
  destruct (create_explicit_key _ _ _ _ _ _ _ _ _ Hk H1) as [Hk1 Hn1].
  destruct (create_explicit_key _ _ _ _ _ _ _ _ _ Hk H2) as [Hk2 Hn2].
  destruct (create_any_registry r r _ _ _ _ _ _ _ _ H1) as [-> _].
  destruct (create_any_registry r0 (dict_setitem r (unique_key lv1) lv1)
              _ _ _ _ _ _ _ _ H2) as [_ H2'].
  rewrite Hk1 in *. rewrite Hk2 in H2'.
  rewrite dict_setitem_twice in H2'.
  split_and!.
  - done.
  - unfold get_by_unique_key. by rewrite dict_getitem_setitem.
  - rewrite <- (dict_setitem_twice r k lv1 lv2).
    apply dict_setitem_keys_present, dict_setitem_key_in.
  - intros n Hfresh. rewrite <- Hn1, <- Hn2.
    split; by apply get_by_name_setitem_fresh.
  - intros reg n. split_and!.
    + apply get_by_name_values_head.
    + apply get_by_name_entries.
    + apply get_by_name_entries.
Qed.

Lemma create_same_key_last_wins_witness :
  ∃ first second,
    create [] "18443010" color "front" (Some "cam") false 0 = Ok (first, [("cam", first)])
    ∧ create [("cam", first)] "18443010" stereo "depth" (Some "cam") true 2
      = Ok (second, [("cam", second)])
    ∧ name first = "front" ∧ name second = "depth"
    ∧ get_by_name [("cam", first)] "front" = Some first
    ∧ get_by_name [("cam", second)] "depth" = Some second
    ∧ get_by_name [("cam", second)] "front" = None.
Proof.
  destruct (create [] "18443010" color "front" (Some "cam") false 0)
    as [[first r1]|] eqn:E1; [|discriminate].
  destruct (create [] "18443010" stereo "depth" (Some "cam") true 2)
    as [[second r2]|] eqn:E2; [|discriminate].
  assert (Hk : "cam" ≠ "") by discriminate.
  destruct (create_same_key_last_wins [] [] r1 r2 "cam" _ _ _ _ _ _ _ _ _ _
              first second Hk E1 E2) as (Hc & _ & _ & Hname & _).
  assert (Hnone : ∀ n (k' : string) (lv' : t),
            (k', lv') ∈ ([] : registry) → name lv' ≠ n).
  { intros n k' lv' Hin. by apply elem_of_nil in Hin. }
  destruct (Hname "front" (Hnone "front")) as [Hfirst Hgone].
  destruct (Hname "depth" (Hnone "depth")) as [_ Hsecond].
  injection E1 as <- <-. injection E2 as <- <-.
  eexists _, _.
  split_and!; [reflexivity | exact Hc | reflexivity | reflexivity
               | exact Hfirst | exact Hsecond | exact Hgone].
Defined.

Section VideoEvent.

Variable av_writer_path : list FrameBuffer.Packet → Z → Z → Z → string.
Variable av_writer_bytes : list FrameBuffer.Packet → Z → Z → Z → list Byte.byte.

(** C6, as the code has it.  With PyAV present,
    [FrameBuffer.save_video] answers a negative [before_seconds] or
    [after_seconds] with a [ValueError] before it reads or registers
    anything; without PyAV it raises [ImportError] whatever the durations.
    [LiveView.save_video_event] answers a buffer of capacity zero with an
    [Exception] and starts no thread; with any other capacity it does not
    look at the durations, starts its thread and returns.  Each exception
    carries its message. *)
Theorem export_refuses_bad_requests (u : FrameBuffer.uuid) (fb : FrameBuffer.t)
    (self : t) (b a fps w h : Z) (rb : bool) (title : string)
    (incoming : list FrameBuffer.Packet) :
  ((b < 0 ∨ a < 0)%Z →
   FrameBuffer.save_video av_writer_path av_writer_bytes true u fb
     b a fps w h rb incoming
   = (fb, Raised (ValueError FrameBuffer.negative_seconds_msg), incoming)
   ∧ exn_message (ValueError FrameBuffer.negative_seconds_msg)
     = "`before_seconds` and `after_seconds` must be positive.")
  ∧ (FrameBuffer.maxlen (frame_buffer self) = Some 0 →
     save_video_event self b a title = Raise (Exception buffer_disabled_msg)
     ∧ exn_message (Exception buffer_disabled_msg)
       = "You have set `max_buffer_size` to zero, therefore you cannot use frame buffer.")
  ∧ FrameBuffer.save_video av_writer_path av_writer_bytes false u fb
      b a fps w h rb incoming
    = (fb, Raised (ImportError FrameBuffer.av_missing_msg), incoming)
  ∧ (FrameBuffer.maxlen (frame_buffer self) ≠ Some 0 →
     ∃ th, save_video_event self b a title = Ok th).
Proof.
  split_and!.
  - intros Hneg. split; [|done].
    by apply FrameBufferFacts.save_video_negative.
  - intros Hzero. split; [|done].
    unfold save_video_event. by rewrite decide_True.
  - done.
  - intros Hcap. unfold save_video_event. rewrite decide_False by done.
    by eexists.
Qed.

(** C7 on the code.  Whenever the capacity is not zero,
    [save_video_event] starts a daemon thread; the thread calls
    [save_video] with the keywords [on_complete] and
    [delete_after_complete], which [save_video] does not take: the call
    raises [TypeError] at once, the buffer is untouched, and no video event
    is sent. *)
Theorem save_video_event_thread_raises (av : bool) (u : FrameBuffer.uuid)
    (self : t) (b a : Z) (title : string) (incoming : list FrameBuffer.Packet) :
  FrameBuffer.maxlen (frame_buffer self) ≠ Some 0 →
  ∃ th,
    save_video_event self b a title = Ok th
    ∧ daemon th = true
    ∧ thread_run av_writer_path av_writer_bytes av u self th incoming
      = (frame_buffer self,
         Raised (TypeError "FrameBuffer.save_video() got an unexpected keyword argument 'on_complete'"),
         []).
Proof.
  intros Hcap. unfold save_video_event. rewrite decide_False by done.
  eexists. split_and!; reflexivity.
Qed.

End VideoEvent.

Lemma export_refuses_bad_requests_witness :
  FrameBuffer.save_video sample_path sample_bytes true 7%N one_of_four
    (-1) 1 2 640 480 false [pk 5]
  = (one_of_four, Raised (ValueError FrameBuffer.negative_seconds_msg), [pk 5])
  ∧ save_video_event unbuffered_view 1 1 "motion"
    = Raise (Exception buffer_disabled_msg).
Proof.
  destruct (export_refuses_bad_requests sample_path sample_bytes 7%N
              one_of_four unbuffered_view (-1) 1 2 640 480 false "motion"
              [pk 5]) as (Hneg & Hzero & _).
  split.
  - apply Hneg. left. lia.
  - apply Hzero. reflexivity.
Defined.

(** C6 as worded fails.  A Live View with a buffer of capacity four, asked
    for an export with [before_seconds] negative, reports nothing to its
    caller: [save_video_event] starts its thread and returns, and the
    thread ends on a [TypeError].  [FrameBuffer.save_video] on a buffer of
    capacity zero raises an [IndexError], with the message of a list index,
    not one about buffering.  And without PyAV a negative [before_seconds]
    is answered with [ImportError]. *)
Lemma export_refuses_bad_requests_counterexample :
  FrameBuffer.maxlen (frame_buffer front_view) = Some 4
  ∧ (∃ th,
       save_video_event front_view (-1) 1 "motion" = Ok th
       ∧ thread_run sample_path sample_bytes true 7%N front_view th [pk 5]
         = (frame_buffer front_view,
            Raised (TypeError "FrameBuffer.save_video() got an unexpected keyword argument 'on_complete'"),
            []))
  ∧ (FrameBuffer.save_video sample_path sample_bytes true 7%N
       (FrameBuffer.mk [] (Some 0) ∅) 0 1 2 640 480 false [pk 5]).1.2
    = Raised (IndexError "list index out of range")
  ∧ FrameBuffer.save_video sample_path sample_bytes false 7%N one_of_four
      (-1) 1 2 640 480 false [pk 5]
    = (one_of_four, Raised (ImportError FrameBuffer.av_missing_msg), [pk 5]).
Proof.
  split_and!; try reflexivity.
  eexists. split; reflexivity.
Qed.

Lemma save_video_event_thread_raises_witness :
  ∃ th,
    save_video_event front_view 1 1 "motion" = Ok th
    ∧ daemon th = true
    ∧ thread_run sample_path sample_bytes true 7%N front_view th
        [pk 500000; pk 1000011]
      = (frame_buffer front_view,
         Raised (TypeError "FrameBuffer.save_video() got an unexpected keyword argument 'on_complete'"),
         []).
Proof.
  apply (save_video_event_thread_raises sample_path sample_bytes true 7%N
           front_view 1 1 "motion" [pk 500000; pk 1000011]).
  discriminate.
Defined.

End LiveViewFacts.

(** ** The camera manager *)

Module ManagerFacts.
Import Manager Samples.

Section Coordinator.

Variable booted_cameras : t → list loc.
Variable poll : nat → Device → bool.
Variable open_session : string → option nat.
Variable hub_camera_exit : nat → option string.
Variable destroy_all_streams : option string.
Variable info_report : Device → result string.
Variable stats_report : Device → result string.
Variable publish_device_info : string → bool.
Variable publish_device_stats : string → bool.

#[local] Abbreviation step :=
  (step booted_cameras poll open_session hub_camera_exit destroy_all_streams
     info_report stats_report publish_device_info publish_device_stats).
#[local] Abbreviation run :=
  (run booted_cameras poll open_session hub_camera_exit destroy_all_streams
     info_report stats_report publish_device_info publish_device_stats).
#[local] Abbreviation main_step :=
  (main_step booted_cameras open_session hub_camera_exit destroy_all_streams).
#[local] Abbreviation stop_release :=
  (stop_release booted_cameras hub_camera_exit destroy_all_streams).
#[local] Abbreviation _poll_pass := (_poll_pass booted_cameras poll).

Lemma run_cons (s : System) (ev : Event) (evs : list Event) :
  run s (ev :: evs) = run (step s ev) evs.
Proof. done. Qed.

(** *** Shutdown: the loops and the joins *)

(** No step of any thread gets a blocked [stop] going again: nothing
    clears [running], so no loop returns, so the first join does not. *)
Lemma step_stop_blocked (s : System) (ev : Event) :
  stop_blocked s → stop_blocked (step s ev).
Proof.
  destruct s as [m ct rt pt pc n ag ex].
  unfold stop_blocked. simpl. intros (Hr & He & -> & Hc & Hrp & Hp).
  destruct ev; simpl; try done.
  - destruct (remove_device m d) as [m'|] eqn:E; simpl; [|done].
    unfold remove_device in E. destruct (list_remove _ _); [|done].
    by injection E as <-.
  - unfold Manager.main_step, join_step. simpl. by rewrite Hc.
  - unfold connection_step. simpl. rewrite Hr.
    destruct ct; simpl in *; try done.
    by destruct (connect_idles m).
  - unfold reporting_step. simpl. rewrite Hr.
    by destruct rt.
  - unfold polling_step. simpl. rewrite Hr.
    by destruct pt.
Qed.

Lemma run_stop_blocked (evs : list Event) (s : System) :
  stop_blocked s → stop_blocked (run s evs).
Proof.
  revert s. induction evs as [|ev evs IH]; intros s H; [done|].
  rewrite run_cons. by apply IH, step_stop_blocked.
Qed.

(** With no loop alive, [stop] goes through the joins in the order
    connection, reporting, polling, and then to the release. *)
Lemma stop_join_order (s : System) :
  is_ready (main s) = true →
  is_alive (connection_thread s) = false →
  is_alive (reporting_thread s) = false →
  is_alive (polling_thread s) = false →
  main (run s [CallStop]) = JoinConnection
  ∧ main (run s [CallStop; MainStep]) = JoinReporting
  ∧ main (run s [CallStop; MainStep; MainStep]) = JoinPolling
  ∧ main (run s [CallStop; MainStep; MainStep; MainStep]) = Release.
Proof.
  destruct s as [m ct rt pt pc n ag ex]. simpl.
  intros Hready Hc Hr Hp. unfold Manager.run, Manager.step. simpl.
  rewrite Hready. simpl. unfold Manager.main_step, join_step. simpl.
  rewrite Hc. simpl. rewrite Hr. simpl. by rewrite Hp.
Qed.

(** C1 on the code.  [stop] sets [stop_event], but the three loops test
    [self.running], which [stop] leaves set: called while the loops are
    alive (asleep in their wait, say), [stop] stays in its first join, that
    of the connection thread, whatever the threads do and for however
    long; each loop wakes, finds [running] set and goes round again. *)
Theorem stop_never_gets_past_first_join (s : System) (evs : list Event) :
  is_ready (main s) = true →
  running (mgr s) = true →
  is_alive (connection_thread s) = true →
  is_alive (reporting_thread s) = true →
  is_alive (polling_thread s) = true →
  stop_event (mgr (step s CallStop)) = true
  ∧ stop_event (mgr (run (step s CallStop) evs)) = true
  ∧ running (mgr (run (step s CallStop) evs)) = true
  ∧ main (run (step s CallStop) evs) = JoinConnection
  ∧ is_alive (connection_thread (run (step s CallStop) evs)) = true
  ∧ is_alive (reporting_thread (run (step s CallStop) evs)) = true
  ∧ is_alive (polling_thread (run (step s CallStop) evs)) = true.
Proof.
  intros Hready Hrun Hc Hr Hp.
  assert (H0 : stop_blocked (step s CallStop)).
  { destruct s as [m ct rt pt pc n ag ex]. simpl in *.
    unfold stop_blocked, Manager.step. simpl. rewrite Hready. by simpl. }
  pose proof (run_stop_blocked evs _ H0) as (? & ? & ? & ? & ? & ?).
  destruct H0 as (_ & He & _). by split_and!.
Qed.

(** *** Shutdown: streams and sessions *)

#[local] Abbreviation exit_cameras := (exit_cameras hub_camera_exit).
#[local] Abbreviation exit_error := (exit_error hub_camera_exit).
#[local] Abbreviation passes := (passes hub_camera_exit).

Lemma open_cameras_cons (h : loc → Device) (c : loc) (cams : list loc) :
  open_cameras h (c :: cams)
  = if decide (state (h c) = DISCONNECTED) then open_cameras h cams
    else c :: open_cameras h cams.
Proof.
  unfold open_cameras. rewrite filter_cons.
  destruct (decide (state (h c) = DISCONNECTED)); case_decide; done.
Qed.

(** Past a camera that passes, the loop goes on with the rest. *)
Lemma exit_cameras_pass (h : loc → Device) (c : loc) (cams att : list loc) :
  passes h c →
  exit_cameras h (c :: cams) att
  = exit_cameras h cams (att ++ open_cameras h [c]).
Proof.
  intros Hpass. simpl. rewrite (open_cameras_cons h c []).
  destruct (decide (state (h c) = DISCONNECTED)) as [Hd|Hd].
  - by rewrite app_nil_r.
  - destruct Hpass as [?|Hok]; [done|].
    unfold Manager.exit_error in Hok.
    destruct (hub_camera (h c)) as [session|]; [|done].
    by rewrite Hok.
Qed.

Lemma exit_cameras_all_pass (h : loc → Device) (cams : list loc) :
  ∀ att, Forall (passes h) cams →
    exit_cameras h cams att = (att ++ open_cameras h cams, None).
Proof.
  induction cams as [|c cams IH]; intros att Hall.
  - simpl. by rewrite app_nil_r.
  - apply Forall_cons in Hall as [Hc Hcams].
    rewrite exit_cameras_pass, IH by done.
    rewrite <- app_assoc. do 2 f_equal.
    rewrite (open_cameras_cons h c cams), (open_cameras_cons h c []).
    by destruct (decide (state (h c) = DISCONNECTED)).
Qed.

(** At the first camera that does not pass, the loop raises; what follows
    it in the list is not looked at. *)
Lemma exit_cameras_first_failure (h : loc → Device) (pre : list loc) :
  ∀ (att : list loc) (c : loc) (post : list loc) (e : string),
    Forall (passes h) pre →
    state (h c) ≠ DISCONNECTED →
    exit_error h c = Some e →
    exit_cameras h (pre ++ c :: post) att
    = (att ++ open_cameras h pre ++ attempted_at h c,
       Some (Exception (exit_msg (device_mxid (h c)) e))).
Proof.
  induction pre as [|x pre IH]; intros att c post e Hall Hopen Herr.
  - simpl. rewrite decide_False by done.
    unfold Manager.exit_error in Herr. unfold attempted_at.
    destruct (hub_camera (h c)) as [session|].
    + by rewrite Herr.
    + injection Herr as <-. by rewrite app_nil_r.
  - apply Forall_cons in Hall as [Hx Hpre].
    change ((x :: pre) ++ c :: post) with (x :: (pre ++ c :: post)).
    rewrite exit_cameras_pass, (IH _ c post e) by done.
    rewrite <- !app_assoc. do 2 f_equal.
    rewrite (app_assoc (open_cameras h [x])). f_equal.
    rewrite (open_cameras_cons h x pre), (open_cameras_cons h x []).
    by destruct (decide (state (h x) = DISCONNECTED)).
Qed.

(** *** The polling pass *)

Lemma set_hub_camera_None_id (d : Device) :
  hub_camera d = None → set_hub_camera None d = d.
Proof. destruct d as [mx st hc]. simpl. by intros ->. Qed.

(** What a pass of [_poll] does to the store: a polled camera whose
    [poll()] fails loses its session and nothing else; every other device
    is as it was. *)
Lemma poll_fold_spec (time : nat) (cams : list loc) :
  ∀ (h : loc → Device) (c : loc),
    foldl (poll_camera poll time) h cams c
    = if decide (c ∈ cams ∧ poll time (h c) = false)
      then set_hub_camera None (h c) else h c.
Proof.
  induction cams as [|x cams IH]; intros h c.
  - destruct (decide _) as [[Hin _]|_]; [by apply elem_of_nil in Hin | done].
  - change (foldl (poll_camera poll time) h (x :: cams) c)
      with (foldl (poll_camera poll time) (poll_camera poll time h x) cams c).
    rewrite IH.
    assert (Hh1 : poll_camera poll time h x c
                  = if decide (c = x ∧ poll time (h x) = false)
                    then set_hub_camera None (h c) else h c).
    { unfold poll_camera. destruct (poll time (h x)) eqn:Hx.
      - rewrite decide_False; [done|]. by intros [_ ?].
      - destruct (decide (c = x)) as [->|Hne].
        + by rewrite fn_lookup_insert, decide_True.
        + rewrite fn_lookup_insert_ne by done.
          rewrite decide_False; [done|]. by intros [? _]. }
    rewrite Hh1.
    destruct (decide (c = x ∧ poll time (h x) = false)) as [[-> Hx]|Hn1].
    + rewrite (decide_True (P := x ∈ x :: cams ∧ _))
        by (split; [apply list_elem_of_here | done]).
      destruct (decide _); [|done].
      by apply set_hub_camera_None_id.
    + destruct (decide (c ∈ cams ∧ poll time (h c) = false)) as [[Hin Hf]|Hn2].
      * rewrite decide_True; [done|].
        split; [by apply list_elem_of_further | done].
      * rewrite decide_False; [done|]. intros [Hin Hf].
        apply elem_of_cons in Hin as [->|Hin]; [by apply Hn1 | by apply Hn2].
Qed.

(** C3 on the code.  A pass of [_poll] clears the session of every booted
    camera whose [poll()] fails and touches nothing else of the store; it
    leaves [_devices] and [_connected_devices] as they are, so the test of
    [_connect], the lengths of the two lists, gives what it gave before:
    a connection loop that slept goes on sleeping. *)
Theorem poll_failure_leaves_connection_test (time : nat) (m : t) :
  _devices (_poll_pass time m) = _devices m
  ∧ _connected_devices (_poll_pass time m) = _connected_devices m
  ∧ connect_idles (_poll_pass time m) = connect_idles m
  ∧ (∀ c, c ∈ booted_cameras m → poll time (heap m c) = false →
          heap (_poll_pass time m) c = set_hub_camera None (heap m c))
  ∧ (∀ c, ¬ (c ∈ booted_cameras m ∧ poll time (heap m c) = false) →
          heap (_poll_pass time m) c = heap m c).
Proof.
  split_and!; try done.
  - intros c Hin Hf. unfold Manager._poll_pass. simpl.
    rewrite poll_fold_spec. by rewrite decide_True.
  - intros c Hn. unfold Manager._poll_pass. simpl.
    rewrite poll_fold_spec. by rewrite decide_False.
Qed.

(** *** The device list *)

Lemma list_remove_sublist (l : list loc) (x : loc) :
  ∀ l', list_remove l x = Some l' → l' `sublist_of` l.
Proof.
  induction l as [|y l IH]; intros l'; simpl; [done|].
  destruct (decide (y = x)).
  - intros [= <-]. by apply sublist_cons.
  - destruct (list_remove l x) as [r|]; [|done].
    intros [= <-]. by apply sublist_skip, IH.
Qed.

Lemma mxids_same (m m' : t) :
  _devices m' = _devices m →
  (∀ c, device_mxid (heap m' c) = device_mxid (heap m c)) →
  mxids m' = mxids m.
Proof.
  intros Hd Hh. unfold mxids. rewrite Hd.
  apply list_fmap_ext. intros _ c _. simpl. apply Hh.
Qed.

(** The loop of [start] leaves the device list and the identities alone,
    appends what it has started to the connected list, and never takes a
    session away. *)
Lemma start_devices_spec (devs : list loc) :
  ∀ (m m' : t) (r : option exn),
    start_devices open_session m devs = (m', r) →
    _devices m' = _devices m
    ∧ running m' = running m
    ∧ stop_event m' = stop_event m
    ∧ (∀ c, device_mxid (heap m' c) = device_mxid (heap m c))
    ∧ (∀ c, is_Some (hub_camera (heap m c)) →
            is_Some (hub_camera (heap m' c)))
    ∧ (r = None →
       _connected_devices m' = _connected_devices m ++ devs
       ∧ ∀ c, c ∈ devs → is_Some (hub_camera (heap m' c))).
Proof.
  induction devs as [|d devs IH]; intros m m' r; simpl.
  - intros [= <- <-]. split_and!; try done.
    intros _. rewrite app_nil_r. split; [done|].
    intros c Hin. by apply elem_of_nil in Hin.
  - unfold device_start.
    destruct (open_session (device_mxid (heap m d))) as [session|];
      [|intros [= <- <-]; by split_and!].
    intros H. apply IH in H as (Hd & Hr & He & Hmx & Hkeep & Hnone). simpl in *.
    split_and!; try done.
    + intros c. rewrite Hmx.
      destruct (decide (c = d)) as [->|Hne].
      * by rewrite fn_lookup_insert.
      * by rewrite fn_lookup_insert_ne.
    + intros c Hc. apply Hkeep.
      destruct (decide (c = d)) as [->|Hne].
      * rewrite fn_lookup_insert. by eexists.
      * by rewrite fn_lookup_insert_ne.
    + intros ->. destruct Hnone as [Hcon Hses]; [done|].
      split; [by rewrite Hcon, <- app_assoc|].
      intros c Hin. apply elem_of_cons in Hin as [->|Hin]; [|by apply Hses].
      apply Hkeep. rewrite fn_lookup_insert. by eexists.
Qed.

(** A step changes the device list only through [add_device] and
    [remove_device], and never the identity of a device. *)
Lemma step_devices (s : System) (ev : Event) :
  (∀ c, device_mxid (heap (mgr (step s ev)) c)
        = device_mxid (heap (mgr s) c))
  ∧ (_devices (mgr (step s ev)) = _devices (mgr s)
     ∨ (∃ d, ev = CallAddDevice d
             ∧ _devices (mgr (step s ev)) = _devices (mgr s) ++ [d])
     ∨ (∃ d, ev = CallRemoveDevice d
             ∧ list_remove (_devices (mgr s)) d
               = Some (_devices (mgr (step s ev))))).
Proof.
  destruct s as [m ct rt pt pc n ag ex].
  destruct ev; unfold Manager.step; simpl.
  - split; [done|]. right. left. by eexists.
  - unfold remove_device.
    destruct (list_remove (_devices m) d) as [l|] eqn:E; simpl.
    + split; [done|]. right. right. by eexists.
    + split; [done|]. by left.
  - destruct (is_ready pc); [|by split; [|left]].
    unfold call_start. simpl. destruct (thread_start ct); simpl; by split; [|left].
  - destruct (is_ready pc); by split; [|left].
  - unfold Manager.main_step. simpl.
    destruct pc; simpl; try (unfold join_step; simpl;
      match goal with |- context [is_alive ?t] => destruct (is_alive t) end;
      simpl; by split; [|left]).
    + by split; [|left].
    + unfold start_step. simpl.
      destruct (running m && bool_decide (_devices m = [])); [by split; [|left]|].
      destruct (start_devices open_session m (_devices m)) as [m' r] eqn:E.
      apply start_devices_spec in E as (Hd & _ & _ & Hmx & _).
      destruct r; simpl; [by split; [|left]|].
      destruct (thread_start rt); simpl; [|by split; [|left]].
      destruct (thread_start pt); simpl; by split; [|left].
    + unfold release_step. simpl.
      destruct (stop_release m). simpl. by split; [|left].
  - unfold connection_step. simpl.
    destruct ct; simpl; try by split; [|left].
    destruct (running m); simpl; [|by split; [|left]].
    destruct (connect_idles m); simpl; by split; [|left].
  - unfold reporting_step. simpl.
    destruct rt; simpl; try by split; [|left].
    destruct (running m); simpl; by split; [|left].
  - unfold polling_step. simpl.
    destruct pt; simpl; try by split; [|left].
    destruct (running m); simpl; [|by split; [|left]].
    split; [|by left]. intros c. rewrite poll_fold_spec.
    by destruct (decide _).
Qed.

Lemma step_keeps_NoDup (s : System) (ev : Event) :
  NoDup (mxids (mgr s)) →
  match ev with
  | CallAddDevice d => device_mxid (heap (mgr s) d) ∉ mxids (mgr s)
  | _ => True
  end →
  NoDup (mxids (mgr (step s ev))).
Proof.
  intros Hnd Hfresh.
  destruct (step_devices s ev) as [Hmx [Hsame | [(d & -> & Hadd) | (d & -> & Hrm)]]].
  - by rewrite (mxids_same (mgr s)).
  - unfold mxids in *. rewrite Hadd, fmap_snoc. rewrite Hmx.
    apply NoDup_app. split_and!; [| |apply NoDup_singleton].
    + erewrite list_fmap_ext; [exact Hnd|]. intros _ c _. simpl. apply Hmx.
    + intros x Hx Hin. apply list_elem_of_singleton in Hin as ->.
      apply Hfresh. erewrite list_fmap_ext; [exact Hx|].
      intros _ c _. simpl. symmetry. apply Hmx.
  - apply list_remove_sublist in Hrm.
    unfold mxids in *.
    eapply sublist_NoDup; [exact Hnd|].
    erewrite list_fmap_ext; [by apply fmap_sublist|].
    intros _ c _. simpl. apply Hmx.
Qed.

(** Once [start] is over, nothing opens a session again: a device that
    has lost its session has none after any further events. *)
Lemma demoted_device_never_reattached (evs : list Event) :
  ∀ (s : System) (c : loc),
    connection_thread s ≠ NotStarted →
    main s ≠ InStart →
    hub_camera (heap (mgr s) c) = None →
    hub_camera (heap (mgr (run s evs)) c) = None.
Proof.
  induction evs as [|ev evs IH]; intros s c Hct Hpc Hnone; [done|].
  rewrite run_cons.
  assert (connection_thread (step s ev) ≠ NotStarted
          ∧ main (step s ev) ≠ InStart
          ∧ hub_camera (heap (mgr (step s ev)) c) = None) as (? & ? & ?);
    [|by apply IH].
  clear IH. destruct s as [m ct rt pt pc n ag ex]. simpl in *.
  destruct ev; unfold Manager.step; simpl.
  - done.
  - unfold remove_device. by destruct (list_remove (_devices m) d).
  - destruct (is_ready pc); [|done]. unfold call_start. simpl.
    by destruct ct.
  - destruct (is_ready pc); [|done]. simpl. by destruct ct.
  - unfold Manager.main_step. simpl.
    destruct pc; simpl; try done;
      try (unfold join_step; simpl;
           match goal with |- context [is_alive ?t] => destruct (is_alive t) end;
           by simpl).
    unfold release_step. simpl. by destruct (stop_release m).
  - unfold connection_step. simpl. destruct ct; simpl; try done.
    destruct (running m); simpl; [|done]. by destruct (connect_idles m).
  - unfold reporting_step. simpl. destruct rt; simpl; try done.
    by destruct (running m).
  - unfold polling_step. simpl. destruct pt; simpl; try done.
    destruct (running m); simpl; [|done].
    split_and!; try done. rewrite poll_fold_spec.
    by destruct (decide _).
Qed.

End Coordinator.

Lemma stop_never_gets_past_first_join_witness :
  main (sample_run (sample_step sample_asleep CallStop)
          [MainStep; PollingStep; ReportingStep; ConnectionStep; MainStep;
           PollingStep; ReportingStep; ConnectionStep; MainStep])
  = JoinConnection
  ∧ polling_thread
      (sample_run (sample_step sample_asleep CallStop)
         [MainStep; PollingStep; ReportingStep; ConnectionStep; MainStep;
          PollingStep; ReportingStep; ConnectionStep; MainStep])
    = InWait.
Proof.
  destruct (stop_never_gets_past_first_join sample_booted sample_poll
              sample_open sample_exit None sample_report sample_report
              sample_publish sample_publish sample_asleep
              [MainStep; PollingStep; ReportingStep; ConnectionStep; MainStep;
               PollingStep; ReportingStep; ConnectionStep; MainStep])
    as (_ & _ & _ & Hmain & _).
  - reflexivity.
  - reflexivity.
  - reflexivity.
  - reflexivity.
  - reflexivity.
  - split; [exact Hmain | reflexivity].
Defined.




Lemma poll_failure_leaves_connection_test_witness :
  heap sample_after_failed_poll 0 = mkDevice "mxid-A" CONNECTED None
  ∧ _devices sample_after_failed_poll = [0; 1]
  ∧ _connected_devices sample_after_failed_poll = [0; 1]
  ∧ connect_idles sample_after_failed_poll = connect_idles sample_manager
  ∧ connect_idles sample_after_failed_poll = true.
Proof.
  destruct (poll_failure_leaves_connection_test sample_booted sample_poll 8
              sample_manager) as (Hd & Hc & Hi & Hfail & _).
  split_and!.
  - apply (Hfail 0); reflexivity || (apply list_elem_of_here).
  - exact Hd.
  - exact Hc.
  - exact Hi.
  - reflexivity.
Defined.

(** One statement leaves the device list and the identities alone, or is
    an [add_device], or a [remove_device] that found its device. *)
Lemma apply_op_devices (open_session : string → option nat) (self : t)
    (op : Shipped.Op) :
  (∀ c, device_mxid (heap (Shipped.apply_op open_session self op) c)
        = device_mxid (heap self c))
  ∧ (_devices (Shipped.apply_op open_session self op) = _devices self
     ∨ (∃ d, op = Shipped.AddDevice d
             ∧ _devices (Shipped.apply_op open_session self op)
               = _devices self ++ [d])
     ∨ (∃ d, op = Shipped.RemoveDevice d
             ∧ list_remove (_devices self) d
               = Some (_devices (Shipped.apply_op open_session self op)))).
Proof.
  destruct op as [d|d| | |d|d|c]; simpl.
  - split; [done|]. right. left. by exists d.
  - unfold remove_device.
    destruct (list_remove (_devices self) d) as [l|] eqn:E; simpl.
    + split; [done|]. right. right. by exists d.
    + split; [done | by left].
  - split; [done | by left].
  - split; [done | by left].
  - unfold device_start.
    destruct (open_session (device_mxid (heap self d))); simpl;
      [|split; [done | by left]].
    split; [|by left]. intros c.
    destruct (decide (c = d)) as [->|Hne].
    + by rewrite fn_lookup_insert.
    + by rewrite fn_lookup_insert_ne.
  - split; [done | by left].
  - split; [|by left]. intros x.
    destruct (decide (x = c)) as [->|Hne].
    + by rewrite fn_lookup_insert.
    + by rewrite fn_lookup_insert_ne.
Qed.




End ManagerFacts.

(** ** More on the frame buffer *)

Module FrameBufferMore.
Import FrameBuffer Samples.

(** [get_slice] reads positions: with a start [i] and an end [j], both
    between zero and [sys.maxsize], the [k]-th entry of the result is the
    entry at position [i + k] of the buffer as long as [i + k < j]; without
    an end the slice runs to the end of the buffer; a negative start is a
    [ValueError]. *)
Theorem get_slice_positions (self : t) (i j : Z) :
  (0 ≤ i ≤ sys_maxsize)%Z → (0 ≤ j ≤ sys_maxsize)%Z →
  (∃ l, get_slice self i (Some j) = Ok l
        ∧ ∀ k : nat,
            l !! k = if decide (Z.of_nat k < j - i)%Z
                     then buffer self !! (Z.to_nat i + k) else None)
  ∧ (∃ l, get_slice self i None = Ok l
          ∧ length l = length (buffer self) - Z.to_nat i
          ∧ ∀ k : nat, l !! k = buffer self !! (Z.to_nat i + k))
  ∧ (∀ (z : Z) (e : option Z),
        (z < 0)%Z → ∃ m, get_slice self z e = Raise (ValueError m)).
Proof.
  intros Hi Hj. split_and!.
  - eexists. split.
    + unfold get_slice, islice.
      replace (j =? -1)%Z with false by lia.
      by replace ((i <? 0)%Z || (j <? -1)%Z) with false by lia.
    + intros k. destruct (decide (Z.of_nat k < j - i)%Z) as [Hk|Hk].
      * rewrite lookup_take_lt by lia. by rewrite lookup_drop.
      * apply lookup_take_ge. lia.
  - eexists. split_and!.
    + unfold get_slice, islice. by replace (i <? 0)%Z with false by lia.
    + by rewrite length_drop.
    + intros k. by rewrite lookup_drop.
  - intros z e Hz. unfold get_slice, islice. destruct e as [e|].
    + destruct (e =? -1)%Z; [by eexists|].
      replace (z <? 0)%Z with true by lia. by eexists.
    + replace (z <? 0)%Z with true by lia. by eexists.
Qed.

Lemma get_slice_positions_witness :
  get_slice (mk [pk 1; pk 2; pk 3; pk 4] (Some 4) ∅) 1 (Some 3%Z)
  = Ok [pk 2; pk 3].
Proof.
  destruct (get_slice_positions (mk [pk 1; pk 2; pk 3; pk 4] (Some 4) ∅) 1 3)
    as ((l & Hl & _) & _); [by vm_compute | by vm_compute |].
  rewrite Hl. vm_compute in Hl. by injection Hl as <-.
Defined.

(** A buffer built with a bound holds, after any pushes, as many entries as
    were pushed, up to the bound and never more; with the bound zero it
    stays empty. *)
Theorem buffer_length_is_min (n : Z) (fb : t) (ps : list Packet) :
  init (Some n) = Ok fb →
  length (buffer (push_all fb ps)) = length ps `min` Z.to_nat n
  ∧ maxlen (push_all fb ps) = Some (Z.to_nat n).
Proof.
  unfold init. destruct (n <? 0)%Z; [done|]. intros [= <-].
  rewrite FrameBufferFacts.push_all_maxlen. split; [|done].
  rewrite (FrameBufferFacts.push_all_buffer (Z.to_nat n)) by (simpl; done || lia).
  simpl. rewrite length_drop. lia.
Qed.

Lemma buffer_length_is_min_witness :
  length (buffer (push_all (mk [] (Some 2) ∅) [pk 1; pk 2; pk 3])) = 2
  ∧ length (buffer (push_all (mk [] (Some 0) ∅) [pk 1; pk 2; pk 3])) = 0.
Proof.
  split.
  - exact (proj1 (buffer_length_is_min 2 (mk [] (Some 2) ∅)
                    [pk 1; pk 2; pk 3] eq_refl)).
  - exact (proj1 (buffer_length_is_min 0 (mk [] (Some 0) ∅)
                    [pk 1; pk 2; pk 3] eq_refl)).
Defined.

Lemma push_all_unbounded (ps : list Packet) :
  ∀ fb, maxlen fb = None → buffer (push_all fb ps) = buffer fb ++ ps.
Proof.
  induction ps as [|p ps IH]; intros fb Hmax.
  - by rewrite app_nil_r.
  - change (push_all fb (p :: ps)) with (push_all (default_callback fb p) ps).
    rewrite IH by done. simpl. rewrite Hmax. simpl.
    by rewrite <- app_assoc.
Qed.

(** Every queue of [temporary_queues] receives every pushed packet, in
    order, behind what it held; no queue appears or disappears. *)
Theorem taps_receive_every_push (fb : t) (ps : list Packet) (k : uuid) :
  temporary_queues (push_all fb ps) !! k
  = (λ q, q ++ ps) <$> (temporary_queues fb !! k).
Proof. by rewrite FrameBufferFacts.push_all_queues, lookup_fmap. Qed.

Section SaveVideoMore.

Variable av_writer_path : list Packet → Z → Z → Z → string.
Variable av_writer_bytes : list Packet → Z → Z → Z → list Byte.byte.

#[local] Abbreviation save_video := (save_video av_writer_path av_writer_bytes).

(** A buffer built without a bound (the default) keeps every packet it is
    given, and [save_video] on it raises [TypeError] at the subtraction
    from [maxlen], before any queue is registered. *)
Theorem unbounded_buffer_cannot_export (fb : t) (ps : list Packet)
    (u : uuid) (b a fps w h : Z) (rb : bool) (incoming : list Packet) :
  init None = Ok fb →
  buffer (push_all fb ps) = ps
  ∧ ((0 ≤ b)%Z → (0 ≤ a)%Z →
     save_video true u (push_all fb ps) b a fps w h rb incoming
     = (push_all fb ps, Raised (TypeError none_minus_int_msg), incoming)).
Proof.
  intros [= <-]. split.
  - by rewrite push_all_unbounded.
  - intros Hb Ha. unfold FrameBuffer.save_video. simpl.
    replace ((b <? 0)%Z || (a <? 0)%Z) with false by lia.
    by rewrite FrameBufferFacts.push_all_maxlen.
Qed.

(** Asking for more seconds before the event than the buffer can hold
    ([before_seconds * fps] above the bound) is a [ValueError] of [islice];
    the buffer is left as it was and no queue is registered. *)
Theorem save_video_beyond_capacity (u : uuid) (self : t) (C : nat)
    (b a fps w h : Z) (rb : bool) (incoming : list Packet) :
  (0 ≤ b)%Z → (0 ≤ a)%Z →
  maxlen self = Some C →
  (Z.of_nat C < b * fps)%Z →
  save_video true u self b a fps w h rb incoming
  = (self, Raised (ValueError islice_indices_msg), incoming).
Proof.
  intros Hb Ha Hmax Hbig. unfold FrameBuffer.save_video. simpl.
  replace ((b <? 0)%Z || (a <? 0)%Z) with false by lia.
  rewrite Hmax. unfold get_slice, islice.
  by replace (Z.of_nat C - b * fps <? 0)%Z with true by lia.
Qed.

(** On an empty buffer of capacity zero [save_video] raises whatever it is
    asked: it never returns a video and never waits. *)
Theorem zero_capacity_always_raises (av : bool) (u : uuid) (self : t)
    (b a fps w h : Z) (rb : bool) (incoming : list Packet) :
  maxlen self = Some 0 →
  buffer self = [] →
  ∃ e, (save_video av u self b a fps w h rb incoming).1.2 = Raised e.
Proof.
  intros Hmax Hbuf. unfold FrameBuffer.save_video.
  destruct av; simpl; [|by eexists].
  destruct ((b <? 0)%Z || (a <? 0)%Z); [by eexists|].
  rewrite Hmax. unfold get_slice, islice. rewrite Hbuf.
  destruct (_ <? 0)%Z; [by eexists|].
  rewrite drop_nil. simpl. by eexists.
Qed.

(** While every pushed packet is within [after_seconds] of the pivot, the
    waiting loop goes on: it has taken every packet and waits for more. *)
Lemma wait_until_complete_waits (u : uuid) (pivot a : Z) (incoming : list Packet) :
  ∀ (self : t) (Q0 : gmap uuid (list Packet)) (after : list Packet),
    temporary_queues self = <[u := []]> Q0 →
    Forall (λ x, (getTimestamp x - pivot ≤ timedelta_seconds a)%Z) incoming →
    ∃ self' after',
      wait_until_complete u pivot a self after incoming
      = (self', after', StillWaiting, [])
      ∧ buffer self' = buffer (push_all self incoming)
      ∧ temporary_queues self' !! u = Some [].
Proof.
  induction incoming as [|x xs IH]; intros self Q0 after HQ Hall.
  - eexists _, _. split_and!; [done | done |].
    by rewrite HQ, lookup_insert_eq.
  - apply Forall_cons in Hall as [Hx Hxs].
    rewrite (FrameBufferFacts.wait_until_complete_turn u pivot a self Q0) by done.
    cbv zeta.
    replace (timedelta_seconds a <? getTimestamp x - pivot)%Z with false by lia.
    edestruct (IH (mk (buffer (default_callback self x)) (maxlen self)
                      (<[u := []]> ((λ q, q ++ [x]) <$> Q0))))
      as (s' & a' & Hw & Hb & Hq); [done | done |].
    rewrite Hw.
    eexists _, _. split_and!; [done | | done].
    rewrite Hb.
    change (push_all self (x :: xs))
      with (push_all (default_callback self x) xs).
    by apply FrameBufferFacts.push_all_buffer_ext.
Qed.

(** An export whose stream never gets more than [after_seconds] past the
    pivot does not end: with [after_seconds] within what a
    [datetime.timedelta] holds and the buffer filled past the start of the
    slice, [save_video] has pushed through every packet, returned nothing,
    and its queue is still registered. *)
Theorem save_video_waits_for_late_packet (u : uuid) (self : t) (C : nat)
    (b a fps w h : Z) (rb : bool) (incoming : list Packet)
    (last_before : Packet) :
  (0 ≤ b)%Z → (0 ≤ a ≤ timedelta_max_seconds)%Z →
  maxlen self = Some C →
  (b * fps ≤ Z.of_nat C)%Z →
  (Z.of_nat C - b * fps < Z.of_nat (length (buffer self)))%Z →
  last (buffer self) = Some last_before →
  Forall (λ x, (getTimestamp x - getTimestamp last_before
                ≤ timedelta_seconds a)%Z) incoming →
  ∃ self',
    save_video true u self b a fps w h rb incoming = (self', Blocked, [])
    ∧ buffer self' = buffer (push_all self incoming)
    ∧ temporary_queues self' !! u = Some [].
Proof.
  intros Hb Ha Hmax Hle Hlen Hlast Hall.
  set (n := Z.to_nat (Z.of_nat C - b * fps)).
  assert (Hlastd : last (drop n (buffer self)) = Some last_before).
  { rewrite <- Hlast. rewrite !last_lookup, lookup_drop, length_drop.
    f_equal. lia. }
  unfold FrameBuffer.save_video. simpl.
  replace ((b <? 0)%Z || (a <? 0)%Z) with false by lia.
  rewrite Hmax. unfold get_slice, islice.
  replace (Z.of_nat C - b * fps <? 0)%Z with false by lia.
  fold n. rewrite Hlastd.
  edestruct (wait_until_complete_waits u (getTimestamp last_before) a incoming
               (set_temporary_queues (<[u := []]> (temporary_queues self)) self)
               (temporary_queues self) [])
    as (s' & a' & Hw & Hbuf & Hq); [done | done |].
  rewrite Hw.
  eexists. split_and!; [done | | done].
  rewrite Hbuf. by apply FrameBufferFacts.push_all_buffer_ext.
Qed.

(** What the waiting loop does to the rest of the buffer: the packets it
    took are a prefix of those offered, the deque received exactly them,
    and so did every queue other than the request's own. *)
Lemma wait_until_complete_others (u : uuid) (pivot a : Z)
    (incoming : list Packet) :
  ∀ (self : t) (after : list Packet) self' after' w rest,
    wait_until_complete u pivot a self after incoming
    = (self', after', w, rest) →
    ∃ taken,
      incoming = taken ++ rest
      ∧ buffer self' = buffer (push_all self taken)
      ∧ maxlen self' = maxlen self
      ∧ ∀ k, k ≠ u →
             temporary_queues self' !! k
             = (λ q, q ++ taken) <$> (temporary_queues self !! k).
Proof.
  induction incoming as [|x xs IH]; intros self after self' after' w rest.
  - simpl. intros [= <- <- <- <-]. exists []. split_and!; try done.
    intros k _. destruct (temporary_queues self !! k); simpl; [|done].
    by rewrite app_nil_r.
  - simpl. rewrite lookup_fmap.
    assert (Hcompose : ∀ (o : option (list Packet)) (ys : list Packet),
               (λ q, q ++ ys) <$> ((λ q, q ++ [x]) <$> o)
               = (λ q, q ++ x :: ys) <$> o).
    { intros [q|] ys; simpl; [|done]. by rewrite <- app_assoc. }
    assert (Hstep : ∀ (s1 : t) (taken : list Packet),
               buffer s1 = buffer (default_callback self x) →
               maxlen s1 = maxlen self →
               buffer (push_all s1 taken) = buffer (push_all self (x :: taken))).
    { intros s1 taken Hb1 Hm1.
      change (push_all self (x :: taken))
        with (push_all (default_callback self x) taken).
      by apply FrameBufferFacts.push_all_buffer_ext. }
    destruct (temporary_queues self !! u) as [q0|] eqn:Hu; simpl.
    + destruct (q0 ++ [x]) as [|p q] eqn:Eq.
      * intros H. apply IH in H as (taken & Hin & Hb & Hm & Hq).
        exists (x :: taken). split_and!.
        -- simpl. by rewrite Hin.
        -- rewrite Hb. by apply Hstep.
        -- by rewrite Hm.
        -- intros k Hk. rewrite Hq by done. simpl.
           rewrite lookup_fmap. apply Hcompose.
      * destruct (_ <? getTimestamp p - pivot)%Z.
        -- intros [= <- <- <- <-]. exists [x]. split_and!; try done.
           intros k Hk. simpl. rewrite lookup_insert_ne by done.
           by rewrite lookup_fmap.
        -- intros H. apply IH in H as (taken & Hin & Hb & Hm & Hq).
           exists (x :: taken). split_and!.
           ++ simpl. by rewrite Hin.
           ++ rewrite Hb. by apply Hstep.
           ++ by rewrite Hm.
           ++ intros k Hk. rewrite Hq by done. simpl.
              rewrite lookup_insert_ne by done.
              rewrite lookup_fmap. apply Hcompose.
    + intros [= <- <- <- <-]. exists [x]. split_and!; try done.
      intros k Hk. simpl. by rewrite lookup_fmap.
Qed.

(** Whatever [save_video] does (return, raise or wait), the packets pushed
    meanwhile all reach the deque, in order, and every queue of another
    request receives exactly them: a request never takes from, empties or
    removes a queue that is not its own. *)
Theorem save_video_leaves_other_taps (av : bool) (u : uuid) (self : t)
    (b a fps w h : Z) (rb : bool) (incoming : list Packet)
    (self' : t) (out : outcome video) (rest : list Packet) :
  save_video av u self b a fps w h rb incoming = (self', out, rest) →
  ∃ taken,
    incoming = taken ++ rest
    ∧ buffer self' = buffer (push_all self taken)
    ∧ maxlen self' = maxlen self
    ∧ ∀ k, k ≠ u →
           temporary_queues self' !! k
           = (λ q, q ++ taken) <$> (temporary_queues self !! k).
Proof.
  assert (Hnil : ∀ s : t, ∀ k,
             temporary_queues s !! k
             = (λ q, q ++ []) <$> (temporary_queues s !! k)).
  { intros s k. destruct (temporary_queues s !! k); simpl; [|done].
    by rewrite app_nil_r. }
  unfold FrameBuffer.save_video.
  destruct av; simpl;
    [|intros [= <- <- <-]; exists []; by split_and!].
  destruct ((b <? 0)%Z || (a <? 0)%Z);
    [intros [= <- <- <-]; exists []; by split_and!|].
  destruct (maxlen self) as [n|] eqn:Hmax;
    [|intros [= <- <- <-]; exists []; by split_and!].
  destruct (Z.of_nat n - b * fps <? 0)%Z;
    [intros [= <- <- <-]; exists []; by split_and!|].
  destruct (last _) as [p|].
  2: { intros [= <- <- <-]. exists []. split_and!; try done.
       intros k Hk. simpl. rewrite lookup_insert_ne by done. apply Hnil. }
  destruct (wait_until_complete _ _ _ _ _ _) as [[[s2 after] wt] r] eqn:E.
  apply wait_until_complete_others in E as (taken & -> & Hb & Hm & Hq).
  assert (Hq' : ∀ k, k ≠ u →
            temporary_queues s2 !! k
            = (λ q, q ++ taken) <$> (temporary_queues self !! k)).
  { intros k Hk. rewrite Hq by done. simpl. by rewrite lookup_insert_ne. }
  assert (Hb' : buffer s2 = buffer (push_all self taken)).
  { rewrite Hb. by apply FrameBufferFacts.push_all_buffer_ext. }
  assert (Hm' : maxlen s2 = Some n) by (by rewrite Hm).
  destruct wt; intros [= <- <- <-]; exists taken; split_and!; try done.
  intros k Hk. simpl. rewrite lookup_delete_ne by done. by apply Hq'.
Qed.

End SaveVideoMore.

Lemma unbounded_buffer_cannot_export_witness :
  buffer (push_all (mk [] None ∅) [pk 1; pk 2; pk 3]) = [pk 1; pk 2; pk 3]
  ∧ save_video sample_path sample_bytes true 7%N
      (push_all (mk [] None ∅) [pk 1; pk 2; pk 3]) 1 1 2 640 480 false [pk 4]
    = (push_all (mk [] None ∅) [pk 1; pk 2; pk 3],
       Raised (TypeError none_minus_int_msg), [pk 4]).
Proof.
  destruct (unbounded_buffer_cannot_export sample_path sample_bytes
              (mk [] None ∅) [pk 1; pk 2; pk 3] 7%N 1 1 2 640 480 false [pk 4]
              eq_refl) as [Hkeep Hraise].
  split; [exact Hkeep | apply Hraise; lia].
Defined.

Lemma save_video_beyond_capacity_witness :
  save_video sample_path sample_bytes true 7%N one_of_four 3 1 2 640 480
    false [pk 5]
  = (one_of_four, Raised (ValueError islice_indices_msg), [pk 5]).
Proof.
  apply (save_video_beyond_capacity sample_path sample_bytes 7%N one_of_four 4).
  - lia.
  - lia.
  - reflexivity.
  - simpl. lia.
Defined.

Lemma zero_capacity_always_raises_witness :
  ∃ e, (save_video sample_path sample_bytes true 7%N (mk [] (Some 0) ∅)
          0 1 30 640 480 false [pk 5]).1.2 = Raised e.
Proof.
  apply (zero_capacity_always_raises sample_path sample_bytes true 7%N
           (mk [] (Some 0) ∅)); reflexivity.
Defined.

Lemma save_video_waits_for_late_packet_witness :
  ∃ self',
    save_video sample_path sample_bytes true 7%N one_of_one 1 1 1 640 480
      false [pk 400000; pk 1000000]
    = (self', Blocked, [])
    ∧ buffer self' = [pk 1000000]
    ∧ temporary_queues self' !! 7%N = Some [].
Proof.
  destruct (save_video_waits_for_late_packet sample_path sample_bytes 7%N
              one_of_one 1 1 1 1 640 480 false [pk 400000; pk 1000000] (pk 0))
    as (s' & Hs & Hb & Hq).
  - lia.
  - by vm_compute.
  - reflexivity.
  - simpl. lia.
  - simpl. lia.
  - reflexivity.
  - repeat constructor; unfold timedelta_seconds; simpl; lia.
  - exists s'. split_and!; [exact Hs | | exact Hq].
    rewrite Hb. reflexivity.
Defined.

Lemma save_video_leaves_other_taps_witness :
  ∃ self',
    (save_video sample_path sample_bytes true 7%N
       (mk [pk 0] (Some 1) {[ 9%N := [pk 0] ]}) 1 1 1 640 480 false
       [pk 400000; pk 2000000; pk 3000000]).1.1 = self'
    ∧ temporary_queues self' !! 9%N = Some [pk 0; pk 400000; pk 2000000].
Proof.
  destruct (save_video sample_path sample_bytes true 7%N
              (mk [pk 0] (Some 1) {[ 9%N := [pk 0] ]}) 1 1 1 640 480 false
              [pk 400000; pk 2000000; pk 3000000])
    as [[s' out] rest] eqn:E.
  destruct (save_video_leaves_other_taps sample_path sample_bytes true 7%N
              _ 1 1 1 640 480 false _ s' out rest E)
    as (taken & Htaken & _ & _ & Hq).
  exists s'. split; [reflexivity|].
  pose proof (Hq 9%N ltac:(discriminate)) as Hq9. simpl in Hq9.
  etrans; [exact Hq9|].
  assert (Hrest : rest = [pk 3000000])
    by (vm_compute in E; injection E as _ _ <-; reflexivity).
  rewrite Hrest in Htaken.
  change [pk 400000; pk 2000000; pk 3000000]
    with ([pk 400000; pk 2000000] ++ [pk 3000000]) in Htaken.
  apply app_inv_tail in Htaken as <-. reflexivity.
Defined.

End FrameBufferMore.

(** ** Overlays and publishing *)

Module OverlayFacts.
Import Overlay Samples.

Section PublishFacts.

Variable coord : Type.
Variable float : Type.
Variable frame : Type.
Variable serialized : Type.
Variable text_serialize : VisText float → serialized.
Variable line_serialize : VisLine → serialized.
Variable is_h264_frame : frame → bool.
Variable to_bytes : frame → list Byte.byte.
Variable packet_frame : FrameBuffer.Packet → frame.

#[local] Abbreviation Session := (Session coord float serialized).
#[local] Abbreviation Action := (Action coord float frame).
#[local] Abbreviation act :=
  (act coord float frame serialized text_serialize line_serialize
     is_h264_frame to_bytes packet_frame).
#[local] Abbreviation acts :=
  (acts coord float frame serialized text_serialize line_serialize
     is_h264_frame to_bytes packet_frame).

Lemma acts_cons (manual : bool) (s : Session) (a : Action) (l : list Action) :
  acts manual s (a :: l) = acts manual (act manual s a) l.
Proof. done. Qed.

Lemma acts_app (manual : bool) (l1 l2 : list Action) (s : Session) :
  acts manual s (l1 ++ l2) = acts manual (acts manual s l1) l2.
Proof. apply foldl_app. Qed.

(** Calls of the [add_*] methods only lengthen the pending lists, each
    rectangle together with its label. *)
Lemma acts_adds (manual : bool) (l : list Action) :
  ∀ s : Session,
    forallb (is_add coord float frame) l = true →
    let v := view _ _ _ (acts manual s l) in
    let v0 := view _ _ _ s in
    live_view _ _ v = live_view _ _ v0
    ∧ validated_frame_h264 _ _ v = validated_frame_h264 _ _ v0
    ∧ rectangles _ _ v = rectangles _ _ v0 ++ (added_boxes _ _ _ l).*1
    ∧ labels _ _ v = labels _ _ v0 ++ (added_boxes _ _ _ l).*2
    ∧ texts _ _ v = texts _ _ v0 ++ added_texts _ _ _ l
    ∧ lines _ _ v = lines _ _ v0 ++ added_lines _ _ _ l
    ∧ sent _ _ _ (acts manual s l) = sent _ _ _ s
    ∧ logged _ _ _ (acts manual s l) = logged _ _ _ s.
Proof.
  induction l as [|a l IH]; intros s Hadd; cbv zeta.
  - simpl. by rewrite !app_nil_r.
  - simpl in Hadd. apply andb_prop in Hadd as [Ha Hl].
    rewrite acts_cons.
    destruct (IH (act manual s a) Hl) as (H1 & H2 & H3 & H4 & H5 & H6 & H7 & H8).
    rewrite H1, H2, H3, H4, H5, H6, H7, H8.
    destruct a as [r lab|[]|[]|?|?]; try done; simpl;
      by rewrite <- ?app_assoc.
Qed.

(** From a view with nothing pending, whatever the order of the calls of
    [add_rectangle], [add_text] and [add_line], the next [publish] sends one
    frame whose objects are: the detections, one for each rectangle with
    the label given with it, in the order of the calls; then the texts;
    then the lines.  Afterwards nothing is pending. *)
Theorem publish_sends_overlays_in_order (manual : bool) (s : Session)
    (l : list Action) (time : Z) (f : frame) :
  cleared _ _ (view _ _ _ s) →
  forallb (is_add coord float frame) l = true →
  ∃ p,
    sent _ _ _ (acts manual s (l ++ [Publish _ _ _ time f]))
    = sent _ _ _ s ++ [p]
    ∧ data _ _ p = to_bytes f
    ∧ timestamp _ _ p = time
    ∧ frame_shape _ _ (metadata _ _ p)
      = (LiveView.frame_height (live_view _ _ (view _ _ _ s)),
         LiveView.frame_width (live_view _ _ (view _ _ _ s)))
    ∧ objects _ _ (metadata _ _ p)
      = Detections _ _
          ((λ rl, mkDetection _ rl.1 rl.2 (0, 255, 255)%Z)
             <$> added_boxes _ _ _ l)
        :: ((λ t, Serialized _ _ (text_serialize t)) <$> added_texts _ _ _ l)
        ++ ((λ ln, Serialized _ _ (line_serialize ln)) <$> added_lines _ _ _ l)
    ∧ cleared _ _ (view _ _ _ (acts manual s (l ++ [Publish _ _ _ time f]))).
Proof.
  intros (Ht & Hr & Hl & Hln) Hadd.
  rewrite acts_app.
  destruct (acts_adds manual l s Hadd) as (H1 & H2 & H3 & H4 & H5 & H6 & H7 & H8).
  rewrite Ht, Hr, Hl, Hln in *. simpl in *.
  eexists. split_and!.
  - simpl. rewrite H7. reflexivity.
  - done.
  - done.
  - simpl. by rewrite H1.
  - simpl. rewrite H3, H4, H5, H6. rewrite zip_fst_snd. f_equal. f_equal.
    apply list_fmap_ext. by intros ? [r lab] _.
  - done.
Qed.

(** Overlays are sent once: of two [publish] calls in a row, or two
    packets in a row on a view that publishes by itself, the second sends
    no text, no line and an empty list of detections. *)
Theorem overlays_are_sent_once (s : Session) (t1 t2 : Z) (f1 f2 : frame)
    (p1 p2 : FrameBuffer.Packet) (manual : bool) :
  (∃ a b,
      sent _ _ _ (acts manual s [Publish _ _ _ t1 f1; Publish _ _ _ t2 f2])
      = sent _ _ _ s ++ [a; b]
      ∧ objects _ _ (metadata _ _ b) = [Detections _ _ []])
  ∧ (∃ a b,
      sent _ _ _ (acts false s [Packet _ _ _ t1 p1; Packet _ _ _ t2 p2])
      = sent _ _ _ s ++ [a; b]
      ∧ objects _ _ (metadata _ _ b) = [Detections _ _ []]).
Proof.
  split; eexists _, _; (split; [simpl; rewrite <- app_assoc; reflexivity | done]).
Qed.

(** One action logs the H.264 error at most once, only on a view not yet
    validated, and every action that publishes leaves the view validated. *)
Lemma act_logged (manual : bool) (s : Session) (a : Action) :
  ∃ e,
    logged _ _ _ (act manual s a) = logged _ _ _ s ++ e
    ∧ (e = [] ∨ e = [h264_error_msg])
    ∧ (validated_frame_h264 _ _ (view _ _ _ s) = true →
       e = [] ∧ validated_frame_h264 _ _ (view _ _ _ (act manual s a)) = true)
    ∧ (e ≠ [] → validated_frame_h264 _ _ (view _ _ _ (act manual s a)) = true).
Proof.
  destruct s as [v snt lg].
  destruct a as [r lab|t|ln|time f|time pkt]; simpl.
  1-3: exists []; rewrite app_nil_r; split_and!; auto.
  - unfold publish. simpl.
    destruct (validated_frame_h264 _ _ v) eqn:Hv; simpl;
      [|destruct (is_h264_frame f)]; eexists;
      (split_and!;
       [reflexivity | (by left) || (by right) | by intros | by intros]).
  - destruct manual; simpl.
    + exists []. rewrite app_nil_r. split_and!; auto.
    + unfold publish. simpl.
      destruct (validated_frame_h264 _ _ v) eqn:Hv; simpl;
        [|destruct (is_h264_frame (packet_frame pkt))]; eexists;
        (split_and!;
         [reflexivity | (by left) || (by right) | by intros | by intros]).
Qed.

(** The check of the frame format happens once: over any sequence of
    calls and packets the error is logged at most one time, and never on a
    view that has published before. *)
Theorem h264_error_logged_at_most_once (manual : bool) (l : list Action) :
  ∀ s : Session,
    ∃ e,
      logged _ _ _ (acts manual s l) = logged _ _ _ s ++ e
      ∧ (e = [] ∨ e = [h264_error_msg])
      ∧ (validated_frame_h264 _ _ (view _ _ _ s) = true → e = []).
Proof.
  induction l as [|a l IH]; intros s.
  - exists []. rewrite app_nil_r. auto.
  - rewrite acts_cons.
    destruct (act_logged manual s a) as (e1 & He1 & Hcase1 & Hval & Hlog).
    destruct (IH (act manual s a)) as (e2 & He2 & Hcase2 & Hval2).
    destruct Hcase1 as [-> | ->].
    + exists e2. rewrite He2, He1, app_nil_r. split_and!; [done | done |].
      intros Hv. apply Hval2. by apply Hval.
    + exists [h264_error_msg]. rewrite He2, He1.
      rewrite Hval2 by (by apply Hlog). rewrite app_nil_r.
      split_and!; [done | by right |].
      intros Hv. by destruct (Hval Hv).
Qed.

(** Every packet of the device reaches the frame buffer, whether the view
    publishes by itself or is published by hand; by itself it also sends
    each packet's frame, one entry for each packet, in order; by hand it
    sends nothing and keeps the pending overlays. *)
Theorem every_packet_reaches_the_buffer (manual : bool)
    (l : list (Z * FrameBuffer.Packet)) :
  ∀ s : Session,
    LiveView.frame_buffer
      (live_view _ _ (view _ _ _ (acts manual s (packets _ _ _ l))))
    = FrameBuffer.push_all
        (LiveView.frame_buffer (live_view _ _ (view _ _ _ s))) (l.*2)
    ∧ (if manual
       then sent _ _ _ (acts manual s (packets _ _ _ l)) = sent _ _ _ s
            ∧ rectangles _ _ (view _ _ _ (acts manual s (packets _ _ _ l)))
              = rectangles _ _ (view _ _ _ s)
       else ∃ new,
            sent _ _ _ (acts manual s (packets _ _ _ l)) = sent _ _ _ s ++ new
            ∧ data _ _ <$> new = (λ tp, to_bytes (packet_frame tp.2)) <$> l
            ∧ timestamp _ _ <$> new = l.*1).
Proof.
  induction l as [|[t p] l IH]; intros s.
  - simpl. split; [done|]. destruct manual; [done|].
    exists []. by rewrite app_nil_r.
  - change (packets coord float frame ((t, p) :: l))
      with (Packet coord float frame t p :: packets coord float frame l).
    rewrite acts_cons.
    destruct (IH (act manual s (Packet _ _ _ t p))) as [Hbuf Hsent].
    rewrite Hbuf. split.
    + destruct manual; reflexivity.
    + destruct manual.
      * destruct Hsent as [-> ->]. done.
      * destruct Hsent as (new & -> & Hd & Ht).
        eexists (_ :: new). split_and!.
        -- simpl. rewrite <- app_assoc. reflexivity.
        -- rewrite !fmap_cons, Hd. reflexivity.
        -- rewrite !fmap_cons, Ht. reflexivity.
Qed.

End PublishFacts.

Lemma publish_sends_overlays_in_order_witness :
  ∃ p,
    Overlay.sent _ _ _
      (sample_acts false sample_session
         [AddText _ _ _ hello; AddRectangle _ _ _ (1, 2, 3, 4)%Z "cat";
          AddLine _ _ _ (mkVisLine (0, 0)%Z (5, 5)%Z None None);
          AddRectangle _ _ _ (5, 6, 7, 8)%Z "dog"; Publish _ _ _ 42 "h264"])
    = [p]
    ∧ objects _ _ (metadata _ _ p)
      = [Detections _ _
           [mkDetection _ (1, 2, 3, 4)%Z "cat" (0, 255, 255)%Z;
            mkDetection _ (5, 6, 7, 8)%Z "dog" (0, 255, 255)%Z];
         Serialized _ _ "text:hello"; Serialized _ _ "line"].
Proof.
  destruct (publish_sends_overlays_in_order Z Z string string
              sample_text_serialize sample_line_serialize sample_is_h264
              sample_to_bytes sample_packet_frame false sample_session
              [AddText _ _ _ hello; AddRectangle _ _ _ (1, 2, 3, 4)%Z "cat";
               AddLine _ _ _ (mkVisLine (0, 0)%Z (5, 5)%Z None None);
               AddRectangle _ _ _ (5, 6, 7, 8)%Z "dog"] 42 "h264")
    as (p & Hsent & _ & _ & _ & Hobj & _).
  - by repeat split.
  - reflexivity.
  - exists p. split; [exact Hsent | exact Hobj].
Defined.

Lemma h264_error_logged_at_most_once_witness :
  logged _ _ _
    (sample_acts true sample_session
       [Publish _ _ _ 1 "raw"; Publish _ _ _ 2 "raw"; Publish _ _ _ 3 "raw"])
  = [h264_error_msg].
Proof.
  destruct (h264_error_logged_at_most_once Z Z string string
              sample_text_serialize sample_line_serialize sample_is_h264
              sample_to_bytes sample_packet_frame true
              [Publish _ _ _ 1 "raw"; Publish _ _ _ 2 "raw";
               Publish _ _ _ 3 "raw"] sample_session)
    as (e & He & [-> | ->] & _).
  - discriminate He.
  - exact He.
Defined.

End OverlayFacts.

(** ** More on the registry of Live Views *)

Module RegistryMore.
Import LiveView Samples.

Lemma dict_getitem_none (d : registry) (k : string) :
  dict_getitem d k = None ↔ k ∉ keys d.
Proof.
  unfold keys. induction d as [|[k' v'] d IH]; simpl.
  - split; [intros _; apply not_elem_of_nil | done].
  - rewrite not_elem_of_cons. destruct (decide (k' = k)) as [->|Hne].
    + split; [done | by intros [? _]].
    + rewrite IH. split; [by intros ?; split | by intros [_ ?]].
Qed.

Lemma dict_setitem_length_present (d : registry) (k : string) (v : t) :
  k ∈ keys d → length (dict_setitem d k v) = length d.
Proof.
  intros Hin.
  rewrite <- (length_fmap fst (dict_setitem d k v)), <- (length_fmap fst d).
  f_equal. by apply LiveViewFacts.dict_setitem_keys_present.
Qed.

(** After an assignment the value is found under its own name: the first
    value that carries the name, which is the new one when none did. *)
Lemma get_by_name_setitem (d : registry) (k : string) (v : t) :
  (∃ found, get_by_name (dict_setitem d k v) (name v) = Some found
            ∧ name found = name v)
  ∧ (get_by_name d (name v) = None →
     get_by_name (dict_setitem d k v) (name v) = Some v).
Proof.
  unfold get_by_name, values.
  induction d as [|[k' v'] d [IH1 IH2]]; simpl.
  - rewrite decide_True by done. split; [by eexists|done].
  - destruct (decide (k' = k)) as [->|Hne]; simpl.
    + rewrite decide_True by done. split; [by eexists|done].
    + destruct (decide (name v' = name v)) as [Heq|Hnn].
      * split; [by eexists|done].
      * split; [exact IH1 | exact IH2].
Qed.

(** [create] in one piece. *)
Lemma create_unfold (r : registry) (mxid : string) (c : Component)
    (n : string) (key : option string) (manual : bool) (size : Z) :
  create r mxid c n key manual size
  = if bool_decide (class_name (cls c) = "NNComponent")
    then Raise (ValueError ("Component " +:+ class_name (cls c)
                            +:+ " must be a CameraComponent or StereoComponent."))
    else if (size * _get_component_fps c <? 0)%Z
    then Raise (ValueError "maxlen must be non-negative")
    else
      let lv :=
        mk n
          match key with
          | Some k =>
              if decide (k = "")
              then mxid +:+ "_" +:+ class_name_lower (cls c) +:+ "_encoded"
              else k
          | None => mxid +:+ "_" +:+ class_name_lower (cls c) +:+ "_encoded"
          end
          mxid (stream_size c).1 (stream_size c).2 (_get_component_fps c)
          (FrameBuffer.mk []
             (Some (Z.to_nat (size * _get_component_fps c))) ∅) in
      Ok (lv, dict_setitem r (unique_key lv) lv).
Proof.
  unfold create, _is_encoder_enabled, _get_stream_size, _get_component_fps,
    init, FrameBuffer.init.
  destruct c as [k enc cfps [w h]]. simpl.
  destruct k; simpl; try done;
    (destruct enc as [p|]; [destruct (decide (p = H264_MAIN))|]); simpl;
    by destruct (size * cfps <? 0)%Z.
Qed.

(** What [create] builds when it succeeds. *)
Lemma create_built (r r' : registry) (mxid : string) (c : Component)
    (n : string) (key : option string) (manual : bool) (size : Z) (lv : t) :
  create r mxid c n key manual size = Ok (lv, r') →
  name lv = n
  ∧ unique_key lv
    = match key with
      | Some k =>
          if decide (k = "")
          then mxid +:+ "_" +:+ class_name_lower (cls c) +:+ "_encoded"
          else k
      | None => mxid +:+ "_" +:+ class_name_lower (cls c) +:+ "_encoded"
      end
  ∧ r' = dict_setitem r (unique_key lv) lv.
Proof.
  rewrite create_unfold.
  destruct (bool_decide _); [done|].
  destruct (size * _get_component_fps c <? 0)%Z; [done|].
  cbv zeta. by intros [= <- <-].
Qed.

(** A Live View that [create] made is found under its key, the Live Views
    under other keys are found as before, and its name leads to a Live View
    of that name: to itself when no earlier one carried the name. *)
Theorem created_view_is_found (r r' : registry) (mxid : string)
    (c : Component) (n : string) (key : option string) (manual : bool)
    (size : Z) (lv : t) :
  create r mxid c n key manual size = Ok (lv, r') →
  get_by_unique_key r' (unique_key lv) = Ok lv
  ∧ (∀ k, k ≠ unique_key lv →
          get_by_unique_key r' k = get_by_unique_key r k)
  ∧ (∃ found, get_by_name r' n = Some found ∧ name found = n)
  ∧ (get_by_name r n = None → get_by_name r' n = Some lv).
Proof.
  intros H.
  destruct (create_built _ _ _ _ _ _ _ _ _ H) as (Hname & _ & ->).
  split_and!.
  - unfold get_by_unique_key. by rewrite LiveViewFacts.dict_getitem_setitem.
  - intros k Hk. unfold get_by_unique_key.
    by rewrite LiveViewFacts.dict_getitem_setitem_ne.
  - rewrite <- Hname. apply get_by_name_setitem.
  - rewrite <- Hname. apply get_by_name_setitem.
Qed.

(** Two Live Views made without an explicit key for components of one
    class on one device get the same derived key: the second takes the
    place of the first in the registry, which does not grow. *)
Theorem derived_keys_collide (r r1 r2 : registry) (mxid : string)
    (c1 c2 : Component) (n1 n2 : string) (manual1 manual2 : bool)
    (size1 size2 : Z) (lv1 lv2 : t) :
  create r mxid c1 n1 None manual1 size1 = Ok (lv1, r1) →
  create r1 mxid c2 n2 None manual2 size2 = Ok (lv2, r2) →
  cls c1 = cls c2 →
  unique_key lv1 = unique_key lv2
  ∧ unique_key lv2 = mxid +:+ "_" +:+ class_name_lower (cls c2) +:+ "_encoded"
  ∧ r2 = dict_setitem r (unique_key lv2) lv2
  ∧ get_by_unique_key r2 (unique_key lv1) = Ok lv2
  ∧ length r2 = length r1.
Proof.
  intros H1 H2 Hcls.
  destruct (create_built _ _ _ _ _ _ _ _ _ H1) as (_ & Hk1 & Hr1).
  destruct (create_built _ _ _ _ _ _ _ _ _ H2) as (_ & Hk2 & Hr2).
  assert (Hsame : unique_key lv1 = unique_key lv2)
    by (by rewrite Hk1, Hk2, Hcls).
  assert (Hr2' : r2 = dict_setitem r (unique_key lv2) lv2).
  { rewrite Hr2, Hr1, Hsame. apply LiveViewFacts.dict_setitem_twice. }
  split_and!; try done.
  - rewrite Hsame, Hr2'. unfold get_by_unique_key.
    by rewrite LiveViewFacts.dict_getitem_setitem.
  - rewrite Hr2. apply dict_setitem_length_present.
    rewrite Hr1, Hsame. apply LiveViewFacts.dict_setitem_key_in.
Qed.

(** Lookup by key raises [ValueError] exactly for a key that is not
    registered; lookup through [get] with a name never raises and does not
    look at the key; [get] with neither raises. *)
Theorem key_lookup_raises_name_lookup_does_not (r : registry)
    (k n : string) (key : option string) :
  (k ∉ keys r
   ↔ get_by_unique_key r k
     = Raise (ValueError ("Live View with unique_key " +:+ k
                          +:+ " does not exist.")))
  ∧ (k ∈ keys r ↔ ∃ lv, get_by_unique_key r k = Ok lv)
  ∧ get r key (Some n) = Ok (get_by_name r n)
  ∧ get r None None
    = Raise (ValueError "Either name or unique_key must be specified.").
Proof.
  split_and!; try done.
  - rewrite <- dict_getitem_none. unfold get_by_unique_key.
    destruct (dict_getitem r k); split; done.
  - destruct (decide (k ∈ keys r)) as [Hin|Hnin].
    + split; [intros _|done]. unfold get_by_unique_key.
      destruct (dict_getitem r k) eqn:E; [by eexists|].
      by apply dict_getitem_none in E.
    + split; [done|]. intros [lv Hlv]. exfalso.
      apply dict_getitem_none in Hnin. unfold get_by_unique_key in Hlv.
      by rewrite Hnin in Hlv.
Qed.

Lemma created_view_is_found_witness :
  ∃ lv r',
    create [("cam", front_view)] "18443010" stereo "depth" (Some "aux") true 2
    = Ok (lv, r')
    ∧ get_by_unique_key r' "aux" = Ok lv
    ∧ get_by_unique_key r' "cam" = Ok front_view
    ∧ get_by_name r' "depth" = Some lv.
Proof.
  destruct (create [("cam", front_view)] "18443010" stereo "depth"
              (Some "aux") true 2) as [[lv r']|] eqn:E; [|discriminate].
  destruct (created_view_is_found _ _ _ _ _ _ _ _ lv E)
    as (Hkey & Hother & _ & Hname).
  assert (Hk : unique_key lv = "aux") by (by injection E as <- _).
  exists lv, r'. split_and!.
  - reflexivity.
  - by rewrite <- Hk.
  - rewrite Hother; [reflexivity | by rewrite Hk].
  - by apply Hname.
Defined.

Lemma derived_keys_collide_witness :
  ∃ lv1 lv2 r2,
    create [] "18443010" color "left" None false 0 = Ok (lv1, [(unique_key lv1, lv1)])
    ∧ create [(unique_key lv1, lv1)] "18443010" color "right" None false 0
      = Ok (lv2, r2)
    ∧ r2 = [(unique_key lv2, lv2)]
    ∧ name lv2 = "right".
Proof.
  destruct (create [] "18443010" color "left" None false 0)
    as [[lv1 r1]|] eqn:E1; [|discriminate].
  destruct (create r1 "18443010" color "right" None false 0)
    as [[lv2 r2]|] eqn:E2; [|injection E1 as <- <-; discriminate].
  destruct (derived_keys_collide _ _ _ _ _ _ _ _ _ _ _ _ _ _ E1 E2 eq_refl)
    as (_ & _ & Hr2 & _).
  exists lv1, lv2, r2.
  assert (Hr1 : r1 = [(unique_key lv1, lv1)]) by (by injection E1 as <- <-).
  rewrite <- Hr1. split_and!; [reflexivity | exact E2 | exact Hr2 |].
  rewrite Hr1 in E2. injection E1 as <- _. by injection E2 as <- _.
Defined.

Lemma key_lookup_raises_name_lookup_does_not_witness :
  get_by_unique_key [("cam", front_view)] "aux"
  = Raise (ValueError "Live View with unique_key aux does not exist.")
  ∧ get [("cam", front_view)] (Some "aux") (Some "side") = Ok None.
Proof.
  destruct (key_lookup_raises_name_lookup_does_not [("cam", front_view)]
              "aux" "side" (Some "aux")) as (Hraise & _ & Hname & _).
  split.
  - apply Hraise. by apply (bool_decide_unpack _).
  - exact Hname.
Defined.

End RegistryMore.

(** ** More on the camera manager *)

Module ManagerMore.
Import Manager ManagerAux Samples.

(** Take a step apart: every test it makes becomes a case. *)
Ltac step_cases :=
  unfold Manager.step, Manager.main_step, Manager.call_start,
    Manager.call_stop, Manager.join_step, Manager.release_step,
    Manager.start_step, Manager.connection_step, Manager.reporting_step,
    Manager.polling_step, Manager.remove_device, Manager.thread_start;
  simpl in *;
  repeat (case_match; simpl in *; simplify_eq).

(** *** Removing a device *)

Lemma list_remove_absent (l : list loc) (x : loc) :
  x ∉ l → list_remove l x = None.
Proof.
  induction l as [|y l IH]; [done|]. rewrite not_elem_of_cons.
  intros [Hne Hnin]. simpl. rewrite decide_False by done. by rewrite IH.
Qed.

Lemma list_remove_first (pre : list loc) (x : loc) (post : list loc) :
  x ∉ pre → list_remove (pre ++ x :: post) x = Some (pre ++ post).
Proof.
  induction pre as [|y pre IH]; simpl.
  - intros _. by rewrite decide_True.
  - rewrite not_elem_of_cons. intros [Hne Hnin].
    rewrite decide_False by done. by rewrite IH.
Qed.

(** [remove_device] takes out the first occurrence of the device and
    nothing else; for a device that is not in the list it raises
    [ValueError] and the manager stays as it was; and it undoes an
    [add_device] of a device that was not there. *)
Theorem remove_device_takes_first_occurrence (m : t) (d : loc) :
  (d ∉ _devices m →
   remove_device m d = Raise (ValueError "list.remove(x): x not in list"))
  ∧ (∀ pre post,
       _devices m = pre ++ d :: post → d ∉ pre →
       remove_device m d = Ok (set_devices (pre ++ post) m))
  ∧ (d ∉ _devices m → remove_device (add_device m d) d = Ok m).
Proof.
  unfold remove_device. split_and!.
  - intros Hnin. by rewrite list_remove_absent.
  - intros pre post -> Hnin. by rewrite list_remove_first.
  - intros Hnin. simpl.
    rewrite (list_remove_first (_devices m) d []) by done.
    rewrite app_nil_r. by destruct m.
Qed.

Lemma remove_device_takes_first_occurrence_witness :
  remove_device (mk [0; 1; 0] [] false false sample_heap) 0
  = Ok (mk [1; 0] [] false false sample_heap)
  ∧ remove_device (mk [1] [] false false sample_heap) 0
    = Raise (ValueError "list.remove(x): x not in list").
Proof.
  destruct (remove_device_takes_first_occurrence
              (mk [0; 1; 0] [] false false sample_heap) 0) as (_ & Hfirst & _).
  destruct (remove_device_takes_first_occurrence
              (mk [1] [] false false sample_heap) 0) as (Habsent & _).
  split.
  - apply (Hfirst [] [1; 0]); [reflexivity | apply not_elem_of_nil].
  - apply Habsent. by apply (bool_decide_unpack _).
Defined.

Section Runs.

Variable booted_cameras : t → list loc.
Variable poll : nat → Device → bool.
Variable open_session : string → option nat.
Variable hub_camera_exit : nat → option string.
Variable destroy_all_streams : option string.
Variable info_report : Device → result string.
Variable stats_report : Device → result string.
Variable publish_device_info : string → bool.
Variable publish_device_stats : string → bool.

#[local] Abbreviation step :=
  (step booted_cameras poll open_session hub_camera_exit destroy_all_streams
     info_report stats_report publish_device_info publish_device_stats).
#[local] Abbreviation run :=
  (run booted_cameras poll open_session hub_camera_exit destroy_all_streams
     info_report stats_report publish_device_info publish_device_stats).
#[local] Abbreviation stop_release :=
  (stop_release booted_cameras hub_camera_exit destroy_all_streams).
#[local] Abbreviation _report_pass :=
  (_report_pass booted_cameras info_report stats_report publish_device_info
     publish_device_stats).

(** How one step changes the two flags: [start] sets [running], [stop]
    sets [stop_event], and nothing else writes either. *)
Lemma step_flags (s : System) (ev : Event) :
  running (mgr (step s ev))
  = running (mgr s) || (is_call_start ev && is_ready (main s))
  ∧ stop_event (mgr (step s ev))
    = stop_event (mgr s) || (is_call_stop ev && is_ready (main s)).
Proof.
  destruct s as [m ct rt pt pc n ag ex]. destruct ev; step_cases;
    rewrite ?orb_false_r, ?orb_true_r; try done;
    try match goal with
        | H : start_devices _ _ _ = _ |- _ =>
            apply ManagerFacts.start_devices_spec in H
              as (_ & -> & -> & _); done
        end.
Qed.

(** Neither flag is ever cleared: once [start] has set [running] it stays
    set, through [stop] as well, and [stop_event] stays set once [stop] has
    set it; and only these two calls set them. *)
Theorem flags_are_never_cleared (evs : list Event) :
  ∀ s : System,
    (running (mgr s) = true → running (mgr (run s evs)) = true)
    ∧ (stop_event (mgr s) = true → stop_event (mgr (run s evs)) = true)
    ∧ (running (mgr (run s evs)) = true →
       running (mgr s) = true ∨ CallStart ∈ evs)
    ∧ (stop_event (mgr (run s evs)) = true →
       stop_event (mgr s) = true ∨ CallStop ∈ evs).
Proof.
  induction evs as [|ev evs IH]; intros s.
  - split_and!; auto.
  - rewrite ManagerFacts.run_cons.
    destruct (IH (step s ev)) as (Hr & He & Hr' & He').
    destruct (step_flags s ev) as [Hfr Hfe].
    split_and!.
    + intros H. apply Hr. rewrite Hfr, H. done.
    + intros H. apply He. rewrite Hfe, H. done.
    + intros H. destruct (Hr' H) as [H1|H1].
      * rewrite Hfr in H1. apply orb_prop in H1 as [?|H1]; [by left|].
        right. destruct ev; try done. apply list_elem_of_here.
      * right. by apply list_elem_of_further.
    + intros H. destruct (He' H) as [H1|H1].
      * rewrite Hfe in H1. apply orb_prop in H1 as [?|H1]; [by left|].
        right. destruct ev; try done. apply list_elem_of_here.
      * right. by apply list_elem_of_further.
Qed.

Lemma step_loops_alive (s : System) (ev : Event) :
  loops_alive s → loops_alive (step s ev).
Proof.
  destruct s as [m ct rt pt pc n ag ex]. unfold loops_alive. simpl.
  intros (Hs & Hc & Hr & Hp & Hcf & Hrf & Hpf).
  destruct ev; step_cases;
    try match goal with
        | H : start_devices _ _ _ = _ |- _ =>
            apply ManagerFacts.start_devices_spec in H
              as (_ & Hrun & _); simpl in Hrun; try rewrite Hrun
        end;
    split_and!; try done; auto; intuition congruence.
Qed.

Lemma run_loops_alive (evs : list Event) :
  ∀ s, loops_alive s → loops_alive (run s evs).
Proof.
  induction evs as [|ev evs IH]; intros s H; [done|].
  rewrite ManagerFacts.run_cons. by apply IH, step_loops_alive.
Qed.

Lemma boot_loops_alive (h : loc → Device) : loops_alive (boot h).
Proof. unfold loops_alive. simpl. split_and!; auto. done. Qed.

(** From the construction of the manager on, whatever is called and
    however the threads run, the connection loop never returns: its thread
    is alive as soon as it has been started, and then [running] is set. *)
Theorem connection_loop_never_returns (h : loc → Device) (evs : list Event) :
  connection_thread (run (boot h) evs) ≠ Finished
  ∧ (connection_thread (run (boot h) evs) ≠ NotStarted →
     is_alive (connection_thread (run (boot h) evs)) = true
     ∧ running (mgr (run (boot h) evs)) = true).
Proof.
  destruct (run_loops_alive evs _ (boot_loops_alive h))
    as (_ & Hc & _ & _ & Hcf & _ & _).
  split; [done|].
  intros Hns. destruct Hc as [?|Hrun]; [done|]. split; [|done].
  by destruct (connection_thread _).
Qed.

(** A [stop] in its first join, with the connection thread alive and
    [running] set, stays there. *)
Lemma step_first_join (s : System) (ev : Event) :
  running (mgr s) = true → main s = JoinConnection →
  is_alive (connection_thread s) = true →
  running (mgr (step s ev)) = true ∧ main (step s ev) = JoinConnection
  ∧ is_alive (connection_thread (step s ev)) = true.
Proof.
  destruct s as [m ct rt pt pc n ag ex]. simpl. intros Hr -> Hc.
  destruct ev; step_cases; done.
Qed.

(** Once [start] has been called on a manager and is over (it has
    returned, or it has raised), a later call of [stop] never returns: it
    stays in the join of the connection thread. *)
Theorem stop_after_start_never_returns (h : loc → Device)
    (before after : list Event) :
  connection_thread (run (boot h) before) ≠ NotStarted →
  is_ready (main (run (boot h) before)) = true →
  main (run (step (run (boot h) before) CallStop) after) = JoinConnection.
Proof.
  intros Hns Hready.
  destruct (run_loops_alive before _ (boot_loops_alive h))
    as (_ & Hc & _ & _ & Hcf & _).
  set (s := run (boot h) before) in *.
  assert (H0 : running (mgr (step s CallStop)) = true
               ∧ main (step s CallStop) = JoinConnection
               ∧ is_alive (connection_thread (step s CallStop)) = true).
  { destruct Hc as [?|Hrun]; [done|].
    destruct s as [m ct rt pt pc n ag ex]. simpl in *.
    unfold Manager.step. simpl. rewrite Hready. simpl.
    split_and!; [done | done | by destruct ct]. }
  clearbody s. revert H0. generalize (step s CallStop). clear.
  induction after as [|ev evs IH]; intros s (Hr & Hm & Hc); [done|].
  rewrite ManagerFacts.run_cons. apply IH. by apply step_first_join.
Qed.

(** *** After [start] *)

Lemma step_started (s : System) (ev : Event) :
  started s →
  started (step s ev)
  ∧ _connected_devices (mgr (step s ev)) = _connected_devices (mgr s)
  ∧ ∀ c, hub_camera (heap (mgr s) c) = None →
         hub_camera (heap (mgr (step s ev)) c) = None.
Proof.
  destruct s as [m ct rt pt pc n ag ex]. unfold started. simpl.
  intros [Hct Hpc].
  destruct ev; step_cases; split_and!; try done.
  intros c Hnone. rewrite ManagerFacts.poll_fold_spec.
  by destruct (decide _).
Qed.

(** Once [start] is over, the connected list is never written again and
    no session is ever opened: a device added later is never started, and
    a device that lost its session stays without one. *)
Theorem nothing_connects_after_start (evs : list Event) :
  ∀ s : System,
    started s →
    _connected_devices (mgr (run s evs)) = _connected_devices (mgr s)
    ∧ ∀ c, hub_camera (heap (mgr s) c) = None →
           hub_camera (heap (mgr (run s evs)) c) = None.
Proof.
  induction evs as [|ev evs IH]; intros s Hs; [done|].
  rewrite ManagerFacts.run_cons.
  destruct (step_started s ev Hs) as (Hs' & Hcon & Hnone).
  destruct (IH _ Hs') as [Hcon' Hnone'].
  split; [by rewrite Hcon', Hcon | auto].
Qed.

(** With the two lists of different lengths the connection loop does not
    wait: it tests and tests again, changing nothing; and adding a device
    to a manager whose lists have equal lengths is enough to get there. *)
Theorem connection_loop_spins (s : System) (k : nat) (d : loc) :
  (running (mgr s) = true → connect_idles (mgr s) = false →
   connection_thread s = AtGuard →
   connection_thread (run s (replicate k ConnectionStep)) = AtGuard
   ∧ mgr (run s (replicate k ConnectionStep)) = mgr s)
  ∧ (connect_idles (mgr s) = true →
     connect_idles (add_device (mgr s) d) = false).
Proof.
  split.
  - revert s. induction k as [|k IH]; intros s Hr Hi Hc; [done|].
    change (replicate (S k) ConnectionStep)
      with (ConnectionStep :: replicate k ConnectionStep).
    rewrite ManagerFacts.run_cons.
    assert (Hstep : connection_thread (step s ConnectionStep) = AtGuard
                    ∧ mgr (step s ConnectionStep) = mgr s).
    { destruct s as [m ct rt pt pc n ag ex]. simpl in *. subst ct.
      unfold Manager.step, connection_step. simpl. by rewrite Hr, Hi. }
    destruct Hstep as [Hc' Hm'].
    destruct (IH (step s ConnectionStep)) as [Hc2 Hm2];
      [by rewrite Hm' | by rewrite Hm' | done |].
    by rewrite Hc2, Hm2.
  - unfold connect_idles. simpl. intros Hi.
    apply bool_decide_eq_true in Hi. apply bool_decide_eq_false.
    rewrite length_app. simpl. lia.
Qed.

(** *** Calling [start] *)

(** A second call of [start] raises [RuntimeError] from the connection
    thread, which cannot be started twice; it has set [running] before, and
    it starts no device and no thread. *)
Theorem second_start_raises (s : System) :
  connection_thread s ≠ NotStarted →
  is_ready (main s) = true →
  main (step s CallStart)
  = Ready (Some (RuntimeError "threads can only be started once"))
  ∧ mgr (step s CallStart) = set_running true (mgr s)
  ∧ connection_thread (step s CallStart) = connection_thread s
  ∧ reporting_thread (step s CallStart) = reporting_thread s
  ∧ polling_thread (step s CallStart) = polling_thread s.
Proof.
  destruct s as [m ct rt pt pc n ag ex]. simpl. intros Hct Hready.
  unfold Manager.step. simpl. rewrite Hready.
  unfold call_start. simpl. by destruct ct.
Qed.

Lemma step_waiting (s : System) (ev : Event) :
  is_add_device ev = false →
  main s = InStart → running (mgr s) = true → _devices (mgr s) = [] →
  main (step s ev) = InStart ∧ running (mgr (step s ev)) = true
  ∧ _devices (mgr (step s ev)) = [].
Proof.
  destruct s as [m ct rt pt pc n ag ex]. simpl. intros Hev -> Hr Hd.
  destruct ev; try done;
    unfold Manager.step, Manager.main_step, Manager.start_step,
      Manager.connection_step, Manager.reporting_step, Manager.polling_step,
      Manager.remove_device; simpl; rewrite ?Hr, ?Hd; simpl;
    repeat (case_match; simpl in *; simplify_eq); done.
Qed.

(** [start] waits for a device: in its loop, with no device in the list,
    it stays there through any events in which no device is added; with a
    device in the list its next step takes it out of the loop, to return or
    to raise. *)
Theorem start_waits_for_a_device (s : System) (evs : list Event) :
  main s = InStart →
  (running (mgr s) = true → _devices (mgr s) = [] →
   forallb (λ ev, negb (is_add_device ev)) evs = true →
   main (run s evs) = InStart ∧ _devices (mgr (run s evs)) = [])
  ∧ (_devices (mgr s) ≠ [] → is_ready (main (step s MainStep)) = true).
Proof.
  intros Hmain. split.
  - revert s Hmain. induction evs as [|ev evs IH]; intros s Hmain Hr Hd Hevs;
      [done|].
    simpl in Hevs. apply andb_prop in Hevs as [Hev Hevs].
    apply negb_true_iff in Hev.
    rewrite ManagerFacts.run_cons.
    destruct (step_waiting s ev Hev Hmain Hr Hd) as (? & ? & ?).
    by apply IH.
  - destruct s as [m ct rt pt pc n ag ex]. simpl in *. subst pc. intros Hd.
    unfold Manager.step, Manager.main_step, start_step. simpl.
    rewrite bool_decide_eq_false_2 by done. rewrite andb_false_r.
    destruct (start_devices open_session m (_devices m)) as [m' [e|]];
      [done|]. simpl.
    destruct (thread_start rt); simpl; [|done].
    by destruct (thread_start pt).
Qed.

End Runs.

Lemma flags_are_never_cleared_witness :
  running (mgr (sample_run sample_asleep [CallStop; MainStep; PollingStep]))
  = true.
Proof.
  destruct (flags_are_never_cleared sample_booted sample_poll sample_open
              sample_exit None sample_report sample_report sample_publish
              sample_publish [CallStop; MainStep; PollingStep] sample_asleep)
    as (Hrunning & _).
  apply Hrunning. reflexivity.
Defined.

Lemma connection_loop_never_returns_witness :
  is_alive
    (connection_thread
       (sample_run (boot sample_heap)
          [CallStart; ConnectionStep; CallAddDevice 0; MainStep; CallStop;
           ConnectionStep; MainStep])) = true.
Proof.
  apply (connection_loop_never_returns sample_booted sample_poll sample_open sample_exit
           None sample_report sample_report sample_publish sample_publish
           sample_heap
           [CallStart; ConnectionStep; CallAddDevice 0; MainStep; CallStop;
            ConnectionStep; MainStep]).
  discriminate.
Defined.

Lemma stop_after_start_never_returns_witness :
  main (sample_run
          (sample_step
             (sample_run (boot sample_heap)
                [CallAddDevice 0; CallStart; MainStep; PollingStep])
             CallStop)
          [MainStep; ConnectionStep; PollingStep; ReportingStep; MainStep])
  = JoinConnection.
Proof.
  apply (stop_after_start_never_returns sample_booted sample_poll sample_open
           sample_exit None sample_report sample_report sample_publish
           sample_publish sample_heap
           [CallAddDevice 0; CallStart; MainStep; PollingStep]
           [MainStep; ConnectionStep; PollingStep; ReportingStep; MainStep]).
  - discriminate.
  - reflexivity.
Defined.

Lemma nothing_connects_after_start_witness :
  _connected_devices
    (mgr (sample_run sample_asleep
            [CallAddDevice 2; ConnectionStep; PollingStep; PollingStep;
             ConnectionStep; CallStart]))
  = [0; 1]
  ∧ hub_camera
      (heap (mgr (sample_run sample_asleep
                    [CallAddDevice 2; ConnectionStep; PollingStep;
                     PollingStep; ConnectionStep; CallStart])) 2)
    = None.
Proof.
  destruct (nothing_connects_after_start sample_booted sample_poll sample_open
              sample_exit None sample_report sample_report sample_publish
              sample_publish
              [CallAddDevice 2; ConnectionStep; PollingStep; PollingStep;
               ConnectionStep; CallStart] sample_asleep)
    as [Hcon Hnone].
  - split; discriminate.
  - split; [exact Hcon | by apply Hnone].
Defined.

Lemma connection_loop_spins_witness :
  connection_thread
    (sample_run (sample_run sample_asleep [CallAddDevice 2; ConnectionStep])
       (replicate 5 ConnectionStep))
  = AtGuard.
Proof.
  destruct (connection_loop_spins sample_booted sample_poll sample_open
              sample_exit None sample_report sample_report sample_publish
              sample_publish
              (sample_run sample_asleep [CallAddDevice 2; ConnectionStep])
              5 2) as [Hspin _].
  apply Hspin; reflexivity.
Defined.

(** *** Reporting *)

(** A pass of the reporting loop.  Without the attribute [booted_cameras],
    as with the class of manager.py, the pass publishes nothing and ends
    the thread with the [AttributeError] of the lookup.  With it, the pass
    raises nothing: a camera of the list whose two reports and two
    publications succeed gets both published, whatever the other cameras
    do; a camera one of whose reports raises gets nothing published, not
    even the report that succeeded. *)
Theorem report_pass_isolates_cameras
    (booted_cameras : t → option (list loc))
    (info_report stats_report : Device → result string)
    (publish_device_info publish_device_stats : string → bool) (self : t) :
  (booted_cameras self = None →
   Shipped._report_pass booted_cameras info_report stats_report
     publish_device_info publish_device_stats self
   = ([], Some (Shipped.AttributeError Shipped.no_booted_cameras_msg)))
  ∧ (∀ cameras,
       booted_cameras self = Some cameras →
       (Shipped._report_pass booted_cameras info_report stats_report
          publish_device_info publish_device_stats self).2 = None
       ∧ ∀ c info stats,
           c ∈ cameras →
           info_report (heap self c) = Ok info →
           stats_report (heap self c) = Ok stats →
           publish_device_info info = true →
           publish_device_stats stats = true →
           DeviceInfo info
           ∈ (Shipped._report_pass booted_cameras info_report stats_report
                publish_device_info publish_device_stats self).1
           ∧ DeviceStats stats
             ∈ (Shipped._report_pass booted_cameras info_report stats_report
                  publish_device_info publish_device_stats self).1)
  ∧ (∀ d e,
       info_report d = Raise e ∨ stats_report d = Raise e →
       report_camera info_report stats_report publish_device_info
         publish_device_stats d = []).
Proof.
  unfold Shipped._report_pass. split_and!.
  - by intros ->.
  - intros cameras ->. simpl. split; [done|].
    intros c info stats Hin Hi Hs Hpi Hps.
    assert (Hrep : report_camera info_report stats_report publish_device_info
                     publish_device_stats (heap self c)
                   = [DeviceInfo info; DeviceStats stats]).
    { unfold report_camera. by rewrite Hi, Hs, Hpi, Hps. }
    split; apply list_elem_of_In, in_flat_map; exists c;
      (split; [by apply list_elem_of_In|]); rewrite Hrep;
      apply list_elem_of_In.
    + apply list_elem_of_here.
    + apply list_elem_of_further, list_elem_of_here.
  - intros d e [Hi|Hs]; unfold report_camera.
    + by rewrite Hi.
    + rewrite Hs. by destruct (info_report d).
Qed.

Lemma report_pass_isolates_cameras_witness :
  Shipped._report_pass shipped_booted sample_report sample_report
    sample_publish sample_publish sample_manager
  = ([], Some (Shipped.AttributeError
                 "'HubCameraManager' object has no attribute 'booted_cameras'"))
  ∧ DeviceStats "mxid-B"
    ∈ (Shipped._report_pass patched_booted sample_report sample_report
         sample_publish sample_publish sample_manager).1.
Proof.
  split.
  - destruct (report_pass_isolates_cameras shipped_booted sample_report
                sample_report sample_publish sample_publish sample_manager)
      as (Hnone & _).
    by apply Hnone.
  - destruct (report_pass_isolates_cameras patched_booted sample_report
                sample_report sample_publish sample_publish sample_manager)
      as (_ & Hsome & _).
    destruct (Hsome [0; 1] eq_refl) as [_ Hgood].
    apply (Hgood 1 "mxid-B" "mxid-B"); try reflexivity.
    apply list_elem_of_further, list_elem_of_here.
Defined.

Lemma second_start_raises_witness :
  main (sample_step sample_asleep CallStart)
  = Ready (Some (RuntimeError "threads can only be started once")).
Proof.
  apply (second_start_raises sample_booted sample_poll sample_open sample_exit
           None sample_report sample_report sample_publish sample_publish
           sample_asleep).
  - discriminate.
  - reflexivity.
Defined.

Lemma start_waits_for_a_device_witness :
  main (sample_run (sample_run (boot sample_heap) [CallStart])
          [MainStep; ConnectionStep; CallRemoveDevice 0; MainStep; CallStop])
  = InStart
  ∧ is_ready (main (sample_step sample_starting MainStep)) = true.
Proof.
  split.
  - destruct (start_waits_for_a_device sample_booted sample_poll sample_open
                sample_exit None sample_report sample_report sample_publish
                sample_publish (sample_run (boot sample_heap) [CallStart])
                [MainStep; ConnectionStep; CallRemoveDevice 0; MainStep;
                 CallStop] eq_refl) as [Hwait _].
    apply Hwait; reflexivity.
  - destruct (start_waits_for_a_device sample_booted sample_poll sample_open
                sample_exit None sample_report sample_report sample_publish
                sample_publish sample_starting [] eq_refl) as [_ Hgo].
    apply Hgo. discriminate.
Defined.

End ManagerMore.

(** ** The earlier manager *)

Module OldManagerFacts.
Import Manager OldManager Samples.

Ltac old_step_cases :=
  unfold OldManager.step, OldManager.main_step, OldManager.call_start,
    OldManager.call_stop, OldManager.release_step, OldManager.with_main,
    OldManager.reporting_step, OldManager.polling_step, Manager.thread_start;
  simpl in *;
  repeat (case_match; simpl in *; simplify_eq).

Section OldRuns.

Variable camera_start : HubCamera → option string.
Variable camera_poll : nat → HubCamera → option string.
Variable get_info_report : HubCamera → result string.
Variable get_stats_report : HubCamera → result string.
Variable publish_device_info : string → bool.
Variable publish_device_stats : string → bool.
Variable oak_camera_exit : HubCamera → option string.
Variable destroy_all_streams : nat → option string.

#[local] Abbreviation step :=
  (OldManager.step camera_start camera_poll get_info_report get_stats_report
     publish_device_info publish_device_stats oak_camera_exit
     destroy_all_streams).
#[local] Abbreviation run :=
  (OldManager.run camera_start camera_poll get_info_report get_stats_report
     publish_device_info publish_device_stats oak_camera_exit
     destroy_all_streams).

Lemma old_run_cons (s : System) (ev : Event) (evs : list Event) :
  run s (ev :: evs) = run (step s ev) evs.
Proof. done. Qed.

Lemma old_step_polled (s : System) (ev : Event) :
  (stop_event s = false → polled s = [] →
   stop_event (step s ev) = false → polled (step s ev) = [])
  ∧ (stop_event s = true → stop_event (step s ev) = true)
  ∧ (polling_thread s = Finished →
     polling_thread (step s ev) = Finished ∧ polled (step s ev) = polled s).
Proof.
  destruct s as [cams se rt pt pc n ag pl ex ds sh]. simpl.
  destruct ev; old_step_cases; split_and!; try done; intros; by simplify_eq.
Qed.

(** The polling loop of the earlier manager tests the stop event the wrong
    way round: as long as [stop] has not been called no camera is polled,
    and a polling thread that made its test before [stop] has returned and
    polls nothing afterwards either. *)
Theorem no_camera_is_polled_before_stop (cameras : list HubCamera)
    (evs : list Event) :
  (stop_event (run (boot cameras) evs) = false →
   polled (run (boot cameras) evs) = [])
  ∧ (∀ s, polling_thread s = Finished →
          polled (run s evs) = polled s
          ∧ polling_thread (run s evs) = Finished).
Proof.
  split.
  - assert (Hgen : ∀ s, (stop_event s = false → polled s = []) →
                        stop_event (run s evs) = false → polled (run s evs) = []).
    { induction evs as [|ev evs IH]; intros s Hs; [done|].
      rewrite old_run_cons. apply IH.
      destruct (old_step_polled s ev) as (H1 & H2 & _).
      intros Hf. destruct (stop_event s) eqn:E.
      - by rewrite H2 in Hf.
      - by apply H1; [| apply Hs |]. }
    by apply Hgen.
  - induction evs as [|ev evs IH]; intros s Hs; [done|].
    rewrite old_run_cons.
    destruct (old_step_polled s ev) as (_ & _ & H3).
    destruct (H3 Hs) as [Hf Hp].
    destruct (IH _ Hf) as [Hp' Hf']. by rewrite Hp', Hp.
Qed.

Lemma poll_cameras_finishes (time : nat) (cameras : list HubCamera) :
  (∀ t c, camera_poll t c = None) →
  ∀ log, (poll_cameras camera_poll time cameras log).2 = true.
Proof.
  intros Hpoll. induction cameras as [|c cameras IH]; intros log; [done|].
  simpl. by rewrite Hpoll.
Qed.

Lemma old_step_stuck (s : System) (ev : Event) :
  (∀ t c, camera_poll t c = None) →
  stop_event s = true → is_alive (polling_thread s) = true →
  is_ready (main s) = false → main s ≠ Release →
  stop_event (step s ev) = true
  ∧ is_alive (polling_thread (step s ev)) = true
  ∧ is_ready (main (step s ev)) = false
  ∧ main (step s ev) ≠ Release.
Proof.
  intros Hpoll. destruct s as [cams se rt pt pc n ag pl ex ds sh]. simpl.
  intros -> Hp Hready Hrel.
  pose proof (poll_cameras_finishes n cams Hpoll pl) as Hfin.
  destruct ev; old_step_cases; try done.
Qed.

(** If the polling thread makes its test after [stop] has set the event,
    it enters its loop, which nothing ends; with polls that do not raise,
    [stop] then waits for ever: it never gets to release the streams and
    the cameras, and never returns. *)
Theorem stop_waits_for_ever_on_polling (s : System) (evs : list Event) :
  (∀ t c, camera_poll t c = None) →
  stop_event s = true →
  is_alive (polling_thread s) = true →
  main s = WaitReporting ∨ main s = WaitPolling →
  is_alive (polling_thread (run s evs)) = true
  ∧ is_ready (main (run s evs)) = false
  ∧ exited (run s evs) = exited s
  ∧ destroyed (run s evs) = destroyed s.
Proof.
  intros Hpoll He Hp Hmain.
  assert (Hready : is_ready (main s) = false) by (by destruct Hmain as [-> | ->]).
  assert (Hrel : main s ≠ Release) by (by destruct Hmain as [-> | ->]).
  clear Hmain. revert s He Hp Hready Hrel.
  induction evs as [|ev evs IH]; intros s He Hp Hready Hrel; [done|].
  rewrite old_run_cons.
  destruct (old_step_stuck s ev Hpoll He Hp Hready Hrel) as (He' & Hp' & Hr' & Hrel').
  destruct (IH _ He' Hp' Hr' Hrel') as (H1 & H2 & H3 & H4).
  split_and!; try done.
  - rewrite H3. destruct s as [cams se rt pt pc n ag pl ex ds sh]. simpl in *.
    destruct ev; old_step_cases; done.
  - rewrite H4. destruct s as [cams se rt pt pc n ag pl ex ds sh]. simpl in *.
    destruct ev; old_step_cases; done.
Qed.

(** With the polling thread gone and the reporting thread asleep, [stop]
    returns: the reporting loop wakes, finds the event set and ends, the
    two waits are passed, the agent is shut down and the streams and
    cameras are released; no camera has been polled meanwhile. *)
Theorem stop_returns_after_reporting_ends (s : System) :
  is_ready (main s) = true →
  reporting_thread s = InWait →
  is_alive (polling_thread s) = false →
  is_ready
    (main (run s [CallStop; ReportingStep; ReportingStep;
                  MainStep; MainStep; MainStep])) = true
  ∧ reporting_thread
      (run s [CallStop; ReportingStep; ReportingStep;
              MainStep; MainStep; MainStep]) = Finished
  ∧ agent_shutdown
      (run s [CallStop; ReportingStep; ReportingStep;
              MainStep; MainStep; MainStep]) = true
  ∧ destroyed s
    < destroyed
        (run s [CallStop; ReportingStep; ReportingStep;
                MainStep; MainStep; MainStep])
  ∧ polled
      (run s [CallStop; ReportingStep; ReportingStep;
              MainStep; MainStep; MainStep]) = polled s
  ∧ agent
      (run s [CallStop; ReportingStep; ReportingStep;
              MainStep; MainStep; MainStep]) = agent s.
Proof.
  intros Hready Hrt Hp.
  destruct s as [cams se rt pt pc n ag pl ex ds sh]. simpl in Hready, Hrt, Hp.
  subst rt.
  assert (Hmono : ∀ cs k0 cl cl' k' r,
             exit_cameras oak_camera_exit destroy_all_streams cs k0 cl
             = (cl', k', r) → k0 ≤ k').
  { induction cs as [|c cs IH]; intros k0 cl cl' k' r; simpl.
    - intros [= <- <- <-]. done.
    - destruct (decide (device_state c = DISCONNECTED)); simpl.
      + destruct (destroy_all_streams k0); [intros [= <- <- <-]; lia|].
        intros H. apply IH in H. lia.
      + destruct (oak_camera_exit c); [intros [= <- <- <-]; lia|].
        destruct (destroy_all_streams k0); [intros [= <- <- <-]; lia|].
        intros H. apply IH in H. lia. }
  rewrite !old_run_cons.
  do 5 (match goal with
        | |- context [OldManager.step _ _ _ _ _ _ _ _
                        (OldManager.mkSystem ?a ?b ?c ?d ?e ?f ?g ?h ?i ?j ?k)
                        ?ev] =>
            let H := fresh in
            eassert (H : step (mkSystem a b c d e f g h i j k) ev = _)
              by (unfold OldManager.step, OldManager.main_step,
                    OldManager.call_stop, OldManager.reporting_step,
                    OldManager.with_main, OldManager.tick; simpl;
                  rewrite ?Hready, ?Hp; simpl; reflexivity);
            rewrite H; clear H
        end).
  unfold OldManager.run, OldManager.step, OldManager.main_step,
    OldManager.release_step. simpl.
  destruct (destroy_all_streams ds) as [e|]; simpl; [split_and!; try done; lia|].
  destruct (exit_cameras oak_camera_exit destroy_all_streams cams (S ds) ex)
    as [[closed k] raised] eqn:E. simpl.
  split_and!; try done.
  apply Hmono in E. lia.
Qed.

End OldRuns.

Lemma no_camera_is_polled_before_stop_witness :
  polled (old_run (boot old_cameras)
            [CallStart; PollingStep; ReportingStep; PollingStep; ReportingStep;
             PollingStep]) = []
  ∧ polled (old_run (boot old_cameras)
              [CallStart; PollingStep; CallStop; PollingStep; PollingStep])
    = [].
Proof.
  destruct (no_camera_is_polled_before_stop old_start old_poll old_report
              old_report sample_publish sample_publish old_exit old_destroy
              old_cameras
              [CallStart; PollingStep; ReportingStep; PollingStep;
               ReportingStep; PollingStep]) as [Hbefore _].
  destruct (no_camera_is_polled_before_stop old_start old_poll old_report
              old_report sample_publish sample_publish old_exit old_destroy
              old_cameras [CallStop; PollingStep; PollingStep]) as [_ Hgone].
  split.
  - apply Hbefore. reflexivity.
  - destruct (Hgone (old_run (boot old_cameras) [CallStart; PollingStep]))
      as [Hp _]; [reflexivity|].
    exact Hp.
Defined.

Lemma stop_waits_for_ever_on_polling_witness :
  is_ready
    (main (old_run
             (old_run (boot old_cameras) [CallStart; CallStop; PollingStep])
             [ReportingStep; MainStep; PollingStep; MainStep; PollingStep;
              MainStep])) = false.
Proof.
  destruct (stop_waits_for_ever_on_polling old_start old_poll old_report
              old_report sample_publish sample_publish old_exit old_destroy
              (old_run (boot old_cameras) [CallStart; CallStop; PollingStep])
              [ReportingStep; MainStep; PollingStep; MainStep; PollingStep;
               MainStep]) as (_ & Hready & _).
  - reflexivity.
  - reflexivity.
  - reflexivity.
  - left. reflexivity.
  - exact Hready.
Defined.

Lemma stop_returns_after_reporting_ends_witness :
  main (old_run
          (old_run (boot old_cameras) [CallStart; PollingStep; ReportingStep])
          [CallStop; ReportingStep; ReportingStep; MainStep; MainStep; MainStep])
  = OldManager.Ready None.
Proof.
  destruct (stop_returns_after_reporting_ends old_start old_poll old_report
              old_report sample_publish sample_publish old_exit old_destroy
              (old_run (boot old_cameras) [CallStart; PollingStep; ReportingStep]))
    as (Hready & _).
  - reflexivity.
  - reflexivity.
  - reflexivity.
  - revert Hready. vm_compute. done.
Defined.

End OldManagerFacts.
